(** * eco-goinfra: resource builders for BareMetalHost and NodePool

    A shallow embedding of [pkg/bmh/bmh.go] and [pkg/hypershift/nodepool.go].

    Both packages wrap a controller-runtime client.  A builder is a mutable
    struct reached through a pointer; its methods read and write the builder
    and talk to the cluster.  The embedding threads the pair (builder, cluster)
    through a small state monad whose outcome is either a normal return or a
    Go run-time panic (nil pointer dereference).

    The fields [Definition] and [Object] of a builder are pointers to API
    objects.  A builder is modelled by the objects behind the two pointers
    together with the fact that both are one pointer, which [Create] and the
    pull functions bring about: a write through [Definition] is then seen
    through [Object]. *)

From Stdlib Require Import String Ascii List ZArith Bool Lia.
Import ListNotations.
Open Scope string_scope.

Set Implicit Arguments.

(** ** Go errors *)

(** [metav1.StatusReason] of an API status error. *)
Inductive StatusReason : Type :=
| StatusReasonUnknown
| StatusReasonNotFound
| StatusReasonAlreadyExists
| StatusReasonConflict
| StatusReasonForbidden
| StatusReasonTimeout
| StatusReasonInternalError.

(** The error values that flow through the two packages.
    - [StatusError]: an API error returned by the cluster client;
    - [errorString]: [errors.New] / [fmt.Errorf] without [%w];
    - [wrapError]: [fmt.Errorf] with a trailing [%w] operand, [prefix] being
      the text in front of the wrapped error;
    - [ErrWaitTimeout]: the sentinel of [k8s.io/apimachinery/pkg/util/wait]. *)
Inductive error : Type :=
| StatusError (reason : StatusReason) (message : string)
| errorString (s : string)
| wrapError (prefix : string) (err : error)
| ErrWaitTimeout.

(** [err.Error()]. *)
Fixpoint Error (e : error) : string :=
  match e with
  | StatusError _ message => message
  | errorString s => s
  | wrapError prefix err => prefix ++ Error err
  | ErrWaitTimeout => "timed out waiting for the condition"
  end.

Definition StatusReason_eqb (a b : StatusReason) : bool :=
  match a, b with
  | StatusReasonUnknown, StatusReasonUnknown
  | StatusReasonNotFound, StatusReasonNotFound
  | StatusReasonAlreadyExists, StatusReasonAlreadyExists
  | StatusReasonConflict, StatusReasonConflict
  | StatusReasonForbidden, StatusReasonForbidden
  | StatusReasonTimeout, StatusReasonTimeout
  | StatusReasonInternalError, StatusReasonInternalError => true
  | _, _ => false
  end.

(** [k8serrors.ReasonForError]: the reason of the first API status error on
    the unwrap chain, [StatusReasonUnknown] when there is none. *)
Fixpoint ReasonForError (e : error) : StatusReason :=
  match e with
  | StatusError reason _ => reason
  | wrapError _ err => ReasonForError err
  | errorString _ | ErrWaitTimeout => StatusReasonUnknown
  end.

(** [k8serrors.IsNotFound]. *)
Definition IsNotFound (e : error) : bool :=
  StatusReason_eqb (ReasonForError e) StatusReasonNotFound.

(** A string without the byte ['%'] holds no formatting directive. *)
Fixpoint percent_free (s : string) : bool :=
  match s with
  | EmptyString => true
  | String c rest => negb (Ascii.eqb c "%"%char) && percent_free rest
  end.

(** Go's [s != ""]. *)
Definition nonempty (s : string) : bool :=
  match s with
  | EmptyString => false
  | String _ _ => true
  end.

(** ** Shared API types *)

Record ObjectMeta : Type := mkObjectMeta {
  Name : string;
  Namespace : string
}.

(** [goclient.ObjectKey]. *)
Record ObjectKey : Type := mkObjectKey {
  key_Name : string;
  key_Namespace : string
}.

(** [*clients.Settings]: the handle through which the cluster is reached.
    The cluster itself is part of the threaded state. *)
Inductive Settings : Type := ClientSettings.

(** A value of type [*Builder]: nil, the receiver of the method at hand, or a
    pointer to another builder, given by the contents of that builder.  The
    methods return nil or their receiver; a caller-supplied option may return
    any builder. *)
Inductive BuilderPtr (B : Type) : Type :=
| NilBuilder
| Receiver
| OtherBuilder (other : B).

Arguments NilBuilder {B}.
Arguments Receiver {B}.
Arguments OtherBuilder {B} other.

(** ** Outcomes and the state monad *)

Inductive Outcome (S A : Type) : Type :=
| Normal (a : A) (s : S)
| Panic.

Arguments Normal {S A} a s.
Arguments Panic {S A}.

Definition M (S A : Type) : Type := S -> Outcome S A.

Definition ret {S A : Type} (a : A) : M S A := fun s => Normal a s.

Definition bind {S A B : Type} (m : M S A) (k : A -> M S B) : M S B :=
  fun s =>
    match m s with
    | Normal a s' => k a s'
    | Panic => Panic
    end.

Definition panic {S A : Type} : M S A := fun _ => Panic.

Definition gets {S A : Type} (f : S -> A) : M S A := fun s => Normal (f s) s.

Definition modify {S : Type} (f : S -> S) : M S unit := fun s => Normal tt (f s).

Declare Scope go_scope.
Delimit Scope go_scope with go.
Notation "x <- m ;; k" := (bind m (fun x => k))
  (at level 61, m at next level, right associativity) : go_scope.
Notation "' p <- m ;; k" := (bind m (fun x => let p := x in k))
  (at level 61, p pattern, m at next level, right associativity) : go_scope.
Notation "m ;;; k" := (bind m (fun _ => k))
  (at level 61, right associativity) : go_scope.

(** ** The cluster API client

    The client is an external collaborator.  A cluster is modelled by the
    replies it is going to give, indexed by how many requests of the same kind
    it has already served, together with the trace of requests received so far
    (most recent first).  Quantifying over the reply functions covers every
    behaviour a real cluster can show to the single-threaded caller. *)

Section Client.

Variable Obj : Type.

Inductive Call : Type :=
| CallGet (key : ObjectKey)
| CallCreate (obj : Obj)
| CallDelete (obj : Obj).

Inductive GetReply : Type :=
| Fetched (obj : Obj)
| FetchFailed (err : error).

Record Cluster : Type := mkCluster {
  get_reply : nat -> GetReply;
  create_reply : nat -> option error;
  delete_reply : nat -> option error;
  trace : list Call
}.

Definition is_get (c : Call) : bool :=
  match c with CallGet _ => true | _ => false end.
Definition is_create (c : Call) : bool :=
  match c with CallCreate _ => true | _ => false end.
Definition is_delete (c : Call) : bool :=
  match c with CallDelete _ => true | _ => false end.

Definition gets_made (c : Cluster) : nat := length (filter is_get (trace c)).
Definition creates_made (c : Cluster) : nat := length (filter is_create (trace c)).
Definition deletes_made (c : Cluster) : nat := length (filter is_delete (trace c)).

Definition record_call (call : Call) (c : Cluster) : Cluster :=
  mkCluster (get_reply c) (create_reply c) (delete_reply c) (call :: trace c).

(** [apiClient.Get(ctx, key, obj)]. *)
Definition client_Get (key : ObjectKey) (c : Cluster) : GetReply * Cluster :=
  (get_reply c (gets_made c), record_call (CallGet key) c).

(** [apiClient.Create(ctx, obj)]. *)
Definition client_Create (obj : Obj) (c : Cluster) : option error * Cluster :=
  (create_reply c (creates_made c), record_call (CallCreate obj) c).

(** [apiClient.Delete(ctx, obj)]. *)
Definition client_Delete (obj : Obj) (c : Cluster) : option error * Cluster :=
  (delete_reply c (deletes_made c), record_call (CallDelete obj) c).

(** What [Get] of a builder returns on a fetch outcome: the object and the
    error. *)
Definition reply_object (r : GetReply) : option Obj :=
  match r with
  | Fetched obj => Some obj
  | FetchFailed _ => None
  end.

Definition reply_error (r : GetReply) : option error :=
  match r with
  | Fetched _ => None
  | FetchFailed err => Some err
  end.

(** The not-found classification of a fetch outcome. *)
Definition fetch_not_found (r : GetReply) : bool :=
  match r with
  | Fetched _ => false
  | FetchFailed err => IsNotFound err
  end.

End Client.

Arguments CallGet {Obj} key.
Arguments CallCreate {Obj} obj.
Arguments CallDelete {Obj} obj.
Arguments Fetched {Obj} obj.
Arguments FetchFailed {Obj} err.

(** ** The poll primitive *)

(** [time.Duration], in nanoseconds. *)
Definition Duration : Type := Z.

Definition time_Second : Duration := 1000000000%Z.

(** [wait.ConditionFunc]: a closure over the builder and the cluster. *)
Definition ConditionFunc (S : Type) : Type := M S (bool * option error).

(** Modelled from the spec: the poll primitive ([wait.Poll] and
    [wait.PollImmediate] of k8s.io/apimachinery) is library code that is not
    part of the sources.  Following section 4.2, it evaluates the condition at
    a fixed interval; a condition that holds ends the wait with success, an
    error of the condition ends it with that error, and when the timeout has
    elapsed without success the wait ends with the timeout error.  Time is
    virtual: an evaluation of the condition takes none, and the evaluations of
    [wait.Poll] happen at [interval], [2 * interval], ... as long as that
    instant lies before the timeout.  [poll_loop n] is the loop with [n] such
    instants left. *)
Fixpoint poll_loop {S : Type} (n : nat) (condition : ConditionFunc S)
  : M S (option error) :=
  match n with
  | O => ret (Some ErrWaitTimeout)
  | Datatypes.S n' =>
      bind condition (fun r =>
        match snd r with
        | Some err => ret (Some err)
        | None => if fst r then ret None else poll_loop n' condition
        end)
  end.

(** The number of instants [interval], [2 * interval], ... strictly before
    [timeout]. *)
Definition ticks_before (interval timeout : Duration) : nat :=
  Z.to_nat ((timeout - 1) / interval).

(** Modelled from the spec: [wait.Poll] waits one interval before the first
    evaluation of the condition. *)
Definition wait_Poll {S : Type} (interval timeout : Duration)
  (condition : ConditionFunc S) : M S (option error) :=
  poll_loop (ticks_before interval timeout) condition.

(** Modelled from the spec: [wait.PollImmediate] evaluates the condition once
    at the start and then behaves as [wait.Poll]. *)
Definition wait_PollImmediate {S : Type} (interval timeout : Duration)
  (condition : ConditionFunc S) : M S (option error) :=
  bind condition (fun r =>
    match snd r with
    | Some err => ret (Some err)
    | None => if fst r then ret None else wait_Poll interval timeout condition
    end).

(** Client requests lifted to the threaded state (builder, cluster). *)
Definition call_Get {B Obj : Type} (key : ObjectKey) : M (B * Cluster Obj) (GetReply Obj) :=
  fun s => let (reply, c) := client_Get key (snd s) in Normal reply (fst s, c).

Definition call_Create {B Obj : Type} (obj : Obj) : M (B * Cluster Obj) (option error) :=
  fun s => let (err, c) := client_Create obj (snd s) in Normal err (fst s, c).

Definition call_Delete {B Obj : Type} (obj : Obj) : M (B * Cluster Obj) (option error) :=
  fun s => let (err, c) := client_Delete obj (snd s) in Normal err (fst s, c).

(** ** Functions of other packages

    [Sprintf0 format] is [fmt.Sprintf(format)] with no operands, the text of
    the error made by [fmt.Errorf(format)]; it belongs to Go's standard
    library.  [UndefinedCrdObjectErrString] belongs to [pkg/msg].  Neither is
    part of the sources, so both are taken as parameters. *)
Class Externals : Type := mkExternals {
  Sprintf0 : string -> string;
  UndefinedCrdObjectErrString : string -> string
}.

(** [fmt.Errorf(format)] called with a format and no operands. *)
Definition fmt_Errorf0 {ext : Externals} (format : string) : error :=
  errorString (Sprintf0 format).

(** * Package bmh *)

Module Bmh.

(** [bmhv1alpha1.RootDeviceHints]. *)
Record RootDeviceHints : Type := mkRootDeviceHints {
  DeviceName : string;
  HCTL : string;
  Model : string;
  Vendor : string;
  SerialNumber : string;
  MinSizeGigabytes : Z;
  WWN : string;
  WWNWithExtension : string;
  WWNVendorExtension : string;
  Rotational : option bool
}.

(** The zero value [&bmhv1alpha1.RootDeviceHints{}]. *)
Definition zero_RootDeviceHints : RootDeviceHints :=
  mkRootDeviceHints "" "" "" "" "" 0 "" "" "" None.

Record BMCDetails : Type := mkBMCDetails {
  Address : string;
  CredentialsName : string;
  DisableCertificateVerification : bool
}.

(** [Spec_RootDeviceHints] is the field [RootDeviceHints], a pointer. *)
Record BareMetalHostSpec : Type := mkBareMetalHostSpec {
  BMC : BMCDetails;
  BootMode : string;
  BootMACAddress : string;
  Online : bool;
  ExternallyProvisioned : bool;
  Spec_RootDeviceHints : option RootDeviceHints
}.

(** [bmhv1alpha1.ProvisioningState] is a string type. *)
Definition ProvisioningState : Type := string.

Definition StateProvisioned : ProvisioningState := "provisioned".
Definition StateProvisioning : ProvisioningState := "provisioning".
Definition StateReady : ProvisioningState := "ready".
Definition StateAvailable : ProvisioningState := "available".

Record ProvisionStatus : Type := mkProvisionStatus {
  State : ProvisioningState
}.

Record BareMetalHostStatus : Type := mkBareMetalHostStatus {
  Provisioning : ProvisionStatus
}.

(** [Meta] is the embedded [metaV1.ObjectMeta]. *)
Record BareMetalHost : Type := mkBareMetalHost {
  Meta : ObjectMeta;
  Spec : BareMetalHostSpec;
  Status : BareMetalHostStatus
}.

(** [type Builder struct].  [Defn] is the field [Definition]; a pointer field
    is an option, [None] being nil, [Some] giving the object behind the
    pointer.  [shared] tells that [Definition] and [Object] point to one and
    the same object: it is set by the assignments [builder.Object =
    builder.Definition] and [builder.Definition = builder.Object], and an
    object that [Get] returns is a new one. *)
Record Builder : Type := mkBuilder {
  Defn : option BareMetalHost;
  Object : option BareMetalHost;
  apiClient : option Settings;
  errorMsg : string;
  shared : bool
}.

(** The threaded state: the builder behind the receiver and the cluster. *)
Definition St : Type := (Builder * Cluster BareMetalHost)%type.

(** *** Field assignments *)

Definition set_errorMsg (m : string) (b : Builder) : Builder :=
  mkBuilder (Defn b) (Object b) (apiClient b) m (shared b).

(** [builder.Object = o] for nil or for the new object that a fetch returned:
    the pointer is no longer the one in [Definition]. *)
Definition set_Object (o : option BareMetalHost) (b : Builder) : Builder :=
  mkBuilder (Defn b) o (apiClient b) (errorMsg b) false.

(** A write through the pointer [Definition] (an assignment to a field of
    [builder.Definition.Spec]), after which the object behind the pointer is
    [d].  When [Object] is the same pointer, the object seen through it is the
    same object. *)
Definition set_Defn (d : option BareMetalHost) (b : Builder) : Builder :=
  mkBuilder d (if shared b then d else Object b) (apiClient b) (errorMsg b) (shared b).

(** [builder.Object = builder.Definition]. *)
Definition Object_from_Defn (b : Builder) : Builder :=
  mkBuilder (Defn b) (Defn b) (apiClient b) (errorMsg b)
    match Defn b with Some _ => true | None => false end.

(** [builder.Definition = builder.Object]. *)
Definition Defn_from_Object (b : Builder) : Builder :=
  mkBuilder (Object b) (Object b) (apiClient b) (errorMsg b)
    match Object b with Some _ => true | None => false end.

Definition assign_errorMsg (m : string) : M St unit :=
  modify (fun s => (set_errorMsg m (fst s), snd s)).

Definition assign_Object (o : option BareMetalHost) : M St unit :=
  modify (fun s => (set_Object o (fst s), snd s)).

Definition assign_Defn (d : option BareMetalHost) : M St unit :=
  modify (fun s => (set_Defn d (fst s), snd s)).

Definition assign_Object_from_Defn : M St unit :=
  modify (fun s => (Object_from_Defn (fst s), snd s)).

(** A method run with another builder as its receiver.  The builder of the
    caller is left alone and the cluster is the same one; the result comes
    with the other builder as the method leaves it. *)
Definition on_other {A : Type} (other : Builder) (method : M St A) : M St (A * Builder) :=
  fun s =>
    match method (other, snd s) with
    | Normal a s' => Normal (a, fst s') (fst s, snd s')
    | Panic => Panic
    end.

Definition set_hints (h : option RootDeviceHints) (d : BareMetalHost) : BareMetalHost :=
  mkBareMetalHost (Meta d)
    (mkBareMetalHostSpec (BMC (Spec d)) (BootMode (Spec d)) (BootMACAddress (Spec d))
       (Online (Spec d)) (ExternallyProvisioned (Spec d)) h)
    (Status d).

Definition set_DeviceName (v : string) (h : RootDeviceHints) : RootDeviceHints :=
  mkRootDeviceHints v (HCTL h) (Model h) (Vendor h) (SerialNumber h)
    (MinSizeGigabytes h) (WWN h) (WWNWithExtension h) (WWNVendorExtension h) (Rotational h).

Definition set_HCTL (v : string) (h : RootDeviceHints) : RootDeviceHints :=
  mkRootDeviceHints (DeviceName h) v (Model h) (Vendor h) (SerialNumber h)
    (MinSizeGigabytes h) (WWN h) (WWNWithExtension h) (WWNVendorExtension h) (Rotational h).

Definition set_Model (v : string) (h : RootDeviceHints) : RootDeviceHints :=
  mkRootDeviceHints (DeviceName h) (HCTL h) v (Vendor h) (SerialNumber h)
    (MinSizeGigabytes h) (WWN h) (WWNWithExtension h) (WWNVendorExtension h) (Rotational h).

Definition set_Vendor (v : string) (h : RootDeviceHints) : RootDeviceHints :=
  mkRootDeviceHints (DeviceName h) (HCTL h) (Model h) v (SerialNumber h)
    (MinSizeGigabytes h) (WWN h) (WWNWithExtension h) (WWNVendorExtension h) (Rotational h).

Definition set_SerialNumber (v : string) (h : RootDeviceHints) : RootDeviceHints :=
  mkRootDeviceHints (DeviceName h) (HCTL h) (Model h) (Vendor h) v
    (MinSizeGigabytes h) (WWN h) (WWNWithExtension h) (WWNVendorExtension h) (Rotational h).

Definition set_MinSizeGigabytes (v : Z) (h : RootDeviceHints) : RootDeviceHints :=
  mkRootDeviceHints (DeviceName h) (HCTL h) (Model h) (Vendor h) (SerialNumber h)
    v (WWN h) (WWNWithExtension h) (WWNVendorExtension h) (Rotational h).

Definition set_WWN (v : string) (h : RootDeviceHints) : RootDeviceHints :=
  mkRootDeviceHints (DeviceName h) (HCTL h) (Model h) (Vendor h) (SerialNumber h)
    (MinSizeGigabytes h) v (WWNWithExtension h) (WWNVendorExtension h) (Rotational h).

Definition set_WWNWithExtension (v : string) (h : RootDeviceHints) : RootDeviceHints :=
  mkRootDeviceHints (DeviceName h) (HCTL h) (Model h) (Vendor h) (SerialNumber h)
    (MinSizeGigabytes h) (WWN h) v (WWNVendorExtension h) (Rotational h).

Definition set_WWNVendorExtension (v : string) (h : RootDeviceHints) : RootDeviceHints :=
  mkRootDeviceHints (DeviceName h) (HCTL h) (Model h) (Vendor h) (SerialNumber h)
    (MinSizeGigabytes h) (WWN h) (WWNWithExtension h) v (Rotational h).

Definition set_Rotational (v : option bool) (h : RootDeviceHints) : RootDeviceHints :=
  mkRootDeviceHints (DeviceName h) (HCTL h) (Model h) (Vendor h) (SerialNumber h)
    (MinSizeGigabytes h) (WWN h) (WWNWithExtension h) (WWNVendorExtension h) v.

(** [Spec.RootDeviceHints] once the lazy allocation is done: the structure
    in place, or the zero value when the pointer is nil. *)
Definition current_hints (d : BareMetalHost) : RootDeviceHints :=
  match Spec_RootDeviceHints (Spec d) with
  | None => zero_RootDeviceHints
  | Some h => h
  end.

Section Methods.

Context {ext : Externals}.

(** *** NewBuilder *)

Definition bootModeAcceptable : list string := ["UEFI"; "UEFISecureBoot"; "legacy"].

(** [slices.Contains]. *)
Definition slices_Contains (l : list string) (v : string) : bool :=
  existsb (String.eqb v) l.

(** [NewBuilder].  The checks are conditional assignments to the one field
    [errorMsg], run one after the other.  The result is [&builder]. *)
Definition NewBuilder (client : option Settings)
  (name nsname bmcAddress bmcSecretName bootMacAddress bootMode : string)
  : option Builder :=
  let builder :=
    mkBuilder
      (Some (mkBareMetalHost
               (mkObjectMeta name nsname)
               (mkBareMetalHostSpec
                  (mkBMCDetails bmcAddress bmcSecretName true)
                  bootMode bootMacAddress true false None)
               (mkBareMetalHostStatus (mkProvisionStatus ""))))
      None client "" false in
  let builder :=
    if name =? "" then set_errorMsg "BMH 'name' cannot be empty" builder
    else builder in
  let builder :=
    if nsname =? "" then set_errorMsg "BMH 'nsname' cannot be empty" builder
    else builder in
  let builder :=
    if bmcAddress =? "" then set_errorMsg "BMH 'bmcAddress' cannot be empty" builder
    else builder in
  let builder :=
    if bmcSecretName =? "" then set_errorMsg "BMH 'bmcSecretName' cannot be empty" builder
    else builder in
  let builder :=
    if negb (slices_Contains bootModeAcceptable bootMode)
    then set_errorMsg "Not acceptable 'bootMode' value" builder
    else builder in
  let builder :=
    if bootMacAddress =? "" then set_errorMsg "BMH 'bootMacAddress' cannot be empty" builder
    else builder in
  Some builder.

(** *** Mutators of the root device hints *)

(** The body shared by the [WithRootDevice...] methods: [invalid] is the
    test on the argument, [msg] the message stored when it fails and [set]
    the assignment to the field of [Spec.RootDeviceHints].  The assignments
    are made in place, in the object behind [builder.Definition]. *)
Definition with_root_device_hint (invalid : bool) (msg : string)
  (set : RootDeviceHints -> RootDeviceHints) : M St (BuilderPtr Builder) :=
  (builder <- gets fst ;;
   match Defn builder with
   | None => assign_errorMsg (UndefinedCrdObjectErrString "BareMetalHost")
   | Some _ => ret tt
   end ;;;
   (if invalid then assign_errorMsg msg else ret tt) ;;;
   builder <- gets fst ;;
   if nonempty (errorMsg builder) then ret Receiver
   else
     match Defn builder with
     | None => panic
     | Some d =>
         assign_Defn (Some (set_hints (Some (set (current_hints d))) d)) ;;;
         ret Receiver
     end)%go.

Definition WithRootDeviceDeviceName (deviceName : string) : M St (BuilderPtr Builder) :=
  with_root_device_hint (deviceName =? "")
    "the baremetalhost rootDeviceHint deviceName cannot be empty"
    (set_DeviceName deviceName).

Definition WithRootDeviceHTCL (hctl : string) : M St (BuilderPtr Builder) :=
  with_root_device_hint (hctl =? "")
    "the baremetalhost rootDeviceHint hctl cannot be empty"
    (set_HCTL hctl).

Definition WithRootDeviceModel (model : string) : M St (BuilderPtr Builder) :=
  with_root_device_hint (model =? "")
    "the baremetalhost rootDeviceHint model cannot be empty"
    (set_Model model).

(** The source assigns [RootDeviceHints.Model = vendor]. *)
Definition WithRootDeviceVendor (vendor : string) : M St (BuilderPtr Builder) :=
  with_root_device_hint (vendor =? "")
    "the baremetalhost rootDeviceHint vendor cannot be empty"
    (set_Model vendor).

Definition WithRootDeviceSerialNumber (serialNumber : string) : M St (BuilderPtr Builder) :=
  with_root_device_hint (serialNumber =? "")
    "the baremetalhost rootDeviceHint serialNumber cannot be empty"
    (set_SerialNumber serialNumber).

Definition WithRootDeviceMinSizeGigabytes (size : Z) : M St (BuilderPtr Builder) :=
  with_root_device_hint (size <? 0)%Z
    "the baremetalhost rootDeviceHint size cannot be less than 0"
    (set_MinSizeGigabytes size).

Definition WithRootDeviceWWN (wwn : string) : M St (BuilderPtr Builder) :=
  with_root_device_hint (wwn =? "")
    "the baremetalhost rootDeviceHint wwn cannot be empty"
    (set_WWN wwn).

Definition WithRootDeviceWWNWithExtension (wwnWithExtension : string) : M St (BuilderPtr Builder) :=
  with_root_device_hint (wwnWithExtension =? "")
    "the baremetalhost rootDeviceHint wwnWithExtension cannot be empty"
    (set_WWNWithExtension wwnWithExtension).

Definition WithRootDeviceWWNVendorExtension (wwnVendorExtension : string) : M St (BuilderPtr Builder) :=
  with_root_device_hint (wwnVendorExtension =? "")
    "the baremetalhost rootDeviceHint wwnVendorExtension cannot be empty"
    (set_WWNVendorExtension wwnVendorExtension).

(** [WithRootDeviceRotationalDisk] has no test on its argument. *)
Definition WithRootDeviceRotationalDisk (rotational : bool) : M St (BuilderPtr Builder) :=
  with_root_device_hint false "" (set_Rotational (Some rotational)).

(** *** WithOptions *)

(** [AdditionalOptions]: caller-supplied code that is handed the builder, may
    work on it and on the cluster, and returns a builder pointer (the one it
    was handed, nil, or any other builder) and an error. *)
Definition AdditionalOptions : Type := M St (BuilderPtr Builder * option error).

(** The [for] loop of [WithOptions] over the options; a nil option is an
    entry [None].  The builder returned by an option is a variable of the loop
    body, [builder, err := option(builder)]: it is used only when the option
    failed, and then the text of the error is written into that builder, which
    is the one returned.  After an option that succeeded the loop goes on with
    the receiver. *)
Fixpoint WithOptions_loop (options : list (option AdditionalOptions)) : M St (BuilderPtr Builder) :=
  match options with
  | [] => ret Receiver
  | None :: rest => WithOptions_loop rest
  | Some option :: rest =>
      (r <- option ;;
       match snd r with
       | Some err =>
           match fst r with
           | NilBuilder => panic
           | Receiver => assign_errorMsg (Error err) ;;; ret Receiver
           | OtherBuilder other => ret (OtherBuilder (set_errorMsg (Error err) other))
           end
       | None => WithOptions_loop rest
       end)%go
  end.

Definition WithOptions (options : list (option AdditionalOptions)) : M St (BuilderPtr Builder) :=
  (builder <- gets fst ;;
   match Defn builder with
   | None => assign_errorMsg (UndefinedCrdObjectErrString "bmh")
   | Some _ => ret tt
   end ;;;
   builder <- gets fst ;;
   if nonempty (errorMsg builder) then ret Receiver
   else WithOptions_loop options)%go.

(** *** Get, Exists, Create, Delete *)

(** [Get]: reading [builder.apiClient] or [builder.Definition.Name] through a
    nil pointer panics. *)
Definition Get : M St (option BareMetalHost * option error) :=
  (builder <- gets fst ;;
   match apiClient builder, Defn builder with
   | Some _, Some d =>
       reply <- call_Get (mkObjectKey (Name (Meta d)) (Namespace (Meta d))) ;;
       match reply with
       | FetchFailed err => ret (None, Some err)
       | Fetched bmh => ret (Some bmh, None)
       end
   | _, _ => panic
   end)%go.

Definition Exists : M St bool :=
  (r <- Get ;;
   assign_Object (fst r) ;;;
   ret match snd r with
       | None => true
       | Some err => negb (IsNotFound err)
       end)%go.

Definition Create : M St (BuilderPtr Builder * option error) :=
  (builder <- gets fst ;;
   if nonempty (errorMsg builder)
   then ret (NilBuilder, Some (fmt_Errorf0 (errorMsg builder)))
   else
     found <- Exists ;;
     if negb found then
       builder <- gets fst ;;
       match apiClient builder, Defn builder with
       | Some _, Some d =>
           err <- call_Create d ;;
           match err with
           | None => assign_Object_from_Defn ;;; ret (Receiver, None)
           | Some _ => ret (Receiver, err)
           end
       | _, _ => panic
       end
     else ret (Receiver, None))%go.

Definition Delete : M St (BuilderPtr Builder * option error) :=
  (found <- Exists ;;
   if negb found
   then ret (Receiver,
             Some (errorString "bmh cannot be deleted because it does not exist"))
   else
     builder <- gets fst ;;
     match apiClient builder, Defn builder with
     | Some _, Some d =>
         err <- call_Delete d ;;
         match err with
         | Some e => ret (Receiver, Some (wrapError "can not delete bmh: " e))
         | None => assign_Object None ;;; ret (Receiver, None)
         end
     | _, _ => panic
     end)%go.

(** [Pull] builds its own builder and runs [Exists] on it; the outcome is the
    returned pointer (the new builder or nil), the error and the cluster. *)
Definition Pull (client : option Settings) (name nsname : string)
  (c : Cluster BareMetalHost)
  : Outcome (Cluster BareMetalHost) (option Builder * option error) :=
  let builder :=
    mkBuilder
      (Some (mkBareMetalHost (mkObjectMeta name nsname)
               (mkBareMetalHostSpec (mkBMCDetails "" "" false) "" "" false false None)
               (mkBareMetalHostStatus (mkProvisionStatus ""))))
      None client "" false in
  let builder :=
    if name =? "" then set_errorMsg "baremetalhost 'name' cannot be empty" builder
    else builder in
  let builder :=
    if nsname =? "" then set_errorMsg "baremetalhost 'namespace' cannot be empty" builder
    else builder in
  match Exists (builder, c) with
  | Panic => Panic
  | Normal found (builder, c') =>
      if negb found
      then Normal (None,
                   Some (errorString ("baremetalhost object " ++ name
                                      ++ " doesn't exist in namespace " ++ nsname)))
                  c'
      else Normal (Some (Defn_from_Object builder), None) c'
  end.

(** *** Waits *)

(** The condition closure of [WaitUntilInStatus]. *)
Definition WaitUntilInStatus_condition (status : ProvisioningState) : ConditionFunc St :=
  (r <- Get ;;
   assign_Object (fst r) ;;;
   match snd r with
   | Some _ => ret (false, None)
   | None =>
       builder <- gets fst ;;
       match Object builder with
       | None => panic
       | Some o =>
           if State (Provisioning (Status o)) =? status
           then ret (true, None)
           else ret (false, snd r)
       end
   end)%go.

Definition WaitUntilInStatus (status : ProvisioningState) (timeout : Duration)
  : M St (option error) :=
  (builder <- gets fst ;;
   if nonempty (errorMsg builder)
   then ret (Some (fmt_Errorf0 (errorMsg builder)))
   else wait_PollImmediate time_Second timeout (WaitUntilInStatus_condition status))%go.

Definition WaitUntilProvisioned (timeout : Duration) : M St (option error) :=
  WaitUntilInStatus StateProvisioned timeout.

Definition WaitUntilProvisioning (timeout : Duration) : M St (option error) :=
  WaitUntilInStatus StateProvisioning timeout.

Definition WaitUntilReady (timeout : Duration) : M St (option error) :=
  WaitUntilInStatus StateReady timeout.

Definition WaitUntilAvailable (timeout : Duration) : M St (option error) :=
  WaitUntilInStatus StateAvailable timeout.

(** [CreateAndWaitUntilProvisioned]: the wait is called on the pointer that
    [Create] returned; on a nil pointer it panics when it reads the error
    state. *)
Definition CreateAndWaitUntilProvisioned (timeout : Duration)
  : M St (BuilderPtr Builder * option error) :=
  (r <- Create ;;
   match snd r with
   | Some err => ret (NilBuilder, Some err)
   | None =>
       match fst r with
       | NilBuilder => panic
       | Receiver =>
           err <- WaitUntilProvisioned timeout ;;
           ret (Receiver, err)
       | OtherBuilder other =>
           r' <- on_other other (WaitUntilProvisioned timeout) ;;
           ret (OtherBuilder (snd r'), fst r')
       end
   end)%go.

(** The condition closure of [WaitUntilDeleted]. *)
Definition WaitUntilDeleted_condition : ConditionFunc St :=
  (r <- Get ;;
   match snd r with
   | None => ret (false, None)
   | Some err =>
       if IsNotFound err then ret (true, None)
       else ret (false, Some err)
   end)%go.

Definition WaitUntilDeleted (timeout : Duration) : M St (option error) :=
  wait_Poll time_Second timeout WaitUntilDeleted_condition.

(** [DeleteAndWaitUntilDeleted]: the wait is called on the pointer that
    [Delete] returned.  On a nil pointer the condition of the wait panics when
    it is evaluated. *)
Definition DeleteAndWaitUntilDeleted (timeout : Duration)
  : M St (BuilderPtr Builder * option error) :=
  (r <- Delete ;;
   match snd r with
   | Some err => ret (fst r, Some err)
   | None =>
       match fst r with
       | NilBuilder =>
           err <- wait_Poll time_Second timeout panic ;;
           ret (NilBuilder, err)
       | Receiver =>
           err <- WaitUntilDeleted timeout ;;
           ret (NilBuilder, err)
       | OtherBuilder other =>
           r' <- on_other other (WaitUntilDeleted timeout) ;;
           ret (NilBuilder, fst r')
       end
   end)%go.

(** *** Operations on a builder, as data *)

Inductive Op : Type :=
| OpWithRootDeviceDeviceName (v : string)
| OpWithRootDeviceHTCL (v : string)
| OpWithRootDeviceModel (v : string)
| OpWithRootDeviceVendor (v : string)
| OpWithRootDeviceSerialNumber (v : string)
| OpWithRootDeviceMinSizeGigabytes (v : Z)
| OpWithRootDeviceWWN (v : string)
| OpWithRootDeviceWWNWithExtension (v : string)
| OpWithRootDeviceWWNVendorExtension (v : string)
| OpWithRootDeviceRotationalDisk (v : bool)
| OpWithOptions (options : list (option AdditionalOptions))
| OpCreate
| OpDelete
| OpExists
| OpGet
| OpCreateAndWaitUntilProvisioned (timeout : Duration)
| OpWaitUntilInStatus (status : ProvisioningState) (timeout : Duration)
| OpDeleteAndWaitUntilDeleted (timeout : Duration)
| OpWaitUntilDeleted (timeout : Duration).

Definition discard {A : Type} (m : M St A) : M St unit := (m ;;; ret tt)%go.

(** One call of a method on the builder; the returned values are dropped. *)
Definition run_op (op : Op) : M St unit :=
  match op with
  | OpWithRootDeviceDeviceName v => discard (WithRootDeviceDeviceName v)
  | OpWithRootDeviceHTCL v => discard (WithRootDeviceHTCL v)
  | OpWithRootDeviceModel v => discard (WithRootDeviceModel v)
  | OpWithRootDeviceVendor v => discard (WithRootDeviceVendor v)
  | OpWithRootDeviceSerialNumber v => discard (WithRootDeviceSerialNumber v)
  | OpWithRootDeviceMinSizeGigabytes v => discard (WithRootDeviceMinSizeGigabytes v)
  | OpWithRootDeviceWWN v => discard (WithRootDeviceWWN v)
  | OpWithRootDeviceWWNWithExtension v => discard (WithRootDeviceWWNWithExtension v)
  | OpWithRootDeviceWWNVendorExtension v => discard (WithRootDeviceWWNVendorExtension v)
  | OpWithRootDeviceRotationalDisk v => discard (WithRootDeviceRotationalDisk v)
  | OpWithOptions options => discard (WithOptions options)
  | OpCreate => discard Create
  | OpDelete => discard Delete
  | OpExists => discard Exists
  | OpGet => discard Get
  | OpCreateAndWaitUntilProvisioned timeout => discard (CreateAndWaitUntilProvisioned timeout)
  | OpWaitUntilInStatus status timeout => discard (WaitUntilInStatus status timeout)
  | OpDeleteAndWaitUntilDeleted timeout => discard (DeleteAndWaitUntilDeleted timeout)
  | OpWaitUntilDeleted timeout => discard (WaitUntilDeleted timeout)
  end.

(** A sequence of calls, stopped by a panic. *)
Fixpoint run_ops (ops : list Op) : M St unit :=
  match ops with
  | [] => ret tt
  | op :: rest => (run_op op ;;; run_ops rest)%go
  end.

End Methods.

(** *** Predicates used to state the properties *)

(** A builder whose validation state is clean: no stored error, and a
    definition and a client to work with. *)
Definition clean (b : Builder) : bool :=
  negb (nonempty (errorMsg b)) &&
  match Defn b with Some _ => true | None => false end &&
  match apiClient b with Some _ => true | None => false end.

(** The builder can reach the cluster: neither pointer it dereferences is
    nil.  Nothing is asked of the error state. *)
Definition connected (b : Builder) : bool :=
  match Defn b with Some _ => true | None => false end &&
  match apiClient b with Some _ => true | None => false end.

(** The key under which the builder fetches its resource. *)
Definition key_of (b : Builder) : ObjectKey :=
  match Defn b with
  | Some d => mkObjectKey (Name (Meta d)) (Namespace (Meta d))
  | None => mkObjectKey "" ""
  end.

(** The target condition of [WaitUntilInStatus] on a fetch outcome. *)
Definition in_status (status : ProvisioningState) (r : GetReply BareMetalHost) : bool :=
  match r with
  | Fetched o => State (Provisioning (Status o)) =? status
  | FetchFailed _ => false
  end.

(** The checks of [NewBuilder] in the order of the source: whether the check
    fails on the arguments, and the message it stores. *)
Definition NewBuilder_checks
  (name nsname bmcAddress bmcSecretName bootMacAddress bootMode : string)
  : list (bool * string) :=
  [ (name =? "", "BMH 'name' cannot be empty");
    (nsname =? "", "BMH 'nsname' cannot be empty");
    (bmcAddress =? "", "BMH 'bmcAddress' cannot be empty");
    (bmcSecretName =? "", "BMH 'bmcSecretName' cannot be empty");
    (negb (slices_Contains bootModeAcceptable bootMode), "Not acceptable 'bootMode' value");
    (bootMacAddress =? "", "BMH 'bootMacAddress' cannot be empty") ].

End Bmh.

(** * Package hypershift *)

Module Hypershift.

(** [Platform_Type] is the field [Type]. *)
Record NodePoolPlatform : Type := mkNodePoolPlatform {
  Platform_Type : string
}.

(** [hypershiftV1Beta1.PlatformType.AgentPlatform]. *)
Definition AgentPlatform : string := "Agent".

(** [Replicas] is written both from an [int32] (the constructor) and from a
    [*int32] ([WithReplicas]); it is kept as a pointer. *)
Record NodePoolSpec : Type := mkNodePoolSpec {
  ClusterName : string;
  Release : string;
  Replicas : option Z;
  Platform : NodePoolPlatform
}.

(** [Status_Replicas] is the field [Replicas] of the status. *)
Record NodePoolStatus : Type := mkNodePoolStatus {
  Status_Replicas : Z
}.

Record NodePool : Type := mkNodePool {
  Meta : ObjectMeta;
  Spec : NodePoolSpec;
  Status : NodePoolStatus
}.

(** [type NodePoolBuilder struct]; [Defn] is the field [Definition].  As in
    package bmh, [shared] tells that [Definition] and [Object] are one
    pointer. *)
Record NodePoolBuilder : Type := mkNodePoolBuilder {
  Defn : option NodePool;
  Object : option NodePool;
  errorMsg : string;
  apiClient : option Settings;
  shared : bool
}.

(** The threaded state.  The methods of this package test their receiver for
    nil, so the receiver is an option: [None] is a nil [*NodePoolBuilder].  A
    returned [Receiver] is that same pointer. *)
Definition St : Type := (option NodePoolBuilder * Cluster NodePool)%type.

Definition set_errorMsg (m : string) (b : NodePoolBuilder) : NodePoolBuilder :=
  mkNodePoolBuilder (Defn b) (Object b) m (apiClient b) (shared b).

(** [builder.Object = o] for nil or for the new object that a fetch returned. *)
Definition set_Object (o : option NodePool) (b : NodePoolBuilder) : NodePoolBuilder :=
  mkNodePoolBuilder (Defn b) o (errorMsg b) (apiClient b) false.

(** A write through the pointer [Definition], after which the object behind
    the pointer is [d]; [Object] shows the same object when it is the same
    pointer. *)
Definition set_Defn (d : option NodePool) (b : NodePoolBuilder) : NodePoolBuilder :=
  mkNodePoolBuilder d (if shared b then d else Object b) (errorMsg b) (apiClient b)
    (shared b).

(** [builder.Definition = builder.Object]. *)
Definition Defn_from_Object (b : NodePoolBuilder) : NodePoolBuilder :=
  mkNodePoolBuilder (Object b) (Object b) (errorMsg b) (apiClient b)
    match Object b with Some _ => true | None => false end.

Definition set_Replicas (r : option Z) (d : NodePool) : NodePool :=
  mkNodePool (Meta d)
    (mkNodePoolSpec (ClusterName (Spec d)) (Release (Spec d)) r (Platform (Spec d)))
    (Status d).

Definition assign_Object (o : option NodePool) : M St unit :=
  modify (fun s => (option_map (set_Object o) (fst s), snd s)).

Definition assign_Defn (d : option NodePool) : M St unit :=
  modify (fun s => (option_map (set_Defn d) (fst s), snd s)).

Section Methods.

Context {ext : Externals}.

(** [NewNodePoolBuilder]; [agentNamespace] is logged and otherwise unused. *)
Definition NewNodePoolBuilder (client : option Settings)
  (name nsname clusterName agentNamespace release : string) (replicas : Z)
  : option NodePoolBuilder :=
  let builder :=
    mkNodePoolBuilder
      (Some (mkNodePool (mkObjectMeta name nsname)
               (mkNodePoolSpec clusterName release (Some replicas)
                  (mkNodePoolPlatform AgentPlatform))
               (mkNodePoolStatus 0)))
      None "" client false in
  let builder :=
    if name =? "" then set_errorMsg "nodepool 'name' cannot be empty" builder
    else builder in
  let builder :=
    if nsname =? "" then set_errorMsg "nodepool 'namespace' cannot be empty" builder
    else builder in
  let builder :=
    if clusterName =? "" then set_errorMsg "nodepool 'clusterName' cannot be empty" builder
    else builder in
  let builder :=
    if release =? "" then set_errorMsg "nodepool 'release' cannot be empty" builder
    else builder in
  Some builder.

(** [validate], with [resourceCRD] = "NodePool" substituted in its messages. *)
Definition validate : M St (bool * option error) :=
  fun s =>
    match fst s with
    | None => Normal (false, Some (errorString "error: received nil NodePool builder")) s
    | Some builder =>
        let builder :=
          match Defn builder with
          | None => set_errorMsg (UndefinedCrdObjectErrString "NodePool") builder
          | Some _ => builder
          end in
        let builder :=
          match apiClient builder with
          | None => set_errorMsg "NodePool builder cannot have nil apiClient" builder
          | Some _ => builder
          end in
        if nonempty (errorMsg builder)
        then Normal (false, Some (fmt_Errorf0 (errorMsg builder))) (Some builder, snd s)
        else Normal (true, None) (Some builder, snd s)
    end.

(** [WithReplicas]: the assignment to [builder.Definition.Spec.Replicas] is
    made in place, in the object behind [Definition]. *)
Definition WithReplicas (replicas : option Z) : M St (BuilderPtr NodePoolBuilder) :=
  (r <- validate ;;
   if negb (fst r) then ret Receiver
   else
     recv <- gets fst ;;
     match recv with
     | Some builder =>
         match Defn builder with
         | Some d => assign_Defn (Some (set_Replicas replicas d)) ;;; ret Receiver
         | None => panic
         end
     | None => panic
     end)%go.

Definition Get : M St (option NodePool * option error) :=
  (r <- validate ;;
   if negb (fst r) then ret (None, snd r)
   else
     recv <- gets fst ;;
     match recv with
     | Some builder =>
         match apiClient builder, Defn builder with
         | Some _, Some d =>
             reply <- call_Get (mkObjectKey (Name (Meta d)) (Namespace (Meta d))) ;;
             match reply with
             | FetchFailed err => ret (None, Some err)
             | Fetched nodePool => ret (Some nodePool, None)
             end
         | _, _ => panic
         end
     | None => panic
     end)%go.

Definition Exists : M St bool :=
  (r <- validate ;;
   if negb (fst r) then ret false
   else
     g <- Get ;;
     assign_Object (fst g) ;;;
     ret match snd g with
         | None => true
         | Some err => negb (IsNotFound err)
         end)%go.

(** The condition closure of [WaitForReplicas]. *)
Definition WaitForReplicas_condition (replicas : Z) : ConditionFunc St :=
  (g <- Get ;;
   assign_Object (fst g) ;;;
   match snd g with
   | Some _ => ret (false, None)
   | None =>
       recv <- gets fst ;;
       match recv with
       | Some builder =>
           match Object builder with
           | Some o => ret (Z.eqb (Status_Replicas (Status o)) replicas, snd g)
           | None => panic
           end
       | None => panic
       end
   end)%go.

Definition WaitForReplicas (replicas : Z) (timeout : Duration)
  : M St (BuilderPtr NodePoolBuilder * option error) :=
  (r <- validate ;;
   if negb (fst r) then ret (Receiver, snd r)
   else
     err <- wait_PollImmediate time_Second timeout (WaitForReplicas_condition replicas) ;;
     match err with
     | None => ret (Receiver, None)
     | Some e => ret (NilBuilder, Some e)
     end)%go.

(** [PullNodePool] builds its own builder and runs [Exists] on it. *)
Definition PullNodePool (client : option Settings) (name nsname : string)
  (c : Cluster NodePool)
  : Outcome (Cluster NodePool) (option NodePoolBuilder * option error) :=
  let builder :=
    mkNodePoolBuilder
      (Some (mkNodePool (mkObjectMeta name nsname)
               (mkNodePoolSpec "" "" None (mkNodePoolPlatform ""))
               (mkNodePoolStatus 0)))
      None "" client false in
  let builder :=
    if name =? "" then set_errorMsg "nodepool 'name' cannot be empty" builder
    else builder in
  let builder :=
    if nsname =? "" then set_errorMsg "nodepool 'namespace' cannot be empty" builder
    else builder in
  match Exists (Some builder, c) with
  | Panic => Panic
  | Normal found (recv, c') =>
      if negb found
      then Normal (None,
                   Some (errorString ("nodepool object " ++ name
                                      ++ " doesn't exist in namespace " ++ nsname)))
                  c'
      else Normal (option_map Defn_from_Object recv, None) c'
  end.

(** *** Operations on a builder, as data *)

Inductive Op : Type :=
| OpWithReplicas (replicas : option Z)
| OpGet
| OpExists
| OpWaitForReplicas (replicas : Z) (timeout : Duration).

Definition discard {A : Type} (m : M St A) : M St unit := (m ;;; ret tt)%go.

Definition run_op (op : Op) : M St unit :=
  match op with
  | OpWithReplicas replicas => discard (WithReplicas replicas)
  | OpGet => discard Get
  | OpExists => discard Exists
  | OpWaitForReplicas replicas timeout => discard (WaitForReplicas replicas timeout)
  end.

Fixpoint run_ops (ops : list Op) : M St unit :=
  match ops with
  | [] => ret tt
  | op :: rest => (run_op op ;;; run_ops rest)%go
  end.

End Methods.

(** *** Predicates used to state the properties *)

(** A builder that passes [validate]. *)
Definition clean (b : NodePoolBuilder) : bool :=
  negb (nonempty (errorMsg b)) &&
  match Defn b with Some _ => true | None => false end &&
  match apiClient b with Some _ => true | None => false end.

Definition key_of (b : NodePoolBuilder) : ObjectKey :=
  match Defn b with
  | Some d => mkObjectKey (Name (Meta d)) (Namespace (Meta d))
  | None => mkObjectKey "" ""
  end.

(** The target condition of [WaitForReplicas] on a fetch outcome. *)
Definition has_replicas (replicas : Z) (r : GetReply NodePool) : bool :=
  match r with
  | Fetched o => Z.eqb (Status_Replicas (Status o)) replicas
  | FetchFailed _ => false
  end.

(** The checks of [NewNodePoolBuilder] in the order of the source. *)
Definition NewNodePoolBuilder_checks (name nsname clusterName release : string)
  : list (bool * string) :=
  [ (name =? "", "nodepool 'name' cannot be empty");
    (nsname =? "", "nodepool 'namespace' cannot be empty");
    (clusterName =? "", "nodepool 'clusterName' cannot be empty");
    (release =? "", "nodepool 'release' cannot be empty") ].

End Hypershift.

(** * Definitions used by the statements *)

(** The message of the last failing check of a list of checks; the empty
    string when none fails. *)
Definition last_failing (checks : list (bool * string)) : string :=
  match rev (filter fst checks) with
  | [] => ""
  | (_, m) :: _ => m
  end.

(** The cluster after [n] more fetches under [key]. *)
Definition after_gets {Obj : Type} (key : ObjectKey) (n : nat) (c : Cluster Obj) : Cluster Obj :=
  Nat.iter n (record_call (CallGet key)) c.

(** An invariant of the threaded state kept by a computation. *)
Definition preserves {S A : Type} (P : S -> Prop) (m : M S A) : Prop :=
  forall s a s', P s -> m s = Normal a s' -> P s'.

(** The builders on which the wait loops run: they reach the cluster and
    fetch under [key]. *)
Definition bmh_good (key : ObjectKey) (b : Bmh.Builder) : Prop :=
  Bmh.connected b = true /\ Bmh.key_of b = key.

Definition np_good (key : ObjectKey) (recv : option Hypershift.NodePoolBuilder) : Prop :=
  exists b, recv = Some b /\ Hypershift.clean b = true /\ Hypershift.key_of b = key.

(** The error state of the threaded builder is set. *)
Definition bmh_error_set (s : Bmh.St) : Prop :=
  nonempty (Bmh.errorMsg (fst s)) = true.

Definition np_error_set (s : Hypershift.St) : Prop :=
  exists b, fst s = Some b /\ nonempty (Hypershift.errorMsg b) = true.

(** *** The error state as seen by a method *)

(** The threaded state with the stored message of the builder replaced. *)
Definition bmh_set_message (m : string) (s : Bmh.St) : Bmh.St :=
  (Bmh.set_errorMsg m (fst s), snd s).

Definition map_state {S A : Type} (f : S -> S) (o : Outcome S A) : Outcome S A :=
  match o with
  | Normal a s => Normal a (f s)
  | Panic => Panic
  end.

(** A method that neither reads nor writes the error state: on the same
    builder with any other stored message it returns the same values, sends
    the same requests and leaves the same builder, stored message apart. *)
Definition ignores_error_state {A : Type} (method : M Bmh.St A) : Prop :=
  forall m s, method (bmh_set_message m s) = map_state (bmh_set_message m) (method s).

(** *** Concrete inputs *)

(** An instance of the outside functions for the concrete runs below.  The
    runs only format text without directives, which is formatted to itself. *)
Definition sample_externals : Externals :=
  mkExternals
    (fun format => format)
    (fun crd => "can not redefine the undefined " ++ crd).

Definition not_found : error := StatusError StatusReasonNotFound "baremetalhosts not found".

Definition unavailable : error := StatusError StatusReasonInternalError "connection refused".

Definition sample_host (state : string) : Bmh.BareMetalHost :=
  Bmh.mkBareMetalHost (mkObjectMeta "host0" "cluster0")
    (Bmh.mkBareMetalHostSpec (Bmh.mkBMCDetails "redfish://10.0.0.1" "bmc-secret" true)
       "UEFI" "aa:bb:cc:dd:ee:ff" true false None)
    (Bmh.mkBareMetalHostStatus (Bmh.mkProvisionStatus state)).

(** A well-formed builder, as [NewBuilder] makes it from valid arguments. *)
Definition good_builder : Bmh.Builder :=
  Bmh.mkBuilder (Some (sample_host "")) None (Some ClientSettings) "" false.

(** The builder [NewBuilder] makes when the BMC address is empty. *)
Definition addressless_builder : Bmh.Builder :=
  Bmh.mkBuilder
    (Some (Bmh.mkBareMetalHost (mkObjectMeta "host0" "cluster0")
             (Bmh.mkBareMetalHostSpec (Bmh.mkBMCDetails "" "bmc-secret" true)
                "UEFI" "aa:bb:cc:dd:ee:ff" true false None)
             (Bmh.mkBareMetalHostStatus (Bmh.mkProvisionStatus ""))))
    None (Some ClientSettings) "BMH 'bmcAddress' cannot be empty" false.

(** A cluster on which the host is absent. *)
Definition empty_cluster : Cluster Bmh.BareMetalHost :=
  mkCluster (fun _ => FetchFailed not_found) (fun _ => None) (fun _ => None) [].

(** A cluster on which the host is present and stays, whatever is asked. *)
Definition sticky_cluster : Cluster Bmh.BareMetalHost :=
  mkCluster (fun _ => Fetched (sample_host "provisioned")) (fun _ => None) (fun _ => None) [].

(** A cluster that cannot be reached. *)
Definition broken_cluster : Cluster Bmh.BareMetalHost :=
  mkCluster (fun _ => FetchFailed unavailable) (fun _ => None) (fun _ => Some unavailable) [].

(** A cluster on which the host is provisioned at the third fetch. *)
Definition provisioning_cluster : Cluster Bmh.BareMetalHost :=
  mkCluster
    (fun n => match n with
              | 0 => FetchFailed unavailable
              | 1 => Fetched (sample_host "provisioning")
              | _ => Fetched (sample_host "provisioned")
              end)
    (fun _ => None) (fun _ => None) [].

Definition sample_pool (replicas : Z) : Hypershift.NodePool :=
  Hypershift.mkNodePool (mkObjectMeta "pool0" "clusters")
    (Hypershift.mkNodePoolSpec "hosted0" "quay.io/release:4.14" (Some 3%Z)
       (Hypershift.mkNodePoolPlatform Hypershift.AgentPlatform))
    (Hypershift.mkNodePoolStatus replicas).

Definition good_pool_builder : Hypershift.NodePoolBuilder :=
  Hypershift.mkNodePoolBuilder (Some (sample_pool 0)) None "" (Some ClientSettings) false.

(** The builder [NewNodePoolBuilder] makes when the name is empty. *)
Definition nameless_pool_builder : Hypershift.NodePoolBuilder :=
  Hypershift.mkNodePoolBuilder
    (Some (Hypershift.mkNodePool (mkObjectMeta "" "clusters")
             (Hypershift.mkNodePoolSpec "hosted0" "quay.io/release:4.14" (Some 3%Z)
                (Hypershift.mkNodePoolPlatform Hypershift.AgentPlatform))
             (Hypershift.mkNodePoolStatus 0)))
    None "nodepool 'name' cannot be empty" (Some ClientSettings) false.

(** A cluster on which the pool reaches three replicas at the second fetch. *)
Definition scaling_cluster : Cluster Hypershift.NodePool :=
  mkCluster
    (fun n => match n with
              | 0 => Fetched (sample_pool 1)
              | _ => Fetched (sample_pool 3)
              end)
    (fun _ => None) (fun _ => None) [].

(** A cluster on which the pool is absent. *)
Definition poolless_cluster : Cluster Hypershift.NodePool :=
  mkCluster (fun _ => FetchFailed not_found) (fun _ => None) (fun _ => None) [].

(** A cluster on which the host is fetched twice and is gone afterwards. *)
Definition vanishing_cluster : Cluster Bmh.BareMetalHost :=
  mkCluster
    (fun n => match n with
              | 0 => Fetched (sample_host "deleting")
              | 1 => Fetched (sample_host "deleting")
              | _ => FetchFailed not_found
              end)
    (fun _ => None) (fun _ => None) [].

(** A builder whose definition is nil, as [Pull] returns it from a cluster that
    cannot be reached. *)
Definition undefined_builder : Bmh.Builder :=
  Bmh.mkBuilder None None (Some ClientSettings) "" false.

(** A node-pool builder made without a client. *)
Definition clientless_pool_builder : Hypershift.NodePoolBuilder :=
  Hypershift.mkNodePoolBuilder (Some (sample_pool 0)) None "" None false.

(** A node-pool builder whose definition is nil. *)
Definition undefined_pool_builder : Hypershift.NodePoolBuilder :=
  Hypershift.mkNodePoolBuilder None None "" (Some ClientSettings) false.

(** An option that fails. *)
Definition failing_option : Bmh.AdditionalOptions :=
  ret (Receiver, Some (errorString "unsupported firmware")).

(** An option that calls [WithRootDeviceModel] with an empty model on the
    builder it is handed and returns the result of that call with a nil
    error. *)
Definition bad_model_option : Bmh.AdditionalOptions :=
  (ptr <- @Bmh.WithRootDeviceModel sample_externals "" ;; ret (ptr, None))%go.

(** An option that returns the builder it is handed and an error whose text
    is empty, as [errors.New] makes it from the empty string. *)
Definition empty_error_option : Bmh.AdditionalOptions :=
  ret (Receiver, Some (errorString "")).

(** A builder of its own, as [NewBuilder] makes it for another host. *)
Definition spare_builder : Bmh.Builder :=
  Bmh.mkBuilder
    (Some (Bmh.mkBareMetalHost (mkObjectMeta "host1" "cluster0")
             (Bmh.mkBareMetalHostSpec (Bmh.mkBMCDetails "redfish://10.0.0.2" "bmc-secret" true)
                "UEFI" "aa:bb:cc:dd:ee:00" true false None)
             (Bmh.mkBareMetalHostStatus (Bmh.mkProvisionStatus ""))))
    None (Some ClientSettings) "" false.

(** An option that fails and returns another builder than the one it was
    handed. *)
Definition swapping_option : Bmh.AdditionalOptions :=
  ret (OtherBuilder spare_builder, Some (errorString "unsupported firmware")).

Definition forbidden : error := StatusError StatusReasonForbidden "baremetalhosts is forbidden".

(** A cluster on which the host is ready at the first fetch and provisioned
    afterwards, and may not be deleted. *)
Definition refusing_cluster : Cluster Bmh.BareMetalHost :=
  mkCluster
    (fun n => match n with
              | 0 => Fetched (sample_host "ready")
              | _ => Fetched (sample_host "provisioned")
              end)
    (fun _ => None) (fun _ => Some forbidden) [].

(** The builder after an existence check that found the host ready. *)
Definition observed_builder : Bmh.Builder :=
  Bmh.mkBuilder (Some (sample_host "")) (Some (sample_host "ready")) (Some ClientSettings)
    "" false.

(** The builder after [Create] has made the host: [Object] is the pointer
    [Definition]. *)
Definition created_builder : Bmh.Builder :=
  Bmh.mkBuilder (Some (sample_host "")) (Some (sample_host "")) (Some ClientSettings)
    "" true.

(** The builder [PullNodePool] returns for a pool of three replicas:
    [Definition] is the pointer [Object]. *)
Definition pulled_pool_builder : Hypershift.NodePoolBuilder :=
  Hypershift.mkNodePoolBuilder (Some (sample_pool 3)) (Some (sample_pool 3)) ""
    (Some ClientSettings) true.

(** *** Chains of mutators *)

(** The mutators of the root device hints among the operations: the test on
    the argument, the message stored when it fails and the assignment made
    when it passes, as each method of the source has them. *)
Definition hint_mutator (op : Bmh.Op)
  : option (bool * string * (Bmh.RootDeviceHints -> Bmh.RootDeviceHints)) :=
  match op with
  | Bmh.OpWithRootDeviceDeviceName v =>
      Some (v =? "", "the baremetalhost rootDeviceHint deviceName cannot be empty",
            Bmh.set_DeviceName v)
  | Bmh.OpWithRootDeviceHTCL v =>
      Some (v =? "", "the baremetalhost rootDeviceHint hctl cannot be empty",
            Bmh.set_HCTL v)
  | Bmh.OpWithRootDeviceModel v =>
      Some (v =? "", "the baremetalhost rootDeviceHint model cannot be empty",
            Bmh.set_Model v)
  | Bmh.OpWithRootDeviceVendor v =>
      Some (v =? "", "the baremetalhost rootDeviceHint vendor cannot be empty",
            Bmh.set_Model v)
  | Bmh.OpWithRootDeviceSerialNumber v =>
      Some (v =? "", "the baremetalhost rootDeviceHint serialNumber cannot be empty",
            Bmh.set_SerialNumber v)
  | Bmh.OpWithRootDeviceMinSizeGigabytes v =>
      Some ((v <? 0)%Z, "the baremetalhost rootDeviceHint size cannot be less than 0",
            Bmh.set_MinSizeGigabytes v)
  | Bmh.OpWithRootDeviceWWN v =>
      Some (v =? "", "the baremetalhost rootDeviceHint wwn cannot be empty",
            Bmh.set_WWN v)
  | Bmh.OpWithRootDeviceWWNWithExtension v =>
      Some (v =? "", "the baremetalhost rootDeviceHint wwnWithExtension cannot be empty",
            Bmh.set_WWNWithExtension v)
  | Bmh.OpWithRootDeviceWWNVendorExtension v =>
      Some (v =? "", "the baremetalhost rootDeviceHint wwnVendorExtension cannot be empty",
            Bmh.set_WWNVendorExtension v)
  | Bmh.OpWithRootDeviceRotationalDisk v =>
      Some (false, "", Bmh.set_Rotational (Some v))
  | _ => None
  end.

(** The operation is a mutator of the root device hints. *)
Definition is_hint_mutator (op : Bmh.Op) : bool :=
  match hint_mutator op with
  | Some _ => true
  | None => false
  end.

(** The operation is a mutator whose argument passes its test. *)
Definition is_valid_hint (op : Bmh.Op) : bool :=
  match hint_mutator op with
  | Some (false, _, _) => true
  | _ => false
  end.

(** The operation works on the definition only: a mutator of the hints or
    [WithOptions]. *)
Definition is_definition_step (op : Bmh.Op) : bool :=
  match op with
  | Bmh.OpWithOptions _ => true
  | _ => is_hint_mutator op
  end.

(** The assignments of a chain of mutators, applied in order to the hints. *)
Definition apply_hints (ops : list Bmh.Op) (h : Bmh.RootDeviceHints) : Bmh.RootDeviceHints :=
  fold_left
    (fun h op =>
       match hint_mutator op with
       | Some (_, _, set) => set h
       | None => h
       end)
    ops h.

(** The message of the last mutator of a chain whose argument fails its test;
    [m] when there is none. *)
Definition last_invalid_message (ops : list Bmh.Op) (m : string) : string :=
  fold_left
    (fun m op =>
       match hint_mutator op with
       | Some (true, msg, _) => msg
       | _ => m
       end)
    ops m.

(** The arguments of [NewBuilder] pass all of its checks. *)
Definition NewBuilder_valid
  (name nsname bmcAddress bmcSecretName bootMacAddress bootMode : string) : Prop :=
  name <> "" /\ nsname <> "" /\ bmcAddress <> "" /\ bmcSecretName <> ""
  /\ bootMacAddress <> "" /\ In bootMode Bmh.bootModeAcceptable.

(** The arguments of [NewNodePoolBuilder] pass all of its checks. *)
Definition NewNodePoolBuilder_valid (name nsname clusterName release : string) : Prop :=
  name <> "" /\ nsname <> "" /\ clusterName <> "" /\ release <> "".

(** * Properties *)

Unset Implicit Arguments.

(** ** The client and the poll loop *)

Lemma gets_made_record_get {Obj : Type} (key : ObjectKey) (c : Cluster Obj) :
  gets_made (record_call (CallGet key) c) = S (gets_made c).
Proof. reflexivity. Qed.

Lemma deletes_made_record_get {Obj : Type} (key : ObjectKey) (c : Cluster Obj) :
  deletes_made (record_call (CallGet key) c) = deletes_made c.
Proof. reflexivity. Qed.

Lemma after_gets_succ {Obj : Type} (key : ObjectKey) (n : nat) (c : Cluster Obj) :
  after_gets key (S n) c = after_gets key n (record_call (CallGet key) c).
Proof. unfold after_gets. apply Nat.iter_succ_r. Qed.

Lemma gets_made_after_gets {Obj : Type} (key : ObjectKey) (n : nat) (c : Cluster Obj) :
  gets_made (after_gets key n c) = (gets_made c + n)%nat.
Proof.
  revert c. induction n as [|n IH]; intro c.
  - simpl. lia.
  - rewrite after_gets_succ, IH, gets_made_record_get. lia.
Qed.

Lemma get_reply_after_gets {Obj : Type} (key : ObjectKey) (n : nat) (c : Cluster Obj) :
  get_reply (after_gets key n c) = get_reply c.
Proof.
  revert c. induction n as [|n IH]; intro c.
  - reflexivity.
  - rewrite after_gets_succ, IH. reflexivity.
Qed.

Lemma deletes_made_after_gets {Obj : Type} (key : ObjectKey) (n : nat) (c : Cluster Obj) :
  deletes_made (after_gets key n c) = deletes_made c.
Proof.
  revert c. induction n as [|n IH]; intro c.
  - reflexivity.
  - rewrite after_gets_succ, IH. apply deletes_made_record_get.
Qed.

(** [wait.PollImmediate] is the loop with one more evaluation. *)
Lemma wait_PollImmediate_loop {S : Type} (interval timeout : Duration)
  (condition : ConditionFunc S) :
  wait_PollImmediate interval timeout condition
  = poll_loop (Datatypes.S (ticks_before interval timeout)) condition.
Proof. reflexivity. Qed.

(** An instant [k] seconds after the start that lies before the timeout is one
    of the instants of the loop. *)
Lemma ticks_before_seconds (k : nat) (timeout : Duration) :
  (Z.of_nat k * time_Second < timeout)%Z ->
  (k <= ticks_before time_Second timeout)%nat.
Proof.
  intro H. unfold ticks_before.
  assert (Hq : (Z.of_nat k <= (timeout - 1) / time_Second)%Z).
  { apply Z.div_le_lower_bound.
    - unfold time_Second. lia.
    - lia. }
  apply Nat2Z.inj_le. rewrite Z2Nat.id; lia.
Qed.

Lemma nonempty_true_iff (s : string) : nonempty s = true <-> s <> "".
Proof. destruct s; simpl; split; congruence. Qed.

(** ** Constructors *)

(** C9: a constructor stores the message of the last check that fails, in the
    order in which the source runs its checks, and nothing of the earlier
    failures; in [NewBuilder] the test of [bootMacAddress] comes after the test
    of [bootMode], so an empty [bootMacAddress] hides an unacceptable
    [bootMode]. *)
Theorem constructor_keeps_last_failing_check :
  forall (client : option Settings)
         (name nsname bmcAddress bmcSecretName bootMacAddress bootMode : string)
         (clusterName agentNamespace release : string) (replicas : Z),
    (exists b,
        Bmh.NewBuilder client name nsname bmcAddress bmcSecretName bootMacAddress bootMode
        = Some b
        /\ Bmh.errorMsg b
           = last_failing (Bmh.NewBuilder_checks name nsname bmcAddress bmcSecretName
                             bootMacAddress bootMode))
    /\ (exists b,
           Hypershift.NewNodePoolBuilder client name nsname clusterName agentNamespace
             release replicas = Some b
           /\ Hypershift.errorMsg b
              = last_failing (Hypershift.NewNodePoolBuilder_checks name nsname clusterName
                                release))
    /\ (exists b,
           Bmh.NewBuilder client name nsname bmcAddress bmcSecretName "" bootMode = Some b
           /\ Bmh.errorMsg b = "BMH 'bootMacAddress' cannot be empty").
Proof.
  intros. unfold Bmh.NewBuilder, Hypershift.NewNodePoolBuilder, last_failing,
    Bmh.NewBuilder_checks, Hypershift.NewNodePoolBuilder_checks.
  repeat split.
  - eexists; split; [reflexivity|].
    destruct (name =? ""), (nsname =? ""), (bmcAddress =? ""), (bmcSecretName =? ""),
      (negb (Bmh.slices_Contains Bmh.bootModeAcceptable bootMode)), (bootMacAddress =? "");
      reflexivity.
  - eexists; split; [reflexivity|].
    destruct (name =? ""), (nsname =? ""), (clusterName =? ""), (release =? "");
      reflexivity.
  - eexists; split; [reflexivity|].
    destruct (name =? ""), (nsname =? ""), (bmcAddress =? ""), (bmcSecretName =? ""),
      (negb (Bmh.slices_Contains Bmh.bootModeAcceptable bootMode));
      reflexivity.
Qed.

(** ** Get and Exists *)

Lemma bmh_connected_inv (b : Bmh.Builder) :
  Bmh.connected b = true ->
  exists d cl, Bmh.Defn b = Some d /\ Bmh.apiClient b = Some cl.
Proof.
  unfold Bmh.connected. destruct (Bmh.Defn b) as [d|], (Bmh.apiClient b) as [cl|];
    simpl; try discriminate. intros _. eauto.
Qed.

Lemma bmh_clean_inv (b : Bmh.Builder) :
  Bmh.clean b = true -> Bmh.errorMsg b = "" /\ Bmh.connected b = true.
Proof.
  unfold Bmh.clean, Bmh.connected.
  destruct (Bmh.errorMsg b), (Bmh.Defn b), (Bmh.apiClient b); simpl;
    try discriminate; auto.
Qed.

(** [Get] of a connected builder is one request to the cluster. *)
Lemma bmh_Get_connected (b : Bmh.Builder) (c : Cluster Bmh.BareMetalHost) :
  Bmh.connected b = true ->
  Bmh.Get (b, c)
  = Normal (reply_object (get_reply c (gets_made c)),
            reply_error (get_reply c (gets_made c)))
           (b, record_call (CallGet (Bmh.key_of b)) c).
Proof.
  intro H. destruct (bmh_connected_inv b H) as (d & cl & Hd & Hc).
  unfold Bmh.Get, Bmh.key_of, bind, gets, call_Get, client_Get. simpl.
  rewrite Hd, Hc. simpl.
  destruct (get_reply c (gets_made c)); reflexivity.
Qed.

(** [Get] of a builder with a nil definition or a nil client panics. *)
Lemma bmh_Get_disconnected (b : Bmh.Builder) (c : Cluster Bmh.BareMetalHost) :
  Bmh.connected b = false -> Bmh.Get (b, c) = Panic.
Proof.
  unfold Bmh.connected, Bmh.Get, bind, gets. simpl.
  destruct (Bmh.Defn b), (Bmh.apiClient b); simpl; try discriminate; reflexivity.
Qed.

Lemma bmh_Exists_connected (b : Bmh.Builder) (c : Cluster Bmh.BareMetalHost) :
  Bmh.connected b = true ->
  Bmh.Exists (b, c)
  = Normal (negb (fetch_not_found (get_reply c (gets_made c))))
           (Bmh.set_Object (reply_object (get_reply c (gets_made c))) b,
            record_call (CallGet (Bmh.key_of b)) c).
Proof.
  intro H. unfold Bmh.Exists, bind. rewrite (bmh_Get_connected b c H). simpl.
  unfold ret. destruct (get_reply c (gets_made c)); reflexivity.
Qed.

Lemma np_clean_inv (b : Hypershift.NodePoolBuilder) :
  Hypershift.clean b = true ->
  exists d cl, Hypershift.errorMsg b = "" /\ Hypershift.Defn b = Some d
               /\ Hypershift.apiClient b = Some cl.
Proof.
  unfold Hypershift.clean.
  destruct (Hypershift.errorMsg b), (Hypershift.Defn b) as [d|],
    (Hypershift.apiClient b) as [cl|]; simpl; try discriminate.
  intros _. eauto.
Qed.

Section WithExternals.

Context {ext : Externals}.

(** [validate] passes on a clean builder and changes nothing. *)
Lemma np_validate_clean (b : Hypershift.NodePoolBuilder) (c : Cluster Hypershift.NodePool) :
  Hypershift.clean b = true ->
  Hypershift.validate (Some b, c) = Normal (true, None) (Some b, c).
Proof.
  intro H. destruct (np_clean_inv b H) as (d & cl & He & Hd & Hc).
  unfold Hypershift.validate. simpl. rewrite Hd, Hc, He. reflexivity.
Qed.

Lemma np_Get_clean (b : Hypershift.NodePoolBuilder) (c : Cluster Hypershift.NodePool) :
  Hypershift.clean b = true ->
  Hypershift.Get (Some b, c)
  = Normal (reply_object (get_reply c (gets_made c)),
            reply_error (get_reply c (gets_made c)))
           (Some b, record_call (CallGet (Hypershift.key_of b)) c).
Proof.
  intro H. unfold Hypershift.Get, bind. rewrite (np_validate_clean b c H). simpl.
  destruct (np_clean_inv b H) as (d & cl & He & Hd & Hc).
  unfold gets, Hypershift.key_of, call_Get, client_Get. simpl. rewrite Hd, Hc. simpl.
  destruct (get_reply c (gets_made c)); reflexivity.
Qed.

Lemma np_Exists_clean (b : Hypershift.NodePoolBuilder) (c : Cluster Hypershift.NodePool) :
  Hypershift.clean b = true ->
  Hypershift.Exists (Some b, c)
  = Normal (negb (fetch_not_found (get_reply c (gets_made c))))
           (Some (Hypershift.set_Object (reply_object (get_reply c (gets_made c))) b),
            record_call (CallGet (Hypershift.key_of b)) c).
Proof.
  intro H. unfold Hypershift.Exists, bind. rewrite (np_validate_clean b c H). simpl.
  rewrite (np_Get_clean b c H). simpl.
  unfold ret. destruct (get_reply c (gets_made c)); reflexivity.
Qed.

(** C1: on a builder whose validation state is clean, [Exists] returns false
    exactly when the fetch fails with an error classified as not found; a
    successful fetch and a fetch failing with any other error give true.  This
    holds for the bare-metal-host builder and for the node-pool builder. *)
Theorem Exists_false_iff_fetch_not_found :
  forall (b : Bmh.Builder) (c : Cluster Bmh.BareMetalHost)
         (nb : Hypershift.NodePoolBuilder) (nc : Cluster Hypershift.NodePool),
    Bmh.clean b = true ->
    Hypershift.clean nb = true ->
    (exists found s',
        Bmh.Exists (b, c) = Normal found s'
        /\ (found = false <->
            exists err, get_reply c (gets_made c) = FetchFailed err /\ IsNotFound err = true)
        /\ ((forall o, get_reply c (gets_made c) = Fetched o -> found = true)
            /\ (forall err, get_reply c (gets_made c) = FetchFailed err ->
                            IsNotFound err = false -> found = true)))
    /\ (exists found s',
           Hypershift.Exists (Some nb, nc) = Normal found s'
           /\ (found = false <->
               exists err, get_reply nc (gets_made nc) = FetchFailed err
                           /\ IsNotFound err = true)
           /\ ((forall o, get_reply nc (gets_made nc) = Fetched o -> found = true)
               /\ (forall err, get_reply nc (gets_made nc) = FetchFailed err ->
                               IsNotFound err = false -> found = true))).
Proof.
  intros b c nb nc Hb Hn.
  destruct (bmh_clean_inv b Hb) as [_ Hconn].
  split.
  - rewrite (bmh_Exists_connected b c Hconn).
    do 2 eexists. split; [reflexivity|].
    destruct (get_reply c (gets_made c)) as [o|err]; simpl.
    + split; [split|split].
      * discriminate.
      * intros (e & He & _). discriminate.
      * reflexivity.
      * intros e He. discriminate.
    + split; [split|split].
      * intro H. exists err. split; [reflexivity|].
        destruct (IsNotFound err); [reflexivity|discriminate].
      * intros (e & He & Hnf). inversion He; subst. rewrite Hnf. reflexivity.
      * intros o Ho. discriminate.
      * intros e He Hnf. inversion He; subst. rewrite Hnf. reflexivity.
  - rewrite (np_Exists_clean nb nc Hn).
    do 2 eexists. split; [reflexivity|].
    destruct (get_reply nc (gets_made nc)) as [o|err]; simpl.
    + split; [split|split].
      * discriminate.
      * intros (e & He & _). discriminate.
      * reflexivity.
      * intros e He. discriminate.
    + split; [split|split].
      * intro H. exists err. split; [reflexivity|].
        destruct (IsNotFound err); [reflexivity|discriminate].
      * intros (e & He & Hnf). inversion He; subst. rewrite Hnf. reflexivity.
      * intros o Ho. discriminate.
      * intros e He Hnf. inversion He; subst. rewrite Hnf. reflexivity.
Qed.

(** ** Delete *)

(** [Delete] of a connected builder, in terms of the existence check and of
    the delete request. *)
Lemma bmh_Delete_steps (b : Bmh.Builder) (c : Cluster Bmh.BareMetalHost)
  (d : Bmh.BareMetalHost) :
  Bmh.connected b = true ->
  Bmh.Defn b = Some d ->
  Bmh.Delete (b, c)
  = let reply := get_reply c (gets_made c) in
    let b1 := Bmh.set_Object (reply_object reply) b in
    let c1 := record_call (CallGet (Bmh.key_of b)) c in
    if fetch_not_found reply
    then Normal (Receiver,
                 Some (errorString "bmh cannot be deleted because it does not exist"))
           (b1, c1)
    else
      match delete_reply c (deletes_made c) with
      | None => Normal (Receiver, None) (Bmh.set_Object None b, record_call (CallDelete d) c1)
      | Some e =>
          Normal (Receiver, Some (wrapError "can not delete bmh: " e))
            (b1, record_call (CallDelete d) c1)
      end.
Proof.
  intros Hconn Hd.
  destruct (bmh_connected_inv b Hconn) as (d' & cl & Hd' & Hcl).
  rewrite Hd in Hd'. inversion Hd'; subst d'. clear Hd'.
  unfold Bmh.Delete, bind. rewrite (bmh_Exists_connected b c Hconn). cbv zeta.
  destruct (fetch_not_found (get_reply c (gets_made c))); [reflexivity|].
  unfold gets, call_Delete, client_Delete. simpl. rewrite Hd, Hcl. simpl.
  change (deletes_made (record_call (CallGet (Bmh.key_of b)) c)) with (deletes_made c).
  destruct (delete_reply c (deletes_made c)); reflexivity.
Qed.

(** C7 (amended): [Delete] first runs [Exists], whose fetch replaces the
    observed object by its outcome.  When [Exists] is false, [Delete] returns
    the error "bmh cannot be deleted because it does not exist" and the cluster
    has received the fetch only, no delete request.  When it is true the
    delete request is issued: on success [Object] is set to nil and no error
    is returned; on failure the error of the cluster is returned wrapped
    behind the text "can not delete bmh: ", and [Object] is what the fetch of
    the existence check returned, the fetched object or nil, whatever it was
    before the call. *)
Theorem Delete_contract :
  forall (b : Bmh.Builder) (c : Cluster Bmh.BareMetalHost) (d : Bmh.BareMetalHost),
    Bmh.connected b = true ->
    Bmh.Defn b = Some d ->
    let reply := get_reply c (gets_made c) in
    let b1 := Bmh.set_Object (reply_object reply) b in
    let c1 := record_call (CallGet (Bmh.key_of b)) c in
    Bmh.Exists (b, c) = Normal (negb (fetch_not_found reply)) (b1, c1)
    /\ (fetch_not_found reply = true ->
        Bmh.Delete (b, c)
        = Normal (Receiver,
                  Some (errorString "bmh cannot be deleted because it does not exist"))
                 (b1, c1)
        /\ deletes_made c1 = deletes_made c
        /\ Bmh.Object b1 = None)
    /\ (fetch_not_found reply = false ->
        delete_reply c (deletes_made c) = None ->
        Bmh.Delete (b, c)
        = Normal (Receiver, None) (Bmh.set_Object None b1, record_call (CallDelete d) c1)
        /\ Bmh.Object (Bmh.set_Object None b1) = None)
    /\ (forall e,
           fetch_not_found reply = false ->
           delete_reply c (deletes_made c) = Some e ->
           Bmh.Delete (b, c)
           = Normal (Receiver, Some (wrapError "can not delete bmh: " e))
                    (b1, record_call (CallDelete d) c1)
           /\ Error (wrapError "can not delete bmh: " e) = "can not delete bmh: " ++ Error e
           /\ Bmh.Object b1 = reply_object reply
           /\ Bmh.Defn b1 = Bmh.Defn b).
Proof.
  intros b c d Hconn Hd reply b1 c1. subst reply b1 c1.
  destruct (bmh_connected_inv b Hconn) as (d' & cl & Hd' & Hcl).
  rewrite Hd in Hd'. inversion Hd'; subst d'. clear Hd'.
  split; [apply bmh_Exists_connected; assumption|].
  unfold Bmh.Delete, bind. rewrite (bmh_Exists_connected b c Hconn).
  split; [|split].
  - intro Hnf. rewrite Hnf. cbn [negb]. repeat split.
    destruct (get_reply c (gets_made c)) as [o|e]; [discriminate Hnf|reflexivity].
  - intros Hnf Hdel. rewrite Hnf. cbn [negb].
    unfold gets, call_Delete, client_Delete. simpl. rewrite Hd, Hcl. simpl.
    change (deletes_made (record_call (CallGet (Bmh.key_of b)) c)) with (deletes_made c).
    rewrite Hdel. split; reflexivity.
  - intros e Hnf Hdel. rewrite Hnf. cbn [negb].
    unfold gets, call_Delete, client_Delete. simpl. rewrite Hd, Hcl. simpl.
    change (deletes_made (record_call (CallGet (Bmh.key_of b)) c)) with (deletes_made c).
    rewrite Hdel. repeat split.
Qed.

(** ** The conditions of the waits *)

(** One evaluation of the condition of [WaitUntilInStatus] on a connected
    builder. *)
Lemma bmh_status_condition_step (status : Bmh.ProvisioningState)
  (b : Bmh.Builder) (c : Cluster Bmh.BareMetalHost) :
  Bmh.connected b = true ->
  Bmh.WaitUntilInStatus_condition status (b, c)
  = Normal (Bmh.in_status status (get_reply c (gets_made c)), None)
           (Bmh.set_Object (reply_object (get_reply c (gets_made c))) b,
            record_call (CallGet (Bmh.key_of b)) c).
Proof.
  intro H. unfold Bmh.WaitUntilInStatus_condition, bind.
  rewrite (bmh_Get_connected b c H). simpl.
  destruct (get_reply c (gets_made c)) as [o|err]; simpl; [|reflexivity].
  unfold gets, ret. simpl.
  destruct (Bmh.State (Bmh.Provisioning (Bmh.Status o)) =? status); reflexivity.
Qed.

Lemma np_replicas_condition_step (replicas : Z)
  (b : Hypershift.NodePoolBuilder) (c : Cluster Hypershift.NodePool) :
  Hypershift.clean b = true ->
  Hypershift.WaitForReplicas_condition replicas (Some b, c)
  = Normal (Hypershift.has_replicas replicas (get_reply c (gets_made c)), None)
           (Some (Hypershift.set_Object (reply_object (get_reply c (gets_made c))) b),
            record_call (CallGet (Hypershift.key_of b)) c).
Proof.
  intro H. unfold Hypershift.WaitForReplicas_condition, bind.
  rewrite (np_Get_clean b c H). simpl.
  destruct (get_reply c (gets_made c)) as [o|err]; reflexivity.
Qed.

Lemma bmh_deleted_condition_step (b : Bmh.Builder) (c : Cluster Bmh.BareMetalHost) :
  Bmh.connected b = true ->
  Bmh.WaitUntilDeleted_condition (b, c)
  = Normal (match get_reply c (gets_made c) with
            | Fetched _ => (false, None)
            | FetchFailed err => if IsNotFound err then (true, None) else (false, Some err)
            end)
           (b, record_call (CallGet (Bmh.key_of b)) c).
Proof.
  intro H. unfold Bmh.WaitUntilDeleted_condition, bind.
  rewrite (bmh_Get_connected b c H). simpl.
  destruct (get_reply c (gets_made c)) as [o|err]; simpl; [reflexivity|].
  destruct (IsNotFound err); reflexivity.
Qed.

(** C2: in the status waits ([WaitUntilInStatus], [WaitForReplicas]) a fetch
    that returns an error, whatever the error, is not surfaced: the cycle ends
    and the loop goes on with the next one.  In [WaitUntilDeleted] a fetch that
    fails with a not-found error ends the wait with success, a fetch that fails
    with any other error ends the wait at once with that error, and a fetch
    that succeeds lets the loop go on. *)
Theorem poll_fetch_error_policy :
  (forall status timeout b c,
      Bmh.clean b = true ->
      Bmh.WaitUntilInStatus status timeout (b, c)
      = poll_loop (S (ticks_before time_Second timeout))
          (Bmh.WaitUntilInStatus_condition status) (b, c))
  /\ (forall status n s o err s',
         Bmh.Get s = Normal (o, Some err) s' ->
         poll_loop (S n) (Bmh.WaitUntilInStatus_condition status) s
         = poll_loop n (Bmh.WaitUntilInStatus_condition status)
             (Bmh.set_Object o (fst s'), snd s'))
  /\ (forall replicas timeout nb nc,
         Hypershift.clean nb = true ->
         Hypershift.WaitForReplicas replicas timeout (Some nb, nc)
         = match poll_loop (S (ticks_before time_Second timeout))
                   (Hypershift.WaitForReplicas_condition replicas) (Some nb, nc) with
           | Normal None s' => Normal (Receiver, None) s'
           | Normal (Some e) s' => Normal (NilBuilder, Some e) s'
           | Panic => Panic
           end)
  /\ (forall replicas n s o err s',
         Hypershift.Get s = Normal (o, Some err) s' ->
         poll_loop (S n) (Hypershift.WaitForReplicas_condition replicas) s
         = poll_loop n (Hypershift.WaitForReplicas_condition replicas)
             (option_map (Hypershift.set_Object o) (fst s'), snd s'))
  /\ (forall timeout s,
         Bmh.WaitUntilDeleted timeout s
         = poll_loop (ticks_before time_Second timeout) Bmh.WaitUntilDeleted_condition s)
  /\ (forall n s o err s',
         Bmh.Get s = Normal (o, Some err) s' ->
         IsNotFound err = true ->
         poll_loop (S n) Bmh.WaitUntilDeleted_condition s = Normal None s')
  /\ (forall n s o err s',
         Bmh.Get s = Normal (o, Some err) s' ->
         IsNotFound err = false ->
         poll_loop (S n) Bmh.WaitUntilDeleted_condition s = Normal (Some err) s')
  /\ (forall n s o s',
         Bmh.Get s = Normal (o, None) s' ->
         poll_loop (S n) Bmh.WaitUntilDeleted_condition s
         = poll_loop n Bmh.WaitUntilDeleted_condition s').
Proof.
  repeat split.
  - intros status timeout b c H. destruct (bmh_clean_inv b H) as [He _].
    unfold Bmh.WaitUntilInStatus, bind, gets. simpl. rewrite He. reflexivity.
  - intros status n s o err s' H. simpl.
    unfold Bmh.WaitUntilInStatus_condition, bind. rewrite H. reflexivity.
  - intros replicas timeout nb nc H.
    unfold Hypershift.WaitForReplicas, bind.
    rewrite (np_validate_clean nb nc H). cbn [fst snd negb].
    rewrite wait_PollImmediate_loop.
    destruct (poll_loop _ _ _) as [[e|] s'|]; reflexivity.
  - intros replicas n s o err s' H. simpl.
    unfold Hypershift.WaitForReplicas_condition, bind. rewrite H. reflexivity.
  - intros n s o err s' H Hnf. simpl.
    unfold Bmh.WaitUntilDeleted_condition, bind. rewrite H. simpl. rewrite Hnf. reflexivity.
  - intros n s o err s' H Hnf. simpl.
    unfold Bmh.WaitUntilDeleted_condition, bind. rewrite H. simpl. rewrite Hnf. reflexivity.
  - intros n s o s' H. simpl.
    unfold Bmh.WaitUntilDeleted_condition, bind. rewrite H. reflexivity.
Qed.

(** ** The poll loop over a scripted cluster *)

Section ScriptedLoop.

Variables (B Obj : Type).
Variable condition : ConditionFunc (B * Cluster Obj).
Variable key : ObjectKey.
Variable target : GetReply Obj -> bool.
Variable upd : option Obj -> B -> B.
Variable good : B -> Prop.

Hypothesis condition_step :
  forall b c,
    good b ->
    condition (b, c)
    = Normal (target (get_reply c (gets_made c)), None)
             (upd (reply_object (get_reply c (gets_made c))) b,
              record_call (CallGet key) c).
Hypothesis good_upd : forall o b, good b -> good (upd o b).
Hypothesis upd_upd : forall o o' b, upd o (upd o' b) = upd o b.

(** When the fetch outcomes first meet the target at the fetch of index [k]
    and the loop has more than [k] evaluations, the loop ends with success
    at that fetch: exactly [k + 1] fetches have been made. *)
Lemma poll_loop_reaches_target :
  forall k n b c,
    good b ->
    k < n ->
    (forall j, j < k -> target (get_reply c (gets_made c + j)) = false) ->
    target (get_reply c (gets_made c + k)) = true ->
    poll_loop n condition (b, c)
    = Normal None (upd (reply_object (get_reply c (gets_made c + k))) b,
                   after_gets key (S k) c).
Proof.
  induction k as [|k IH]; intros n b c Hg Hlt Hbefore Hat;
    destruct n as [|n]; try lia.
  - rewrite Nat.add_0_r in Hat. simpl. unfold bind.
    rewrite (condition_step b c Hg), Hat. simpl. rewrite Nat.add_0_r. reflexivity.
  - assert (H0 : target (get_reply c (gets_made c)) = false).
    { rewrite <- (Nat.add_0_r (gets_made c)). apply Hbefore. lia. }
    change (poll_loop (S n) condition (b, c))
      with (bind condition (fun r =>
              match snd r with
              | Some err => ret (Some err)
              | None => if fst r then ret None else poll_loop n condition
              end) (b, c)).
    unfold bind. rewrite (condition_step b c Hg), H0. cbn [fst snd].
    rewrite (IH n _ (record_call (CallGet key) c)).
    + rewrite gets_made_record_get. cbn [get_reply record_call].
      replace (S (gets_made c) + k) with (gets_made c + S k) by lia.
      rewrite upd_upd, <- after_gets_succ. reflexivity.
    + apply good_upd, Hg.
    + lia.
    + intros j Hj. rewrite gets_made_record_get. cbn [get_reply record_call].
      replace (S (gets_made c) + j) with (gets_made c + S j) by lia.
      apply Hbefore. lia.
    + rewrite gets_made_record_get. cbn [get_reply record_call].
      replace (S (gets_made c) + k) with (gets_made c + S k) by lia.
      exact Hat.
Qed.

End ScriptedLoop.

(** The status wait of the bare-metal-host builder, as a loop. *)
Lemma bmh_WaitUntilInStatus_clean (status : Bmh.ProvisioningState) (timeout : Duration)
  (b : Bmh.Builder) (c : Cluster Bmh.BareMetalHost) :
  Bmh.clean b = true ->
  Bmh.WaitUntilInStatus status timeout (b, c)
  = poll_loop (S (ticks_before time_Second timeout))
      (Bmh.WaitUntilInStatus_condition status) (b, c).
Proof.
  intro H. destruct (bmh_clean_inv b H) as [He _].
  unfold Bmh.WaitUntilInStatus, bind, gets. simpl. rewrite He. reflexivity.
Qed.

(** The replica wait of the node-pool builder, as a loop. *)
Lemma np_WaitForReplicas_clean (replicas : Z) (timeout : Duration)
  (nb : Hypershift.NodePoolBuilder) (nc : Cluster Hypershift.NodePool) :
  Hypershift.clean nb = true ->
  Hypershift.WaitForReplicas replicas timeout (Some nb, nc)
  = match poll_loop (S (ticks_before time_Second timeout))
            (Hypershift.WaitForReplicas_condition replicas) (Some nb, nc) with
    | Normal None s' => Normal (Receiver, None) s'
    | Normal (Some e) s' => Normal (NilBuilder, Some e) s'
    | Panic => Panic
    end.
Proof.
  intro H. unfold Hypershift.WaitForReplicas, bind.
  rewrite (np_validate_clean nb nc H). cbn [fst snd negb].
  rewrite wait_PollImmediate_loop.
  destruct (poll_loop _ _ _) as [[e|] s'|]; reflexivity.
Qed.

Lemma bmh_status_condition_good (status : Bmh.ProvisioningState) (key : ObjectKey) :
  forall b c,
    bmh_good key b ->
    Bmh.WaitUntilInStatus_condition status (b, c)
    = Normal (Bmh.in_status status (get_reply c (gets_made c)), None)
             (Bmh.set_Object (reply_object (get_reply c (gets_made c))) b,
              record_call (CallGet key) c).
Proof.
  intros b c [Hc Hk]. rewrite <- Hk. apply bmh_status_condition_step, Hc.
Qed.

Lemma bmh_good_set_Object (key : ObjectKey) :
  forall o b, bmh_good key b -> bmh_good key (Bmh.set_Object o b).
Proof. intros o b H. exact H. Qed.

Lemma np_replicas_condition_good (replicas : Z) (key : ObjectKey) :
  forall recv c,
    np_good key recv ->
    Hypershift.WaitForReplicas_condition replicas (recv, c)
    = Normal (Hypershift.has_replicas replicas (get_reply c (gets_made c)), None)
             (option_map (Hypershift.set_Object (reply_object (get_reply c (gets_made c)))) recv,
              record_call (CallGet key) c).
Proof.
  intros recv c (b & -> & Hc & Hk). rewrite <- Hk.
  apply np_replicas_condition_step, Hc.
Qed.

Lemma np_good_set_Object (key : ObjectKey) :
  forall o recv, np_good key recv -> np_good key (option_map (Hypershift.set_Object o) recv).
Proof.
  intros o recv (b & -> & Hc & Hk). exists (Hypershift.set_Object o b).
  repeat split; assumption.
Qed.

Lemma np_set_Object_twice :
  forall o o' (recv : option Hypershift.NodePoolBuilder),
    option_map (Hypershift.set_Object o) (option_map (Hypershift.set_Object o') recv)
    = option_map (Hypershift.set_Object o) recv.
Proof. intros o o' [b|]; reflexivity. Qed.

(** A loop whose fetches all miss the target ends with the timeout error,
    the builder updated with the outcome of its last fetch. *)
Lemma poll_loop_times_out_last {B Obj : Type}
  (condition : ConditionFunc (B * Cluster Obj)) (key : ObjectKey)
  (target : GetReply Obj -> bool) (upd : option Obj -> B -> B) (good : B -> Prop) :
  (forall b c,
      good b ->
      condition (b, c)
      = Normal (target (get_reply c (gets_made c)), None)
               (upd (reply_object (get_reply c (gets_made c))) b,
                record_call (CallGet key) c)) ->
  (forall o b, good b -> good (upd o b)) ->
  (forall o o' b, upd o (upd o' b) = upd o b) ->
  forall n b c,
    good b ->
    (forall j, j <= n -> target (get_reply c (gets_made c + j)) = false) ->
    poll_loop (S n) condition (b, c)
    = Normal (Some ErrWaitTimeout)
        (upd (reply_object (get_reply c (gets_made c + n))) b,
         after_gets key (S n) c).
Proof.
  intros Hstep Hgood Hupd.
  induction n as [|n IH]; intros b c Hg Hnever.
  - assert (H0 : target (get_reply c (gets_made c)) = false).
    { rewrite <- (Nat.add_0_r (gets_made c)). apply Hnever. lia. }
    simpl. unfold bind. rewrite (Hstep b c Hg), H0. cbn [fst snd].
    rewrite Nat.add_0_r. reflexivity.
  - assert (H0 : target (get_reply c (gets_made c)) = false).
    { rewrite <- (Nat.add_0_r (gets_made c)). apply Hnever. lia. }
    change (poll_loop (S (S n)) condition (b, c))
      with (bind condition (fun r =>
              match snd r with
              | Some err => ret (Some err)
              | None => if fst r then ret None else poll_loop (S n) condition
              end) (b, c)).
    unfold bind. rewrite (Hstep b c Hg), H0. cbn [fst snd].
    rewrite (IH _ (record_call (CallGet key) c)).
    + rewrite gets_made_record_get. cbn [get_reply record_call].
      replace (S (gets_made c) + n) with (gets_made c + S n) by lia.
      rewrite Hupd, <- after_gets_succ. reflexivity.
    + apply Hgood, Hg.
    + intros j Hj. rewrite gets_made_record_get. cbn [get_reply record_call].
      replace (S (gets_made c) + j) with (gets_made c + S j) by lia.
      apply Hnever. lia.
Qed.

(** The instants 0s, 1s, ... of a positive timeout that lie before it are
    those up to [ticks_before], and the next one does not. *)
Lemma ticks_before_instants (timeout : Duration) :
  (0 < timeout)%Z ->
  (Z.of_nat (ticks_before time_Second timeout) * time_Second < timeout
   <= Z.of_nat (S (ticks_before time_Second timeout)) * time_Second)%Z.
Proof.
  intro H. unfold ticks_before.
  assert (Hq : (0 <= (timeout - 1) / time_Second)%Z).
  { apply Z.div_pos; unfold time_Second; lia. }
  rewrite Nat2Z.inj_succ, Z2Nat.id by exact Hq.
  pose proof (Z.mul_div_le (timeout - 1) time_Second) as Hle.
  pose proof (Z.mul_succ_div_gt (timeout - 1) time_Second) as Hgt.
  unfold time_Second in *. lia.
Qed.

(** An instant of the loop lies before the timeout. *)
Lemma ticks_before_within (j : nat) (timeout : Duration) :
  (0 < timeout)%Z ->
  j <= ticks_before time_Second timeout ->
  (Z.of_nat j * time_Second < timeout)%Z.
Proof.
  intros H Hj. pose proof (ticks_before_instants timeout H) as [Hlt _].
  apply Nat2Z.inj_le in Hj. unfold time_Second in *. lia.
Qed.

(** C8: a status wait on a resource whose fetch outcomes meet the target for
    the first time at the [k]-th fetch cycle, with [k] seconds strictly less
    than the timeout, returns success with no error at that cycle, having made
    exactly [k] fetches.  When, for a positive timeout, none of the fetches
    made at the instants 0s, 1s, 2s, ... that lie before the timeout meets the
    target, the wait makes exactly these fetches, the last of them less than
    one second before the timeout, and returns the timeout error; the observed
    object is the outcome of the last fetch.  This holds for
    [WaitUntilInStatus] of the bare-metal-host builder and for
    [WaitForReplicas] of the node-pool builder. *)
Theorem status_wait_success_and_timeout :
  forall (status : Bmh.ProvisioningState) (replicas : Z) (timeout : Duration)
         (b : Bmh.Builder) (c : Cluster Bmh.BareMetalHost)
         (nb : Hypershift.NodePoolBuilder) (nc : Cluster Hypershift.NodePool),
    Bmh.clean b = true ->
    Hypershift.clean nb = true ->
    (forall k,
        1 <= k ->
        (Z.of_nat k * time_Second < timeout)%Z ->
        (forall j, j < k - 1 ->
                   Bmh.in_status status (get_reply c (gets_made c + j)) = false) ->
        Bmh.in_status status (get_reply c (gets_made c + (k - 1))) = true ->
        Bmh.WaitUntilInStatus status timeout (b, c)
        = Normal None
            (Bmh.set_Object (reply_object (get_reply c (gets_made c + (k - 1)))) b,
             after_gets (Bmh.key_of b) k c))
    /\ ((0 < timeout)%Z ->
        (forall j, (Z.of_nat j * time_Second < timeout)%Z ->
                   Bmh.in_status status (get_reply c (gets_made c + j)) = false) ->
        exists n,
          1 <= n
          /\ (Z.of_nat (n - 1) * time_Second < timeout <= Z.of_nat n * time_Second)%Z
          /\ Bmh.WaitUntilInStatus status timeout (b, c)
             = Normal (Some ErrWaitTimeout)
                 (Bmh.set_Object (reply_object (get_reply c (gets_made c + (n - 1)))) b,
                  after_gets (Bmh.key_of b) n c))
    /\ (forall k,
           1 <= k ->
           (Z.of_nat k * time_Second < timeout)%Z ->
           (forall j, j < k - 1 ->
                      Hypershift.has_replicas replicas (get_reply nc (gets_made nc + j)) = false) ->
           Hypershift.has_replicas replicas (get_reply nc (gets_made nc + (k - 1))) = true ->
           Hypershift.WaitForReplicas replicas timeout (Some nb, nc)
           = Normal (Receiver, None)
               (Some (Hypershift.set_Object
                        (reply_object (get_reply nc (gets_made nc + (k - 1)))) nb),
                after_gets (Hypershift.key_of nb) k nc))
    /\ ((0 < timeout)%Z ->
        (forall j, (Z.of_nat j * time_Second < timeout)%Z ->
                   Hypershift.has_replicas replicas (get_reply nc (gets_made nc + j)) = false) ->
        exists n,
          1 <= n
          /\ (Z.of_nat (n - 1) * time_Second < timeout <= Z.of_nat n * time_Second)%Z
          /\ Hypershift.WaitForReplicas replicas timeout (Some nb, nc)
             = Normal (NilBuilder, Some ErrWaitTimeout)
                 (Some (Hypershift.set_Object
                          (reply_object (get_reply nc (gets_made nc + (n - 1)))) nb),
                  after_gets (Hypershift.key_of nb) n nc)).
Proof.
  intros status replicas timeout b c nb nc Hb Hn.
  destruct (bmh_clean_inv b Hb) as [_ Hconn].
  assert (Hgood : bmh_good (Bmh.key_of b) b) by (split; [exact Hconn|reflexivity]).
  assert (Hngood : np_good (Hypershift.key_of nb) (Some nb)).
  { exists nb. repeat split; [exact Hn]. }
  split; [|split; [|split]].
  - intros k Hk Hlt Hbefore Hat.
    rewrite (bmh_WaitUntilInStatus_clean status timeout b c Hb).
    pose proof (ticks_before_seconds k timeout Hlt) as Hticks.
    rewrite (poll_loop_reaches_target _ _ (Bmh.WaitUntilInStatus_condition status) (Bmh.key_of b)
               (Bmh.in_status status) Bmh.set_Object (bmh_good (Bmh.key_of b))
               (bmh_status_condition_good status (Bmh.key_of b))
               (bmh_good_set_Object (Bmh.key_of b))
               (fun o o' b0 => eq_refl)
               (k - 1) _ b c Hgood); try assumption; try lia.
    replace (S (k - 1)) with k by lia. reflexivity.
  - intros Hpos Hnever.
    exists (S (ticks_before time_Second timeout)).
    replace (S (ticks_before time_Second timeout) - 1)
      with (ticks_before time_Second timeout) by lia.
    split; [lia|]. split; [exact (ticks_before_instants timeout Hpos)|].
    rewrite (bmh_WaitUntilInStatus_clean status timeout b c Hb).
    apply (poll_loop_times_out_last
             (Bmh.WaitUntilInStatus_condition status) (Bmh.key_of b)
             (Bmh.in_status status) Bmh.set_Object (bmh_good (Bmh.key_of b))
             (bmh_status_condition_good status (Bmh.key_of b))
             (bmh_good_set_Object (Bmh.key_of b))
             (fun o1 o2 b0 => eq_refl) _ b c Hgood).
    intros j Hj. apply Hnever, ticks_before_within; assumption.
  - intros k Hk Hlt Hbefore Hat.
    rewrite (np_WaitForReplicas_clean replicas timeout nb nc Hn).
    pose proof (ticks_before_seconds k timeout Hlt) as Hticks.
    rewrite (poll_loop_reaches_target _ _ (Hypershift.WaitForReplicas_condition replicas) (Hypershift.key_of nb)
               (Hypershift.has_replicas replicas)
               (fun o => option_map (Hypershift.set_Object o))
               (np_good (Hypershift.key_of nb))
               (np_replicas_condition_good replicas (Hypershift.key_of nb))
               (np_good_set_Object (Hypershift.key_of nb))
               np_set_Object_twice
               (k - 1) _ (Some nb) nc Hngood); try assumption; try lia.
    replace (S (k - 1)) with k by lia. reflexivity.
  - intros Hpos Hnever.
    exists (S (ticks_before time_Second timeout)).
    replace (S (ticks_before time_Second timeout) - 1)
      with (ticks_before time_Second timeout) by lia.
    split; [lia|]. split; [exact (ticks_before_instants timeout Hpos)|].
    rewrite (np_WaitForReplicas_clean replicas timeout nb nc Hn).
    unfold Hypershift.St.
    rewrite (poll_loop_times_out_last
               (Hypershift.WaitForReplicas_condition replicas) (Hypershift.key_of nb)
               (Hypershift.has_replicas replicas)
               (fun o => option_map (Hypershift.set_Object o))
               (np_good (Hypershift.key_of nb))
               (np_replicas_condition_good replicas (Hypershift.key_of nb))
               (np_good_set_Object (Hypershift.key_of nb))
               np_set_Object_twice _ (Some nb) nc Hngood).
    + reflexivity.
    + intros j Hj. apply Hnever, ticks_before_within; assumption.
Qed.

(** ** Mutators of the root device hints *)

(** A mutator whose argument passes its test, on a builder without a stored
    error: the hints are allocated when absent, [set] is applied to them, and
    the rest of the builder is as before. *)
Lemma with_root_device_hint_sets (invalid : bool) (msg : string)
  (set : Bmh.RootDeviceHints -> Bmh.RootDeviceHints)
  (b : Bmh.Builder) (c : Cluster Bmh.BareMetalHost) (d : Bmh.BareMetalHost) :
  Bmh.errorMsg b = "" ->
  Bmh.Defn b = Some d ->
  invalid = false ->
  Bmh.with_root_device_hint invalid msg set (b, c)
  = Normal Receiver
      (Bmh.set_Defn (Some (Bmh.set_hints (Some (set (Bmh.current_hints d))) d)) b, c).
Proof.
  intros He Hd ->. unfold Bmh.with_root_device_hint, bind, gets. simpl.
  rewrite Hd. simpl. rewrite He, Hd. reflexivity.
Qed.

(** A mutator on a builder whose error state is set returns the builder with
    its definition and its observed object as they were. *)
Lemma with_root_device_hint_skips (invalid : bool) (msg : string)
  (set : Bmh.RootDeviceHints -> Bmh.RootDeviceHints)
  (b : Bmh.Builder) (c : Cluster Bmh.BareMetalHost) :
  nonempty (Bmh.errorMsg b) = true ->
  (invalid = true -> nonempty msg = true) ->
  (Bmh.Defn b = None -> nonempty (UndefinedCrdObjectErrString "BareMetalHost") = true) ->
  exists m,
    nonempty m = true
    /\ Bmh.with_root_device_hint invalid msg set (b, c)
       = Normal Receiver (Bmh.set_errorMsg m b, c).
Proof.
  intros He Hmsg Hundef. unfold Bmh.with_root_device_hint, bind, gets. simpl.
  destruct (Bmh.Defn b) as [d|] eqn:Hd; simpl.
  - destruct invalid; simpl.
    + exists msg. rewrite (Hmsg eq_refl). split; reflexivity.
    + exists (Bmh.errorMsg b). rewrite He. split; [reflexivity|].
      destruct b; reflexivity.
  - destruct invalid; simpl.
    + exists msg. rewrite (Hmsg eq_refl). split; reflexivity.
    + exists (UndefinedCrdObjectErrString "BareMetalHost").
      rewrite (Hundef eq_refl). split; reflexivity.
Qed.

(** The mutators other than [WithRootDeviceVendor] assign the field they are
    named after. *)
Lemma root_device_mutators_assign_their_field
  (b : Bmh.Builder) (c : Cluster Bmh.BareMetalHost) (d : Bmh.BareMetalHost)
  (v : string) (size : Z) (rotational : bool) :
  Bmh.errorMsg b = "" ->
  Bmh.Defn b = Some d ->
  v <> "" ->
  (0 <= size)%Z ->
  let result set :=
    Normal Receiver
      (Bmh.set_Defn (Some (Bmh.set_hints (Some (set (Bmh.current_hints d))) d)) b, c) in
  Bmh.WithRootDeviceDeviceName v (b, c) = result (Bmh.set_DeviceName v)
  /\ Bmh.WithRootDeviceHTCL v (b, c) = result (Bmh.set_HCTL v)
  /\ Bmh.WithRootDeviceModel v (b, c) = result (Bmh.set_Model v)
  /\ Bmh.WithRootDeviceSerialNumber v (b, c) = result (Bmh.set_SerialNumber v)
  /\ Bmh.WithRootDeviceMinSizeGigabytes size (b, c) = result (Bmh.set_MinSizeGigabytes size)
  /\ Bmh.WithRootDeviceWWN v (b, c) = result (Bmh.set_WWN v)
  /\ Bmh.WithRootDeviceWWNWithExtension v (b, c) = result (Bmh.set_WWNWithExtension v)
  /\ Bmh.WithRootDeviceWWNVendorExtension v (b, c) = result (Bmh.set_WWNVendorExtension v)
  /\ Bmh.WithRootDeviceRotationalDisk rotational (b, c)
     = result (Bmh.set_Rotational (Some rotational)).
Proof.
  intros He Hd Hv Hsize result.
  assert (Hvb : (v =? "") = false) by (apply String.eqb_neq; exact Hv).
  assert (Hsb : (size <? 0)%Z = false) by (apply Z.ltb_ge; exact Hsize).
  repeat split; apply with_root_device_hint_sets; assumption || reflexivity.
Qed.

(** C6: [WithRootDeviceVendor], called with a non-empty vendor on a builder
    whose error state is empty, writes its argument to the field [Model] of the
    root device hints and leaves the field [Vendor] as it was.  The method is
    named after [Vendor] and documented as setting it, and a mutator is meant
    to set its own field and no other: here the source does otherwise. *)
Theorem WithRootDeviceVendor_assigns_Model :
  forall (b : Bmh.Builder) (c : Cluster Bmh.BareMetalHost) (d : Bmh.BareMetalHost)
         (vendor : string),
    Bmh.errorMsg b = "" ->
    Bmh.Defn b = Some d ->
    vendor <> "" ->
    exists d' h',
      Bmh.WithRootDeviceVendor vendor (b, c) = Normal Receiver (Bmh.set_Defn (Some d') b, c)
      /\ Bmh.Spec_RootDeviceHints (Bmh.Spec d') = Some h'
      /\ Bmh.Model h' = vendor
      /\ Bmh.Vendor h' = Bmh.Vendor (Bmh.current_hints d)
      /\ h' = Bmh.set_Model vendor (Bmh.current_hints d).
Proof.
  intros b c d vendor He Hd Hv.
  assert (Hvb : (vendor =? "") = false) by (apply String.eqb_neq; exact Hv).
  do 2 eexists. split.
  - unfold Bmh.WithRootDeviceVendor.
    apply with_root_device_hint_sets; eassumption.
  - repeat split; reflexivity.
Qed.

(** ** The deferred error state *)

(** Text without a formatting directive is formatted to itself. *)
Hypothesis Sprintf0_verbatim :
  forall s, percent_free s = true -> Sprintf0 s = s.

(** The message of [pkg/msg] for an undefined object is not empty. *)
Hypothesis Undefined_nonempty :
  forall crd, nonempty (UndefinedCrdObjectErrString crd) = true.

Lemma fmt_Errorf0_message (s : string) :
  percent_free s = true -> Error (fmt_Errorf0 s) = s.
Proof. intro H. unfold fmt_Errorf0. simpl. apply Sprintf0_verbatim, H. Qed.

(** [validate] on a builder whose error state is set fails with the error
    made of the stored message, which may be a later one. *)
Lemma np_validate_error_set (nb : Hypershift.NodePoolBuilder) (nc : Cluster Hypershift.NodePool) :
  nonempty (Hypershift.errorMsg nb) = true ->
  exists m,
    nonempty m = true
    /\ (Hypershift.Defn nb <> None -> Hypershift.apiClient nb <> None ->
        m = Hypershift.errorMsg nb)
    /\ Hypershift.validate (Some nb, nc)
       = Normal (false, Some (fmt_Errorf0 m)) (Some (Hypershift.set_errorMsg m nb), nc).
Proof.
  intro He. unfold Hypershift.validate. simpl.
  destruct (Hypershift.Defn nb) as [d|] eqn:Hd;
    destruct (Hypershift.apiClient nb) as [cl|] eqn:Hc; simpl;
    rewrite ?Hc; simpl.
  - exists (Hypershift.errorMsg nb). rewrite He.
    split; [reflexivity|]. split; [reflexivity|].
    destruct nb; reflexivity.
  - exists "NodePool builder cannot have nil apiClient".
    split; [reflexivity|]. split; [|reflexivity].
    intros _ H. congruence.
  - exists (UndefinedCrdObjectErrString "NodePool").
    rewrite (Undefined_nonempty "NodePool").
    split; [reflexivity|]. split; [|reflexivity].
    intros H _. congruence.
  - exists "NodePool builder cannot have nil apiClient".
    split; [reflexivity|]. split; [|reflexivity].
    intros H _. congruence.
Qed.

(** *** Methods without a guard on the error state *)

Lemma bmh_Get_ignores : ignores_error_state Bmh.Get.
Proof.
  intros m [b c]. unfold bmh_set_message, Bmh.Get, bind, gets, call_Get, client_Get.
  simpl. destruct (Bmh.apiClient b), (Bmh.Defn b); try reflexivity.
  simpl. destruct (get_reply c (gets_made c)); reflexivity.
Qed.

Lemma bmh_Exists_ignores : ignores_error_state Bmh.Exists.
Proof.
  intros m s. unfold Bmh.Exists, bind. rewrite (bmh_Get_ignores m s).
  destruct (Bmh.Get s) as [[o e] [b' c']|]; reflexivity.
Qed.

Lemma bmh_Delete_ignores : ignores_error_state Bmh.Delete.
Proof.
  intros m s. unfold Bmh.Delete, bind. rewrite (bmh_Exists_ignores m s).
  destruct (Bmh.Exists s) as [found [b' c']|]; [|reflexivity].
  destruct found; [|reflexivity].
  unfold bmh_set_message, gets, call_Delete, client_Delete. simpl.
  destruct (Bmh.apiClient b'), (Bmh.Defn b'); try reflexivity.
  simpl. destruct (delete_reply c' (deletes_made c')); reflexivity.
Qed.

Lemma poll_loop_ignores (condition : ConditionFunc Bmh.St) :
  ignores_error_state condition ->
  forall n, ignores_error_state (poll_loop n condition).
Proof.
  intros Hc n. induction n as [|n IH]; intros m s.
  - reflexivity.
  - simpl. unfold bind. rewrite (Hc m s).
    destruct (condition s) as [[done [e|]] s'|]; try reflexivity.
    destruct done; [reflexivity|apply IH].
Qed.

Lemma bmh_WaitUntilDeleted_ignores (timeout : Duration) :
  ignores_error_state (Bmh.WaitUntilDeleted timeout).
Proof.
  unfold Bmh.WaitUntilDeleted, wait_Poll. apply poll_loop_ignores.
  intros m s. unfold Bmh.WaitUntilDeleted_condition, bind. rewrite (bmh_Get_ignores m s).
  destruct (Bmh.Get s) as [[o [e|]] s'|]; try reflexivity.
  simpl. destruct (IsNotFound e); reflexivity.
Qed.

(** [Delete] returns its receiver. *)
Lemma bmh_Delete_Receiver (s s' : Bmh.St) (ptr : BuilderPtr Bmh.Builder)
  (err : option error) :
  Bmh.Delete s = Normal (ptr, err) s' -> ptr = Receiver.
Proof.
  unfold Bmh.Delete, bind. destruct (Bmh.Exists s) as [found [b' c']|]; [|discriminate].
  destruct found; simpl.
  - unfold gets, call_Delete, client_Delete. simpl.
    destruct (Bmh.apiClient b'), (Bmh.Defn b'); try discriminate.
    simpl. destruct (delete_reply c' (deletes_made c')); simpl;
      intro H; inversion H; reflexivity.
  - intro H. inversion H. reflexivity.
Qed.

Lemma bmh_DeleteAndWaitUntilDeleted_ignores (timeout : Duration) :
  ignores_error_state (Bmh.DeleteAndWaitUntilDeleted timeout).
Proof.
  intros m s. unfold Bmh.DeleteAndWaitUntilDeleted, bind.
  rewrite (bmh_Delete_ignores m s).
  destruct (Bmh.Delete s) as [[ptr [e|]] s1|] eqn:HD; try reflexivity.
  rewrite (bmh_Delete_Receiver s s1 ptr None HD). cbn [map_state fst snd].
  rewrite (bmh_WaitUntilDeleted_ignores timeout m s1).
  destruct (Bmh.WaitUntilDeleted timeout s1) as [err s2|]; reflexivity.
Qed.

(** The requests received so far stay in the trace. *)
Lemma trace_after_gets {Obj : Type} (key : ObjectKey) (n : nat) (c : Cluster Obj) :
  trace (after_gets key n c) = (repeat (CallGet key) n ++ trace c)%list.
Proof.
  induction n as [|n IH]; [reflexivity|].
  unfold after_gets in *. simpl. rewrite IH. reflexivity.
Qed.

(** The deletion loop of a connected builder returns after some fetches, at
    least one when it has an instant to poll at, and leaves the builder as it
    was. *)
Lemma bmh_deleted_loop_runs (n : nat) :
  forall (b : Bmh.Builder) (c : Cluster Bmh.BareMetalHost),
    Bmh.connected b = true ->
    exists err k,
      (1 <= n -> 1 <= k)
      /\ poll_loop n Bmh.WaitUntilDeleted_condition (b, c)
         = Normal err (b, after_gets (Bmh.key_of b) k c).
Proof.
  induction n as [|n IH]; intros b c Hconn.
  - exists (Some ErrWaitTimeout), 0. split; [lia|reflexivity].
  - simpl. unfold bind. rewrite (bmh_deleted_condition_step b c Hconn).
    destruct (get_reply c (gets_made c)) as [o|e]; cbn [fst snd].
    + destruct (IH b (record_call (CallGet (Bmh.key_of b)) c) Hconn)
        as (err & k & _ & Hrun).
      exists err, (S k). split; [lia|].
      rewrite Hrun, <- after_gets_succ. reflexivity.
    + destruct (IsNotFound e); cbn [fst snd].
      * exists None, 1. split; [lia|reflexivity].
      * exists (Some e), 1. split; [lia|reflexivity].
Qed.

(** C3 (amended): on a builder whose error state is set, [Create],
    [CreateAndWaitUntilProvisioned], [WaitUntilInStatus] and its four wrappers
    on the bare-metal-host builder, and [Get] and [WaitForReplicas] on the
    node-pool builder, return without a request to the cluster the error made
    by [fmt.Errorf] from the stored message; its text is the stored message
    when that holds no ['%'].  [Exists] of the node-pool builder returns false
    without a request.  [Get], [Exists], [Delete], [DeleteAndWaitUntilDeleted]
    and [WaitUntilDeleted] of the bare-metal-host builder never read the error
    state: each runs as on the same builder with any other stored message.  So
    on a builder with a definition and a client the first four send their
    fetch to the cluster, and [WaitUntilDeleted] sends its fetch as soon as the
    timeout is longer than one poll interval. *)
Theorem error_state_short_circuit :
  forall (b : Bmh.Builder) (c : Cluster Bmh.BareMetalHost)
         (nb : Hypershift.NodePoolBuilder) (nc : Cluster Hypershift.NodePool),
    nonempty (Bmh.errorMsg b) = true ->
    nonempty (Hypershift.errorMsg nb) = true ->
    (Bmh.Create (b, c)
     = Normal (NilBuilder, Some (fmt_Errorf0 (Bmh.errorMsg b))) (b, c)
     /\ (forall timeout,
            Bmh.CreateAndWaitUntilProvisioned timeout (b, c)
            = Normal (NilBuilder, Some (fmt_Errorf0 (Bmh.errorMsg b))) (b, c))
     /\ (forall status timeout,
            Bmh.WaitUntilInStatus status timeout (b, c)
            = Normal (Some (fmt_Errorf0 (Bmh.errorMsg b))) (b, c))
     /\ (forall timeout,
            Bmh.WaitUntilProvisioned timeout (b, c)
            = Normal (Some (fmt_Errorf0 (Bmh.errorMsg b))) (b, c)
            /\ Bmh.WaitUntilProvisioning timeout (b, c)
               = Normal (Some (fmt_Errorf0 (Bmh.errorMsg b))) (b, c)
            /\ Bmh.WaitUntilReady timeout (b, c)
               = Normal (Some (fmt_Errorf0 (Bmh.errorMsg b))) (b, c)
            /\ Bmh.WaitUntilAvailable timeout (b, c)
               = Normal (Some (fmt_Errorf0 (Bmh.errorMsg b))) (b, c))
     /\ (percent_free (Bmh.errorMsg b) = true ->
         Error (fmt_Errorf0 (Bmh.errorMsg b)) = Bmh.errorMsg b))
    /\ (exists m,
           nonempty m = true
           /\ (Hypershift.Defn nb <> None -> Hypershift.apiClient nb <> None ->
               m = Hypershift.errorMsg nb)
           /\ Hypershift.Get (Some nb, nc)
              = Normal (None, Some (fmt_Errorf0 m)) (Some (Hypershift.set_errorMsg m nb), nc)
           /\ (forall replicas timeout,
                  Hypershift.WaitForReplicas replicas timeout (Some nb, nc)
                  = Normal (Receiver, Some (fmt_Errorf0 m))
                      (Some (Hypershift.set_errorMsg m nb), nc))
           /\ Hypershift.Exists (Some nb, nc)
              = Normal false (Some (Hypershift.set_errorMsg m nb), nc)
           /\ (percent_free m = true -> Error (fmt_Errorf0 m) = m))
    /\ (ignores_error_state Bmh.Get
        /\ ignores_error_state Bmh.Exists
        /\ ignores_error_state Bmh.Delete
        /\ (forall timeout, ignores_error_state (Bmh.DeleteAndWaitUntilDeleted timeout))
        /\ (forall timeout, ignores_error_state (Bmh.WaitUntilDeleted timeout)))
    /\ (Bmh.connected b = true ->
        (exists r, Bmh.Get (b, c) = Normal r (b, record_call (CallGet (Bmh.key_of b)) c))
        /\ (exists found b',
               Bmh.Exists (b, c) = Normal found (b', record_call (CallGet (Bmh.key_of b)) c))
        /\ (exists r b' c',
               Bmh.Delete (b, c) = Normal r (b', c')
               /\ In (CallGet (Bmh.key_of b)) (trace c'))
        /\ (forall timeout,
               exists r b' c',
                 Bmh.DeleteAndWaitUntilDeleted timeout (b, c) = Normal r (b', c')
                 /\ In (CallGet (Bmh.key_of b)) (trace c'))
        /\ (forall timeout,
               (time_Second < timeout)%Z ->
               exists r c',
                 Bmh.WaitUntilDeleted timeout (b, c) = Normal r (b, c')
                 /\ In (CallGet (Bmh.key_of b)) (trace c'))).
Proof.
  intros b c nb nc Hb Hn. split; [|split; [|split]].
  - assert (HC : Bmh.Create (b, c)
                 = Normal (NilBuilder, Some (fmt_Errorf0 (Bmh.errorMsg b))) (b, c)).
    { unfold Bmh.Create, bind, gets. simpl. rewrite Hb. reflexivity. }
    assert (HW : forall status timeout,
               Bmh.WaitUntilInStatus status timeout (b, c)
               = Normal (Some (fmt_Errorf0 (Bmh.errorMsg b))) (b, c)).
    { intros status timeout. unfold Bmh.WaitUntilInStatus, bind, gets. simpl.
      rewrite Hb. reflexivity. }
    split; [exact HC|]. split; [|split; [exact HW|split]].
    + intro timeout. unfold Bmh.CreateAndWaitUntilProvisioned, bind.
      rewrite HC. reflexivity.
    + intro timeout. repeat split; apply HW.
    + apply fmt_Errorf0_message.
  - destruct (np_validate_error_set nb nc Hn) as (m & Hm & Hsame & Hval).
    exists m. split; [exact Hm|]. split; [exact Hsame|].
    repeat split.
    + unfold Hypershift.Get, bind. rewrite Hval. reflexivity.
    + intros replicas timeout. unfold Hypershift.WaitForReplicas, bind.
      rewrite Hval. reflexivity.
    + unfold Hypershift.Exists, bind. rewrite Hval. reflexivity.
    + apply fmt_Errorf0_message.
  - split; [exact bmh_Get_ignores|]. split; [exact bmh_Exists_ignores|].
    split; [exact bmh_Delete_ignores|].
    split; [exact bmh_DeleteAndWaitUntilDeleted_ignores|exact bmh_WaitUntilDeleted_ignores].
  - intro Hconn.
    assert (HD : exists err b' c',
               Bmh.Delete (b, c) = Normal (Receiver, err) (b', c')
               /\ Bmh.connected b' = true /\ Bmh.key_of b' = Bmh.key_of b
               /\ In (CallGet (Bmh.key_of b)) (trace c')).
    { unfold Bmh.Delete, bind. rewrite (bmh_Exists_connected b c Hconn).
      destruct (bmh_connected_inv b Hconn) as (d & cl & Hd & Hcl).
      destruct (negb (negb (fetch_not_found (get_reply c (gets_made c))))).
      - do 3 eexists. split; [reflexivity|]. split; [exact Hconn|].
        split; [reflexivity|]. simpl. left. reflexivity.
      - unfold gets, call_Delete, client_Delete. simpl. rewrite Hd, Hcl. simpl.
        destruct (delete_reply c _) as [e|]; simpl;
          do 3 eexists; (split; [reflexivity|]); (split; [exact Hconn|]);
          (split; [reflexivity|]); simpl; right; left; reflexivity. }
    split; [|split; [|split; [|split]]].
    + eexists. apply bmh_Get_connected, Hconn.
    + do 2 eexists. apply bmh_Exists_connected, Hconn.
    + destruct HD as (err & b' & c' & HD & _ & _ & Hin). eauto.
    + intro timeout. destruct HD as (err & b' & c' & HD & Hconn' & Hkey & Hin).
      unfold Bmh.DeleteAndWaitUntilDeleted, bind. rewrite HD. cbn [fst snd].
      destruct err as [e|].
      * do 3 eexists. split; [reflexivity|exact Hin].
      * unfold Bmh.WaitUntilDeleted, wait_Poll.
        destruct (bmh_deleted_loop_runs (ticks_before time_Second timeout) b' c' Hconn')
          as (werr & k & _ & Hrun).
        rewrite Hrun. do 3 eexists. split; [reflexivity|].
        rewrite trace_after_gets. apply in_or_app. right. exact Hin.
    + intros timeout Hlt. unfold Bmh.WaitUntilDeleted, wait_Poll.
      destruct (bmh_deleted_loop_runs (ticks_before time_Second timeout) b c Hconn)
        as (werr & k & Hk & Hrun).
      rewrite Hrun. do 2 eexists. split; [reflexivity|].
      assert (Hticks : 1 <= ticks_before time_Second timeout).
      { apply (ticks_before_seconds 1). change (Z.of_nat 1) with 1%Z. lia. }
      specialize (Hk Hticks). rewrite trace_after_gets.
      destruct k as [|k]; [lia|]. simpl. left. reflexivity.
Qed.

(** ** Invariants through the monad *)

Section Preservation.

Variables (S : Type) (P : S -> Prop).

Lemma preserves_ret {A : Type} (a : A) : preserves P (@ret S A a).
Proof. intros s a' s' HP H. inversion H; subst. exact HP. Qed.

Lemma preserves_panic {A : Type} : preserves P (@panic S A).
Proof. intros s a s' _ H. discriminate. Qed.

Lemma preserves_gets {A : Type} (f : S -> A) : preserves P (gets f).
Proof. intros s a s' HP H. inversion H; subst. exact HP. Qed.

Lemma preserves_modify (f : S -> S) :
  (forall s, P s -> P (f s)) -> preserves P (modify f).
Proof. intros Hf s a s' HP H. inversion H; subst. apply Hf, HP. Qed.

Lemma preserves_bind {A B : Type} (m : M S A) (k : A -> M S B) :
  preserves P m -> (forall a, preserves P (k a)) -> preserves P (bind m k).
Proof.
  intros Hm Hk s b s' HP H. unfold bind in H.
  destruct (m s) as [a s1|] eqn:Hms; [|discriminate].
  eapply Hk; [|exact H]. eapply Hm; eassumption.
Qed.

Lemma preserves_poll_loop (condition : ConditionFunc S) (n : nat) :
  preserves P condition -> preserves P (poll_loop n condition).
Proof.
  intro Hc. induction n as [|n IH].
  - apply preserves_ret.
  - simpl. apply preserves_bind; [exact Hc|].
    intros [done [err|]]; simpl.
    + apply preserves_ret.
    + destruct done; [apply preserves_ret|exact IH].
Qed.

Lemma preserves_wait_PollImmediate (condition : ConditionFunc S)
  (interval timeout : Duration) :
  preserves P condition -> preserves P (wait_PollImmediate interval timeout condition).
Proof. intro Hc. rewrite wait_PollImmediate_loop. apply preserves_poll_loop, Hc. Qed.

Lemma preserves_wait_Poll (condition : ConditionFunc S) (interval timeout : Duration) :
  preserves P condition -> preserves P (wait_Poll interval timeout condition).
Proof. intro Hc. apply preserves_poll_loop, Hc. Qed.

End Preservation.

Lemma preserves_call_Get {B Obj : Type} (P : B * Cluster Obj -> Prop) (key : ObjectKey) :
  (forall b c c', P (b, c) -> P (b, c')) -> preserves P (call_Get key).
Proof.
  intros HP [b c] r s' H Hrun. unfold call_Get in Hrun. simpl in Hrun.
  inversion Hrun; subst. eapply HP, H.
Qed.

Lemma preserves_call_Create {B Obj : Type} (P : B * Cluster Obj -> Prop) (obj : Obj) :
  (forall b c c', P (b, c) -> P (b, c')) -> preserves P (call_Create obj).
Proof.
  intros HP [b c] r s' H Hrun. unfold call_Create in Hrun. simpl in Hrun.
  inversion Hrun; subst. eapply HP, H.
Qed.

Lemma preserves_call_Delete {B Obj : Type} (P : B * Cluster Obj -> Prop) (obj : Obj) :
  (forall b c c', P (b, c) -> P (b, c')) -> preserves P (call_Delete obj).
Proof.
  intros HP [b c] r s' H Hrun. unfold call_Delete in Hrun. simpl in Hrun.
  inversion Hrun; subst. eapply HP, H.
Qed.

(** Steps through a computation built from the monad's operations, splitting on
    the tests it makes. *)
Ltac preserve_step :=
  match goal with
  | |- preserves _ (ret _) => apply preserves_ret
  | |- preserves _ panic => apply preserves_panic
  | |- preserves _ (gets _) => apply preserves_gets
  | |- preserves _ (bind _ _) => apply preserves_bind; [|intro]
  | |- preserves _ (wait_PollImmediate _ _ _) => apply preserves_wait_PollImmediate
  | |- preserves _ (wait_Poll _ _ _) => apply preserves_wait_Poll
  | |- preserves _ (match ?x with _ => _ end) => destruct x
  end.

Lemma bmh_error_set_cluster :
  forall b c c', bmh_error_set (b, c) -> bmh_error_set (b, c').
Proof. intros b c c' H. exact H. Qed.

Lemma bmh_preserves_assign_Object (o : option Bmh.BareMetalHost) :
  preserves bmh_error_set (Bmh.assign_Object o).
Proof. apply preserves_modify. intros [b c] H. exact H. Qed.

Lemma bmh_preserves_assign_Defn (d : option Bmh.BareMetalHost) :
  preserves bmh_error_set (Bmh.assign_Defn d).
Proof. apply preserves_modify. intros [b c] H. exact H. Qed.

Lemma bmh_preserves_assign_Object_from_Defn :
  preserves bmh_error_set Bmh.assign_Object_from_Defn.
Proof. apply preserves_modify. intros [b c] H. exact H. Qed.

(** A method run on another builder leaves the error state of this one as it
    is. *)
Lemma bmh_preserves_on_other {A : Type} (other : Bmh.Builder) (method : M Bmh.St A) :
  preserves bmh_error_set (Bmh.on_other other method).
Proof.
  intros [b c] r s' HP Hrun. unfold Bmh.on_other in Hrun.
  destruct (method (other, snd (b, c))) as [a s1|]; [|discriminate Hrun].
  inversion Hrun; subst. exact HP.
Qed.

Lemma bmh_preserves_Get : preserves bmh_error_set Bmh.Get.
Proof.
  unfold Bmh.Get. repeat preserve_step.
  apply preserves_call_Get, bmh_error_set_cluster.
Qed.

Lemma bmh_preserves_Exists : preserves bmh_error_set Bmh.Exists.
Proof.
  unfold Bmh.Exists. repeat preserve_step.
  - apply bmh_preserves_Get.
  - apply bmh_preserves_assign_Object.
Qed.

Lemma bmh_preserves_Create : preserves bmh_error_set Bmh.Create.
Proof.
  unfold Bmh.Create. repeat preserve_step;
    try apply bmh_preserves_Exists;
    try apply bmh_preserves_assign_Object_from_Defn;
    try (apply preserves_call_Create, bmh_error_set_cluster).
Qed.

Lemma bmh_preserves_Delete : preserves bmh_error_set Bmh.Delete.
Proof.
  unfold Bmh.Delete. repeat preserve_step;
    try apply bmh_preserves_Exists;
    try apply bmh_preserves_assign_Object;
    try (apply preserves_call_Delete, bmh_error_set_cluster).
Qed.

Lemma bmh_preserves_WaitUntilInStatus (status : Bmh.ProvisioningState) (timeout : Duration) :
  preserves bmh_error_set (Bmh.WaitUntilInStatus status timeout).
Proof.
  unfold Bmh.WaitUntilInStatus, Bmh.WaitUntilInStatus_condition.
  repeat preserve_step;
    try apply bmh_preserves_Get;
    try apply bmh_preserves_assign_Object.
Qed.

Lemma bmh_preserves_WaitUntilDeleted (timeout : Duration) :
  preserves bmh_error_set (Bmh.WaitUntilDeleted timeout).
Proof.
  unfold Bmh.WaitUntilDeleted, Bmh.WaitUntilDeleted_condition.
  repeat preserve_step; apply bmh_preserves_Get.
Qed.

(** A mutator keeps the error state set: it may replace the message by
    another one, never by the empty one. *)
Lemma bmh_preserves_with_root_device_hint (invalid : bool) (msg : string)
  (set : Bmh.RootDeviceHints -> Bmh.RootDeviceHints) :
  (invalid = true -> nonempty msg = true) ->
  preserves bmh_error_set (Bmh.with_root_device_hint invalid msg set).
Proof.
  intros Hmsg [b c] r s' HP Hrun.
  destruct (with_root_device_hint_skips invalid msg set b c HP Hmsg
              (fun _ => Undefined_nonempty "BareMetalHost")) as (m & Hm & Heq).
  rewrite Heq in Hrun. inversion Hrun; subst. exact Hm.
Qed.

(** [WithOptions] on a builder whose error state is set returns before it
    runs any option. *)
Lemma bmh_preserves_WithOptions (options : list (option Bmh.AdditionalOptions)) :
  preserves bmh_error_set (Bmh.WithOptions options).
Proof.
  intros [b c] r s' HP Hrun. unfold bmh_error_set in HP. simpl in HP.
  unfold Bmh.WithOptions, bind, gets in Hrun. simpl in Hrun.
  destruct (Bmh.Defn b); simpl in Hrun.
  - rewrite HP in Hrun. inversion Hrun; subst. exact HP.
  - rewrite (Undefined_nonempty "bmh") in Hrun. inversion Hrun; subst.
    apply Undefined_nonempty.
Qed.

Lemma bmh_preserves_run_op (op : Bmh.Op) : preserves bmh_error_set (Bmh.run_op op).
Proof.
  destruct op; unfold Bmh.run_op, Bmh.discard;
    (apply preserves_bind; [|intro; apply preserves_ret]).
  - apply bmh_preserves_with_root_device_hint. reflexivity.
  - apply bmh_preserves_with_root_device_hint. reflexivity.
  - apply bmh_preserves_with_root_device_hint. reflexivity.
  - apply bmh_preserves_with_root_device_hint. reflexivity.
  - apply bmh_preserves_with_root_device_hint. reflexivity.
  - apply bmh_preserves_with_root_device_hint. reflexivity.
  - apply bmh_preserves_with_root_device_hint. reflexivity.
  - apply bmh_preserves_with_root_device_hint. reflexivity.
  - apply bmh_preserves_with_root_device_hint. reflexivity.
  - apply bmh_preserves_with_root_device_hint. discriminate.
  - apply bmh_preserves_WithOptions.
  - apply bmh_preserves_Create.
  - apply bmh_preserves_Delete.
  - apply bmh_preserves_Exists.
  - apply bmh_preserves_Get.
  - unfold Bmh.CreateAndWaitUntilProvisioned, Bmh.WaitUntilProvisioned.
    repeat preserve_step;
      try apply bmh_preserves_Create; try apply bmh_preserves_WaitUntilInStatus;
      try apply bmh_preserves_on_other.
  - apply bmh_preserves_WaitUntilInStatus.
  - unfold Bmh.DeleteAndWaitUntilDeleted.
    repeat preserve_step;
      try apply bmh_preserves_Delete; try apply bmh_preserves_WaitUntilDeleted;
      try apply bmh_preserves_on_other.
  - apply bmh_preserves_WaitUntilDeleted.
Qed.

Lemma bmh_preserves_run_ops (ops : list Bmh.Op) :
  preserves bmh_error_set (Bmh.run_ops ops).
Proof.
  induction ops as [|op ops IH]; simpl.
  - apply preserves_ret.
  - apply preserves_bind; [apply bmh_preserves_run_op|intro; exact IH].
Qed.

Lemma np_error_set_cluster :
  forall b c c', np_error_set (b, c) -> np_error_set (b, c').
Proof. intros b c c' H. exact H. Qed.

Lemma np_preserves_assign_Object (o : option Hypershift.NodePool) :
  preserves np_error_set (Hypershift.assign_Object o).
Proof.
  apply preserves_modify. intros [recv c] (b & Hb & He). simpl in Hb. subst recv.
  exists (Hypershift.set_Object o b). split; [reflexivity|exact He].
Qed.

Lemma np_preserves_assign_Defn (d : option Hypershift.NodePool) :
  preserves np_error_set (Hypershift.assign_Defn d).
Proof.
  apply preserves_modify. intros [recv c] (b & Hb & He). simpl in Hb. subst recv.
  exists (Hypershift.set_Defn d b). split; [reflexivity|exact He].
Qed.

Lemma np_preserves_validate : preserves np_error_set Hypershift.validate.
Proof.
  intros [recv c] r s' (b & Hb & He) Hrun. simpl in Hb. subst recv.
  destruct (np_validate_error_set b c He) as (m & Hm & _ & Heq).
  rewrite Heq in Hrun. inversion Hrun; subst.
  exists (Hypershift.set_errorMsg m b). split; [reflexivity|exact Hm].
Qed.

Lemma np_preserves_Get : preserves np_error_set Hypershift.Get.
Proof.
  unfold Hypershift.Get. repeat preserve_step;
    try apply np_preserves_validate;
    try (apply preserves_call_Get, np_error_set_cluster).
Qed.

Lemma np_preserves_run_op (op : Hypershift.Op) :
  preserves np_error_set (Hypershift.run_op op).
Proof.
  destruct op; unfold Hypershift.run_op, Hypershift.discard;
    (apply preserves_bind; [|intro; apply preserves_ret]).
  - unfold Hypershift.WithReplicas. repeat preserve_step;
      try apply np_preserves_validate; try apply np_preserves_assign_Defn.
  - apply np_preserves_Get.
  - unfold Hypershift.Exists. repeat preserve_step;
      try apply np_preserves_validate; try apply np_preserves_Get;
      try apply np_preserves_assign_Object.
  - unfold Hypershift.WaitForReplicas, Hypershift.WaitForReplicas_condition.
    repeat preserve_step;
      try apply np_preserves_validate; try apply np_preserves_Get;
      try apply np_preserves_assign_Object.
Qed.

Lemma np_preserves_run_ops (ops : list Hypershift.Op) :
  preserves np_error_set (Hypershift.run_ops ops).
Proof.
  induction ops as [|op ops IH]; simpl.
  - apply preserves_ret.
  - apply preserves_bind; [apply np_preserves_run_op|intro; exact IH].
Qed.

(** A constructor of which some check fails returns a builder whose error
    state is set: a check that passes does not touch the message stored by an
    earlier one. *)
Lemma bmh_NewBuilder_error_set (client : option Settings)
  (name nsname bmcAddress bmcSecretName bootMacAddress bootMode : string) :
  existsb fst (Bmh.NewBuilder_checks name nsname bmcAddress bmcSecretName
                 bootMacAddress bootMode) = true ->
  exists b,
    Bmh.NewBuilder client name nsname bmcAddress bmcSecretName bootMacAddress bootMode
    = Some b
    /\ nonempty (Bmh.errorMsg b) = true
    /\ percent_free (Bmh.errorMsg b) = true
    /\ In (true, Bmh.errorMsg b)
          (Bmh.NewBuilder_checks name nsname bmcAddress bmcSecretName
             bootMacAddress bootMode).
Proof.
  unfold Bmh.NewBuilder, Bmh.NewBuilder_checks. intro H.
  eexists. split; [reflexivity|]. revert H.
  destruct (name =? ""), (nsname =? ""), (bmcAddress =? ""), (bmcSecretName =? ""),
    (negb (Bmh.slices_Contains Bmh.bootModeAcceptable bootMode)), (bootMacAddress =? "");
    simpl; intro H; try discriminate H;
    (split; [reflexivity|split; [reflexivity|tauto]]).
Qed.

Lemma np_NewNodePoolBuilder_error_set (client : option Settings)
  (name nsname clusterName agentNamespace release : string) (replicas : Z) :
  existsb fst (Hypershift.NewNodePoolBuilder_checks name nsname clusterName release)
  = true ->
  exists b,
    Hypershift.NewNodePoolBuilder client name nsname clusterName agentNamespace
      release replicas = Some b
    /\ nonempty (Hypershift.errorMsg b) = true
    /\ percent_free (Hypershift.errorMsg b) = true
    /\ Hypershift.Defn b <> None
    /\ Hypershift.apiClient b = client
    /\ In (true, Hypershift.errorMsg b)
          (Hypershift.NewNodePoolBuilder_checks name nsname clusterName release).
Proof.
  unfold Hypershift.NewNodePoolBuilder, Hypershift.NewNodePoolBuilder_checks. intro H.
  eexists. split; [reflexivity|]. revert H.
  destruct (name =? ""), (nsname =? ""), (clusterName =? ""), (release =? "");
    simpl; intro H; try discriminate H;
    (split; [reflexivity|split; [reflexivity|split; [discriminate|split; [reflexivity|tauto]]]]).
Qed.

(** C4 (amended): an error state that is set when an operation is called is
    set when the operation returns: after any sequence of calls of the
    mutators, [WithOptions], [Create], [Get], [Exists], [Delete] and the waits
    on a builder whose error state is set, the error state is still set; and a
    constructor of which a check failed returns a builder whose error state is
    set, whatever its later checks find.  Inside one call of [WithOptions]
    that starts with an empty error state the loop over the options does not
    look at the error state again: when an option has succeeded and the next
    one fails and returns the receiver, the text of that error is stored
    whatever the first option has left in the error state. *)
Theorem error_state_never_cleared :
  forall (ops : list Bmh.Op) (b : Bmh.Builder) (c : Cluster Bmh.BareMetalHost)
         (nops : list Hypershift.Op) (nb : Hypershift.NodePoolBuilder)
         (nc : Cluster Hypershift.NodePool),
    nonempty (Bmh.errorMsg b) = true ->
    nonempty (Hypershift.errorMsg nb) = true ->
    (forall s', Bmh.run_ops ops (b, c) = Normal tt s' ->
                nonempty (Bmh.errorMsg (fst s')) = true)
    /\ (forall s', Hypershift.run_ops nops (Some nb, nc) = Normal tt s' ->
                   exists nb', fst s' = Some nb'
                               /\ nonempty (Hypershift.errorMsg nb') = true)
    /\ (forall client name nsname bmcAddress bmcSecretName bootMacAddress bootMode,
           existsb fst (Bmh.NewBuilder_checks name nsname bmcAddress bmcSecretName
                          bootMacAddress bootMode) = true ->
           exists b0,
             Bmh.NewBuilder client name nsname bmcAddress bmcSecretName bootMacAddress
               bootMode = Some b0
             /\ nonempty (Bmh.errorMsg b0) = true)
    /\ (forall client name nsname clusterName agentNamespace release replicas,
           existsb fst (Hypershift.NewNodePoolBuilder_checks name nsname clusterName release)
           = true ->
           exists b0,
             Hypershift.NewNodePoolBuilder client name nsname clusterName agentNamespace
               release replicas = Some b0
             /\ nonempty (Hypershift.errorMsg b0) = true)
    /\ (forall (first second : Bmh.AdditionalOptions)
               (rest : list (option Bmh.AdditionalOptions))
               (b0 : Bmh.Builder) (c0 : Cluster Bmh.BareMetalHost)
               (ptr : BuilderPtr Bmh.Builder) (err : error) (s1 s2 : Bmh.St),
           Bmh.errorMsg b0 = "" ->
           Bmh.Defn b0 <> None ->
           first (b0, c0) = Normal (ptr, None) s1 ->
           second s1 = Normal (Receiver, Some err) s2 ->
           Bmh.WithOptions (Some first :: Some second :: rest) (b0, c0)
           = Normal Receiver (Bmh.set_errorMsg (Error err) (fst s2), snd s2)).
Proof.
  intros ops b c nops nb nc Hb Hn. split; [|split; [|split; [|split]]].
  5: { intros first second rest b0 c0 ptr err s1 s2 He Hd H1 H2.
       destruct (Bmh.Defn b0) as [d0|] eqn:Hd0; [|contradiction Hd; reflexivity].
       unfold Bmh.WithOptions, bind, gets. cbn [fst]. rewrite Hd0. cbn [ret fst].
       rewrite He. cbn [nonempty Bmh.WithOptions_loop]. unfold bind.
       rewrite H1. cbn [fst snd]. rewrite H2. reflexivity. }
  - intros s' Hrun.
    exact (bmh_preserves_run_ops ops (b, c) tt s' Hb Hrun).
  - intros s' Hrun.
    apply (np_preserves_run_ops nops (Some nb, nc) tt s'); [|exact Hrun].
    exists nb. split; [reflexivity|exact Hn].
  - intros client name nsname bmcAddress bmcSecretName bootMacAddress bootMode H.
    destruct (bmh_NewBuilder_error_set client name nsname bmcAddress bmcSecretName
                bootMacAddress bootMode H) as (b0 & H0 & H1 & _).
    exists b0. split; assumption.
  - intros client name nsname clusterName agentNamespace release replicas H.
    destruct (np_NewNodePoolBuilder_error_set client name nsname clusterName
                agentNamespace release replicas H) as (b0 & H0 & H1 & _).
    exists b0. split; assumption.
Qed.

(** ** Returned builder pointers *)

(** The status loops return: with success or with the timeout error. *)
Lemma status_loop_returns {B Obj : Type} (condition : ConditionFunc (B * Cluster Obj))
  (key : ObjectKey) (target : GetReply Obj -> bool) (upd : option Obj -> B -> B)
  (good : B -> Prop) :
  (forall b c,
      good b ->
      condition (b, c)
      = Normal (target (get_reply c (gets_made c)), None)
               (upd (reply_object (get_reply c (gets_made c))) b,
                record_call (CallGet key) c)) ->
  (forall o b, good b -> good (upd o b)) ->
  forall n b c,
    good b ->
    exists err s',
      poll_loop n condition (b, c) = Normal err s'
      /\ (err = None \/ err = Some ErrWaitTimeout).
Proof.
  intros Hstep Hupd. induction n as [|n IH]; intros b c Hg.
  - do 2 eexists. split; [reflexivity|]. right. reflexivity.
  - simpl. unfold bind. rewrite (Hstep b c Hg). cbn [fst snd].
    destruct (target (get_reply c (gets_made c))).
    + do 2 eexists. split; [reflexivity|]. left. reflexivity.
    + apply IH, Hupd, Hg.
Qed.

(** C10 (amended): [WaitForReplicas] on a clean builder returns its receiver
    and no error when the poll succeeds, and a nil builder together with the
    timeout error when the poll ends without success; its poll ends in no other
    way.  [DeleteAndWaitUntilDeleted] returns its receiver together with the
    error of its [Delete] step when that step fails (the resource is not
    there, or the cluster refuses the delete request); when the [Delete] step
    succeeds it returns a nil builder together with whatever the deletion wait
    returns, no error or an error. *)
Theorem nil_builder_returns :
  forall (replicas : Z) (timeout : Duration)
         (nb : Hypershift.NodePoolBuilder) (nc : Cluster Hypershift.NodePool)
         (b : Bmh.Builder) (c : Cluster Bmh.BareMetalHost) (d : Bmh.BareMetalHost),
    Hypershift.clean nb = true ->
    Bmh.connected b = true ->
    Bmh.Defn b = Some d ->
    ((forall k,
         1 <= k ->
         (Z.of_nat k * time_Second < timeout)%Z ->
         (forall j, j < k - 1 ->
                    Hypershift.has_replicas replicas (get_reply nc (gets_made nc + j)) = false) ->
         Hypershift.has_replicas replicas (get_reply nc (gets_made nc + (k - 1))) = true ->
         exists s',
           Hypershift.WaitForReplicas replicas timeout (Some nb, nc)
           = Normal (Receiver, None) s')
     /\ ((0 < timeout)%Z ->
         (forall j, (Z.of_nat j * time_Second < timeout)%Z ->
                    Hypershift.has_replicas replicas (get_reply nc (gets_made nc + j)) = false) ->
         exists s',
           Hypershift.WaitForReplicas replicas timeout (Some nb, nc)
           = Normal (NilBuilder, Some ErrWaitTimeout) s')
     /\ (exists ptr err s',
            Hypershift.WaitForReplicas replicas timeout (Some nb, nc) = Normal (ptr, err) s'
            /\ (ptr = NilBuilder <-> err <> None)
            /\ (ptr = Receiver <-> err = None)
            /\ (err = None \/ err = Some ErrWaitTimeout)))
    /\ (let reply := get_reply c (gets_made c) in
        let b1 := Bmh.set_Object (reply_object reply) b in
        let c1 := record_call (CallGet (Bmh.key_of b)) c in
        let c2 := record_call (CallDelete d) c1 in
        (fetch_not_found reply = true ->
         Bmh.DeleteAndWaitUntilDeleted timeout (b, c)
         = Normal (Receiver,
                   Some (errorString "bmh cannot be deleted because it does not exist"))
             (b1, c1))
        /\ (forall e,
               fetch_not_found reply = false ->
               delete_reply c (deletes_made c) = Some e ->
               Bmh.DeleteAndWaitUntilDeleted timeout (b, c)
               = Normal (Receiver, Some (wrapError "can not delete bmh: " e)) (b1, c2))
        /\ (fetch_not_found reply = false ->
            delete_reply c (deletes_made c) = None ->
            exists err c',
              Bmh.WaitUntilDeleted timeout (Bmh.set_Object None b, c2)
              = Normal err (Bmh.set_Object None b, c')
              /\ Bmh.DeleteAndWaitUntilDeleted timeout (b, c)
                 = Normal (NilBuilder, err) (Bmh.set_Object None b, c'))).
Proof.
  intros replicas timeout nb nc b c d Hn Hconn Hd.
  assert (Hngood : np_good (Hypershift.key_of nb) (Some nb)).
  { exists nb. repeat split; exact Hn. }
  split; [split; [|split]|].
  - intros k Hk Hlt Hbefore Hat.
    rewrite (np_WaitForReplicas_clean replicas timeout nb nc Hn).
    pose proof (ticks_before_seconds k timeout Hlt) as Hticks.
    rewrite (poll_loop_reaches_target _ _ (Hypershift.WaitForReplicas_condition replicas)
               (Hypershift.key_of nb) (Hypershift.has_replicas replicas)
               (fun o => option_map (Hypershift.set_Object o))
               (np_good (Hypershift.key_of nb))
               (np_replicas_condition_good replicas (Hypershift.key_of nb))
               (np_good_set_Object (Hypershift.key_of nb))
               np_set_Object_twice
               (k - 1) _ (Some nb) nc Hngood); try assumption; try lia.
    eexists. reflexivity.
  - intros Hpos Hnever.
    rewrite (np_WaitForReplicas_clean replicas timeout nb nc Hn).
    unfold Hypershift.St.
    rewrite (poll_loop_times_out_last
               (Hypershift.WaitForReplicas_condition replicas) (Hypershift.key_of nb)
               (Hypershift.has_replicas replicas)
               (fun o => option_map (Hypershift.set_Object o))
               (np_good (Hypershift.key_of nb))
               (np_replicas_condition_good replicas (Hypershift.key_of nb))
               (np_good_set_Object (Hypershift.key_of nb))
               np_set_Object_twice _ (Some nb) nc Hngood).
    + eexists. reflexivity.
    + intros j Hj. apply Hnever, ticks_before_within; assumption.
  - rewrite (np_WaitForReplicas_clean replicas timeout nb nc Hn).
    destruct (status_loop_returns
                (Hypershift.WaitForReplicas_condition replicas) (Hypershift.key_of nb)
                (Hypershift.has_replicas replicas)
                (fun o => option_map (Hypershift.set_Object o))
                (np_good (Hypershift.key_of nb))
                (np_replicas_condition_good replicas (Hypershift.key_of nb))
                (np_good_set_Object (Hypershift.key_of nb))
                (S (ticks_before time_Second timeout)) (Some nb) nc Hngood)
      as (err & s' & Hrun & Herr).
    unfold Hypershift.St. rewrite Hrun.
    destruct Herr as [-> | ->].
    + exists Receiver, None, s'. split; [reflexivity|].
      split; [split; [discriminate|intro H; contradiction H; reflexivity]|].
      split; [split; reflexivity|left; reflexivity].
    + exists NilBuilder, (Some ErrWaitTimeout), s'. split; [reflexivity|].
      split; [split; [discriminate|reflexivity]|].
      split; [split; discriminate|right; reflexivity].
  - cbv zeta. unfold Bmh.DeleteAndWaitUntilDeleted, bind.
    rewrite (bmh_Delete_steps b c d Hconn Hd). cbv zeta.
    split; [|split].
    + intro Hnf. rewrite Hnf. reflexivity.
    + intros e Hnf Hdel. rewrite Hnf, Hdel. reflexivity.
    + intros Hnf Hdel. rewrite Hnf, Hdel. cbn [fst snd].
      unfold Bmh.WaitUntilDeleted, wait_Poll.
      destruct (bmh_deleted_loop_runs (ticks_before time_Second timeout)
                  (Bmh.set_Object None b)
                  (record_call (CallDelete d) (record_call (CallGet (Bmh.key_of b)) c))
                  Hconn)
        as (err & k & _ & Hrun).
      rewrite Hrun. do 2 eexists. split; reflexivity.
Qed.

(** ** Constructors and the first operation *)

(** [slices.Contains] is membership. *)
Lemma slices_Contains_In (l : list string) (v : string) :
  Bmh.slices_Contains l v = true <-> In v l.
Proof.
  unfold Bmh.slices_Contains. rewrite existsb_exists. split.
  - intros (x & Hin & Heq). apply String.eqb_eq in Heq. subst. exact Hin.
  - intro Hin. exists v. split; [exact Hin|apply String.eqb_refl].
Qed.

(** The builder of [NewBuilder] has a definition with the given name and
    namespace, and the given client. *)
Lemma bmh_NewBuilder_reaches (client : option Settings)
  (name nsname bmcAddress bmcSecretName bootMacAddress bootMode : string) :
  exists b,
    Bmh.NewBuilder client name nsname bmcAddress bmcSecretName bootMacAddress bootMode
    = Some b
    /\ Bmh.apiClient b = client
    /\ Bmh.key_of b = mkObjectKey name nsname
    /\ Bmh.Defn b <> None.
Proof.
  unfold Bmh.NewBuilder. eexists. split; [reflexivity|].
  destruct (name =? ""), (nsname =? ""), (bmcAddress =? ""), (bmcSecretName =? ""),
    (negb (Bmh.slices_Contains Bmh.bootModeAcceptable bootMode)), (bootMacAddress =? "");
    repeat split; discriminate.
Qed.

(** C5 (amended): a constructor given an empty required argument, or
    [NewBuilder] given a boot mode outside the accepted values (the empty one
    included), still returns a builder, with its error state set to the
    message of a check that failed.  On the bare-metal-host builder [Create],
    [CreateAndWaitUntilProvisioned] and [WaitUntilInStatus] then return,
    without a request to the cluster, an error whose text is exactly that
    message; on the node-pool builder [Get] and [WaitForReplicas] do so when
    the builder was made with a client, they return the error made of the
    nil-client message of [validate] when it was made without one, and
    [Exists] returns false.  [Get], [Exists], [Delete] and [WaitUntilDeleted]
    of the bare-metal-host builder do not surface the stored message: they
    never read the error state, and on the builder made with a client [Get]
    and [Exists] return the outcome of their fetch. *)
Theorem constructor_defers_error :
  forall (client : option Settings)
         (name nsname bmcAddress bmcSecretName bootMacAddress bootMode : string)
         (c : Cluster Bmh.BareMetalHost)
         (pclient : option Settings)
         (pname pnsname clusterName agentNamespace release : string)
         (replicas : Z) (nc : Cluster Hypershift.NodePool),
    (name = "" \/ nsname = "" \/ bmcAddress = "" \/ bmcSecretName = ""
     \/ bootMacAddress = "" \/ ~ In bootMode Bmh.bootModeAcceptable) ->
    (pname = "" \/ pnsname = "" \/ clusterName = "" \/ release = "") ->
    (exists b,
        Bmh.NewBuilder client name nsname bmcAddress bmcSecretName bootMacAddress bootMode
        = Some b
        /\ nonempty (Bmh.errorMsg b) = true
        /\ In (true, Bmh.errorMsg b)
              (Bmh.NewBuilder_checks name nsname bmcAddress bmcSecretName
                 bootMacAddress bootMode)
        /\ (exists e,
               Bmh.Create (b, c) = Normal (NilBuilder, Some e) (b, c)
               /\ (forall timeout,
                      Bmh.CreateAndWaitUntilProvisioned timeout (b, c)
                      = Normal (NilBuilder, Some e) (b, c))
               /\ Error e = Bmh.errorMsg b)
        /\ (forall status timeout,
               exists e,
                 Bmh.WaitUntilInStatus status timeout (b, c) = Normal (Some e) (b, c)
                 /\ Error e = Bmh.errorMsg b)
        /\ (client <> None ->
            let reply := get_reply c (gets_made c) in
            let c1 := record_call (CallGet (mkObjectKey name nsname)) c in
            Bmh.Get (b, c) = Normal (reply_object reply, reply_error reply) (b, c1)
            /\ Bmh.Exists (b, c)
               = Normal (negb (fetch_not_found reply))
                   (Bmh.set_Object (reply_object reply) b, c1)))
    /\ (ignores_error_state Bmh.Get
        /\ ignores_error_state Bmh.Exists
        /\ ignores_error_state Bmh.Delete
        /\ (forall timeout, ignores_error_state (Bmh.WaitUntilDeleted timeout)))
    /\ (exists nb m,
           Hypershift.NewNodePoolBuilder pclient pname pnsname clusterName agentNamespace
             release replicas = Some nb
           /\ nonempty (Hypershift.errorMsg nb) = true
           /\ In (true, Hypershift.errorMsg nb)
                 (Hypershift.NewNodePoolBuilder_checks pname pnsname clusterName release)
           /\ m = match pclient with
                  | Some _ => Hypershift.errorMsg nb
                  | None => "NodePool builder cannot have nil apiClient"
                  end
           /\ (pclient <> None -> Hypershift.set_errorMsg m nb = nb)
           /\ (exists e,
                  Hypershift.Get (Some nb, nc)
                  = Normal (None, Some e) (Some (Hypershift.set_errorMsg m nb), nc)
                  /\ (forall wanted timeout,
                         Hypershift.WaitForReplicas wanted timeout (Some nb, nc)
                         = Normal (Receiver, Some e) (Some (Hypershift.set_errorMsg m nb), nc))
                  /\ Error e = m)
           /\ Hypershift.Exists (Some nb, nc)
              = Normal false (Some (Hypershift.set_errorMsg m nb), nc)).
Proof.
  intros client name nsname bmcAddress bmcSecretName bootMacAddress bootMode c
         pclient pname pnsname clusterName agentNamespace release replicas nc Hb Hn.
  split; [|split].
  - destruct (bmh_NewBuilder_error_set client name nsname bmcAddress bmcSecretName
                bootMacAddress bootMode) as (b & HN & He & Hpf & Hin).
    { unfold Bmh.NewBuilder_checks.
      assert (Hmode : ~ In bootMode Bmh.bootModeAcceptable ->
                      negb (Bmh.slices_Contains Bmh.bootModeAcceptable bootMode) = true).
      { intro H. destruct (Bmh.slices_Contains Bmh.bootModeAcceptable bootMode) eqn:E;
          [|reflexivity].
        apply slices_Contains_In in E. contradiction. }
      destruct Hb as [-> | [-> | [-> | [-> | [-> | Hm]]]]];
        try rewrite (Hmode Hm); simpl;
        repeat match goal with
               | |- context [?x =? ""] => destruct (x =? "")
               | |- context [negb ?x] => destruct (negb x)
               end; reflexivity. }
    exists b. split; [exact HN|]. split; [exact He|]. split; [exact Hin|].
    assert (HC : Bmh.Create (b, c)
                 = Normal (NilBuilder, Some (fmt_Errorf0 (Bmh.errorMsg b))) (b, c)).
    { unfold Bmh.Create, bind, gets. simpl. rewrite He. reflexivity. }
    split; [|split].
    + exists (fmt_Errorf0 (Bmh.errorMsg b)). split; [exact HC|]. split.
      * intro timeout. unfold Bmh.CreateAndWaitUntilProvisioned, bind. rewrite HC.
        reflexivity.
      * apply fmt_Errorf0_message, Hpf.
    + intros status timeout. exists (fmt_Errorf0 (Bmh.errorMsg b)). split.
      * unfold Bmh.WaitUntilInStatus, bind, gets. simpl. rewrite He. reflexivity.
      * apply fmt_Errorf0_message, Hpf.
    + intro Hc. cbv zeta.
      assert (Hconn : Bmh.connected b = true /\ Bmh.key_of b = mkObjectKey name nsname).
      { destruct (bmh_NewBuilder_reaches client name nsname bmcAddress bmcSecretName
                    bootMacAddress bootMode) as (b2 & HN2 & Hcl2 & Hkey2 & Hd2).
        rewrite HN in HN2. injection HN2 as <-.
        split; [|exact Hkey2]. unfold Bmh.connected. rewrite Hcl2.
        destruct (Bmh.Defn b); [|contradiction Hd2; reflexivity].
        destruct client; [reflexivity|contradiction Hc; reflexivity]. }
      destruct Hconn as [Hconn Hkey]. rewrite <- Hkey.
      split; [apply bmh_Get_connected, Hconn|apply bmh_Exists_connected, Hconn].
  - split; [exact bmh_Get_ignores|]. split; [exact bmh_Exists_ignores|].
    split; [exact bmh_Delete_ignores|exact bmh_WaitUntilDeleted_ignores].
  - destruct (np_NewNodePoolBuilder_error_set pclient pname pnsname clusterName
                agentNamespace release replicas)
      as (nb & HN & He & Hpf & Hd & Hc & Hin).
    { unfold Hypershift.NewNodePoolBuilder_checks.
      destruct Hn as [-> | [-> | [-> | ->]]]; simpl;
        repeat match goal with
               | |- context [?x =? ""] => destruct (x =? "")
               end; reflexivity. }
    exists nb.
    exists (match pclient with
            | Some _ => Hypershift.errorMsg nb
            | None => "NodePool builder cannot have nil apiClient"
            end).
    split; [exact HN|]. split; [exact He|]. split; [exact Hin|].
    split; [reflexivity|].
    assert (Hfix : Hypershift.set_errorMsg (Hypershift.errorMsg nb) nb = nb)
      by (destruct nb; reflexivity).
    split.
    { destruct pclient; [intros _; exact Hfix|intro H; contradiction H; reflexivity]. }
    assert (Hval : Hypershift.validate (Some nb, nc)
                   = Normal (false,
                             Some (fmt_Errorf0
                                     match pclient with
                                     | Some _ => Hypershift.errorMsg nb
                                     | None => "NodePool builder cannot have nil apiClient"
                                     end))
                       (Some (Hypershift.set_errorMsg
                                match pclient with
                                | Some _ => Hypershift.errorMsg nb
                                | None => "NodePool builder cannot have nil apiClient"
                                end nb), nc)).
    { destruct pclient as [cl|].
      - destruct (np_validate_error_set nb nc He) as (m & Hm & Hsame & Hval).
        assert (Hmeq : m = Hypershift.errorMsg nb).
        { apply Hsame; [exact Hd|]. rewrite Hc. discriminate. }
        subst m. exact Hval.
      - unfold Hypershift.validate. simpl.
        destruct (Hypershift.Defn nb); simpl; rewrite Hc; reflexivity. }
    split.
    + eexists. split; [|split].
      * unfold Hypershift.Get, bind. rewrite Hval. reflexivity.
      * intros wanted timeout. unfold Hypershift.WaitForReplicas, bind. rewrite Hval.
        reflexivity.
      * apply fmt_Errorf0_message. destruct pclient; [exact Hpf|reflexivity].
    + unfold Hypershift.Exists, bind. rewrite Hval. reflexivity.
Qed.

End WithExternals.

(** * Concrete runs *)

Lemma sample_Sprintf0_verbatim :
  forall s, percent_free s = true -> @Sprintf0 sample_externals s = s.
Proof. intros s H. reflexivity. Qed.

Lemma sample_Undefined_nonempty :
  forall crd, nonempty (@UndefinedCrdObjectErrString sample_externals crd) = true.
Proof. intro crd. reflexivity. Qed.

(** On a cluster without the resource [Exists] is false, for both builders. *)
Lemma Exists_false_iff_fetch_not_found_witness :
  Bmh.clean good_builder = true
  /\ Hypershift.clean good_pool_builder = true
  /\ (exists s', Bmh.Exists (good_builder, empty_cluster) = Normal false s')
  /\ (exists s',
         @Hypershift.Exists sample_externals (Some good_pool_builder, poolless_cluster)
         = Normal false s').
Proof.
  split; [reflexivity|]. split; [reflexivity|].
  destruct (@Exists_false_iff_fetch_not_found sample_externals
              good_builder empty_cluster good_pool_builder poolless_cluster
              eq_refl eq_refl)
    as [(f & s' & HE & Hiff & _) (nf & ns' & HNE & Hniff & _)].
  split.
  - exists s'. rewrite HE. f_equal. apply Hiff.
    exists not_found. split; reflexivity.
  - exists ns'. rewrite HNE. f_equal. apply Hniff.
    exists not_found. split; reflexivity.
Defined.

(** [Delete] on a cluster that cannot be reached: the existence check says
    true, the delete request fails and its error comes back wrapped. *)
Lemma Delete_contract_witness :
  Bmh.connected good_builder = true
  /\ Bmh.Defn good_builder = Some (sample_host "")
  /\ Bmh.Delete (good_builder, broken_cluster)
     = Normal (Receiver, Some (wrapError "can not delete bmh: " unavailable))
         (Bmh.set_Object None good_builder,
          record_call (CallDelete (sample_host ""))
            (record_call (CallGet (Bmh.key_of good_builder)) broken_cluster)).
Proof.
  split; [reflexivity|]. split; [reflexivity|].
  destruct (Delete_contract good_builder broken_cluster (sample_host "") eq_refl eq_refl)
    as (_ & _ & _ & Hfail).
  exact (proj1 (Hfail unavailable eq_refl eq_refl)).
Defined.

(** C7, counterexample: an existence check finds the host "ready", which
    becomes the observed object.  [Delete] then fetches the host as
    "provisioned" and the cluster refuses the delete request.  [Delete] returns
    the wrapped error, and the observed object is not the one from before the
    call: it is the host as just fetched. *)
Lemma Delete_failure_replaces_Object :
  exists c0,
    Bmh.Exists (good_builder, refusing_cluster) = Normal true (observed_builder, c0)
    /\ Bmh.Object observed_builder = Some (sample_host "ready")
    /\ exists b' c',
         Bmh.Delete (observed_builder, c0)
         = Normal (Receiver, Some (wrapError "can not delete bmh: " forbidden)) (b', c')
         /\ Bmh.Object b' = Some (sample_host "provisioned")
         /\ Bmh.Object b' <> Bmh.Object observed_builder.
Proof.
  eexists. split; [reflexivity|]. split; [reflexivity|].
  do 2 eexists. split; [reflexivity|]. split; [reflexivity|]. discriminate.
Qed.

(** The third fetch finds the host provisioned, within a timeout of five
    seconds: the wait succeeds after three fetches.  A host that stays
    provisioned is not ready within two seconds: the wait makes its fetches at
    0s and 1s and times out. *)
Lemma status_wait_success_and_timeout_witness :
  Bmh.clean good_builder = true
  /\ Hypershift.clean good_pool_builder = true
  /\ @Bmh.WaitUntilInStatus sample_externals Bmh.StateProvisioned 5000000000%Z
       (good_builder, provisioning_cluster)
     = Normal None
         (Bmh.set_Object (Some (sample_host "provisioned")) good_builder,
          after_gets (Bmh.key_of good_builder) 3 provisioning_cluster)
  /\ @Hypershift.WaitForReplicas sample_externals 3%Z 5000000000%Z
       (Some good_pool_builder, scaling_cluster)
     = Normal (Receiver, None)
         (Some (Hypershift.set_Object (Some (sample_pool 3)) good_pool_builder),
          after_gets (Hypershift.key_of good_pool_builder) 2 scaling_cluster)
  /\ (0 < 2000000000)%Z
  /\ @Bmh.WaitUntilInStatus sample_externals Bmh.StateReady 2000000000%Z
       (good_builder, sticky_cluster)
     = Normal (Some ErrWaitTimeout)
         (Bmh.set_Object (Some (sample_host "provisioned")) good_builder,
          after_gets (Bmh.key_of good_builder) 2 sticky_cluster).
Proof.
  split; [reflexivity|]. split; [reflexivity|].
  destruct (@status_wait_success_and_timeout sample_externals
              Bmh.StateProvisioned 3%Z 5000000000%Z
              good_builder provisioning_cluster good_pool_builder scaling_cluster
              eq_refl eq_refl)
    as (Hb & _ & Hn & _).
  split; [|split; [|split]].
  - apply (Hb 3).
    + lia.
    + reflexivity.
    + intros j Hj. simpl.
      destruct j as [|[|j]]; [reflexivity|reflexivity|lia].
    + reflexivity.
  - apply (Hn 2).
    + lia.
    + reflexivity.
    + intros j Hj. simpl.
      destruct j as [|j]; [reflexivity|lia].
    + reflexivity.
  - lia.
  - destruct (@status_wait_success_and_timeout sample_externals
                Bmh.StateReady 3%Z 2000000000%Z
                good_builder sticky_cluster good_pool_builder scaling_cluster
                eq_refl eq_refl)
      as (_ & Hout & _).
    destruct (Hout eq_refl (fun j _ => eq_refl)) as (n & Hn1 & Hbounds & Hrun).
    assert (Hn2 : n = 2).
    { unfold time_Second in Hbounds. lia. }
    subst n. exact Hrun.
Defined.

(** A failed fetch is passed over by the status loop, and ends the deletion
    wait with its error when it is not a not-found error. *)
Lemma poll_fetch_error_policy_witness :
  Bmh.clean good_builder = true
  /\ Bmh.Get (good_builder, broken_cluster)
     = Normal (None, Some unavailable)
         (good_builder, record_call (CallGet (Bmh.key_of good_builder)) broken_cluster)
  /\ IsNotFound unavailable = false
  /\ poll_loop 2 (Bmh.WaitUntilInStatus_condition Bmh.StateReady)
       (good_builder, broken_cluster)
     = poll_loop 1 (Bmh.WaitUntilInStatus_condition Bmh.StateReady)
         (good_builder, record_call (CallGet (Bmh.key_of good_builder)) broken_cluster)
  /\ Bmh.WaitUntilDeleted 3000000000%Z (good_builder, broken_cluster)
     = Normal (Some unavailable)
         (good_builder, record_call (CallGet (Bmh.key_of good_builder)) broken_cluster).
Proof.
  split; [reflexivity|]. split; [reflexivity|]. split; [reflexivity|].
  destruct (@poll_fetch_error_policy sample_externals)
    as (_ & Hswallow & _ & _ & Hloop & _ & Hfatal & _).
  split.
  - exact (Hswallow Bmh.StateReady 1 (good_builder, broken_cluster) None unavailable
             _ eq_refl).
  - rewrite Hloop.
    change (ticks_before time_Second 3000000000%Z) with 2.
    exact (Hfatal 1 (good_builder, broken_cluster) None unavailable _ eq_refl eq_refl).
Defined.

(** The vendor "acme" ends up in the field [Model]. *)
Lemma WithRootDeviceVendor_assigns_Model_witness :
  Bmh.errorMsg good_builder = ""
  /\ Bmh.Defn good_builder = Some (sample_host "")
  /\ "acme" <> ""
  /\ exists d' h',
       @Bmh.WithRootDeviceVendor sample_externals "acme" (good_builder, empty_cluster)
       = Normal Receiver (Bmh.set_Defn (Some d') good_builder, empty_cluster)
       /\ Bmh.Spec_RootDeviceHints (Bmh.Spec d') = Some h'
       /\ Bmh.Model h' = "acme"
       /\ Bmh.Vendor h' = "".
Proof.
  split; [reflexivity|]. split; [reflexivity|].
  assert (Hne : "acme" <> "") by discriminate.
  split; [exact Hne|].
  destruct (@WithRootDeviceVendor_assigns_Model sample_externals
              good_builder empty_cluster (sample_host "") "acme" eq_refl eq_refl Hne)
    as (d' & h' & Hrun & Hh & Hm & Hv & _).
  exists d', h'. repeat split; assumption.
Defined.

(** [Create] on the builder made with an empty BMC address. *)
Lemma error_state_short_circuit_witness :
  (forall s, percent_free s = true -> @Sprintf0 sample_externals s = s)
  /\ (forall crd, nonempty (@UndefinedCrdObjectErrString sample_externals crd) = true)
  /\ nonempty (Bmh.errorMsg addressless_builder) = true
  /\ nonempty (Hypershift.errorMsg nameless_pool_builder) = true
  /\ @Bmh.Create sample_externals (addressless_builder, sticky_cluster)
     = Normal (NilBuilder,
               Some (@fmt_Errorf0 sample_externals "BMH 'bmcAddress' cannot be empty"))
         (addressless_builder, sticky_cluster)
  /\ Error (@fmt_Errorf0 sample_externals "BMH 'bmcAddress' cannot be empty")
     = "BMH 'bmcAddress' cannot be empty".
Proof.
  split; [exact sample_Sprintf0_verbatim|]. split; [exact sample_Undefined_nonempty|].
  split; [reflexivity|]. split; [reflexivity|].
  destruct (@error_state_short_circuit sample_externals
              sample_Sprintf0_verbatim sample_Undefined_nonempty
              addressless_builder sticky_cluster nameless_pool_builder scaling_cluster
              eq_refl eq_refl)
    as ((HC & _ & _ & _ & Hmsg) & _).
  split; [exact HC|]. exact (Hmsg eq_refl).
Defined.

(** C3, counterexample: the builder made with an empty BMC address has its
    error state set, yet [Delete] sends its fetch to the cluster and returns
    another error than the stored one. *)
Lemma Delete_ignores_error_state :
  nonempty (Bmh.errorMsg addressless_builder) = true
  /\ exists e s',
       Bmh.Delete (addressless_builder, empty_cluster) = Normal (Receiver, Some e) s'
       /\ Error e <> Bmh.errorMsg addressless_builder
       /\ trace (snd s') = [CallGet (mkObjectKey "host0" "cluster0")]
       /\ snd s' <> empty_cluster.
Proof.
  split; [reflexivity|].
  do 2 eexists. split; [reflexivity|]. simpl.
  split; [discriminate|]. split; [reflexivity|].
  intro H. apply (f_equal (@trace Bmh.BareMetalHost)) in H. discriminate H.
Qed.

(** A run of calls on the builder made with an empty BMC address. *)
Lemma error_state_never_cleared_witness :
  (forall crd, nonempty (@UndefinedCrdObjectErrString sample_externals crd) = true)
  /\ nonempty (Bmh.errorMsg addressless_builder) = true
  /\ nonempty (Hypershift.errorMsg nameless_pool_builder) = true
  /\ (exists s',
         @Bmh.run_ops sample_externals
           [Bmh.OpWithRootDeviceHTCL "0:0:0:0"; Bmh.OpWithRootDeviceVendor "";
            Bmh.OpExists; Bmh.OpCreate; Bmh.OpDelete;
            Bmh.OpWaitUntilDeleted 2000000000%Z]
           (addressless_builder, sticky_cluster) = Normal tt s'
         /\ nonempty (Bmh.errorMsg (fst s')) = true)
  /\ (exists s' nb',
         @Hypershift.run_ops sample_externals
           [Hypershift.OpWithReplicas (Some 5%Z); Hypershift.OpExists;
            Hypershift.OpWaitForReplicas 5%Z 2000000000%Z]
           (Some nameless_pool_builder, scaling_cluster) = Normal tt s'
         /\ fst s' = Some nb'
         /\ nonempty (Hypershift.errorMsg nb') = true).
Proof.
  split; [exact sample_Undefined_nonempty|]. split; [reflexivity|]. split; [reflexivity|].
  destruct (@error_state_never_cleared sample_externals sample_Undefined_nonempty
              [Bmh.OpWithRootDeviceHTCL "0:0:0:0"; Bmh.OpWithRootDeviceVendor "";
               Bmh.OpExists; Bmh.OpCreate; Bmh.OpDelete;
               Bmh.OpWaitUntilDeleted 2000000000%Z]
              addressless_builder sticky_cluster
              [Hypershift.OpWithReplicas (Some 5%Z); Hypershift.OpExists;
               Hypershift.OpWaitForReplicas 5%Z 2000000000%Z]
              nameless_pool_builder scaling_cluster eq_refl eq_refl)
    as (Hb & Hn & _).
  split.
  - eexists. split; [vm_compute; reflexivity|].
    apply Hb. vm_compute. reflexivity.
  - assert (Hrun : exists s',
               @Hypershift.run_ops sample_externals
                 [Hypershift.OpWithReplicas (Some 5%Z); Hypershift.OpExists;
                  Hypershift.OpWaitForReplicas 5%Z 2000000000%Z]
                 (Some nameless_pool_builder, scaling_cluster) = Normal tt s')
      by (eexists; vm_compute; reflexivity).
    destruct Hrun as (s' & Hrun).
    destruct (Hn s' Hrun) as (nb' & Hfst & Hne).
    exists s', nb'. repeat split; assumption.
Defined.

(** C4, counterexample: [WithOptions] is called on a builder whose error state
    is empty, with two options.  The first calls [WithRootDeviceModel] with an
    empty model, which sets the error state, and reports success; the second
    fails with an error whose text is empty.  When [WithOptions] returns, the
    error state that the mutator had set is empty again, and [Create] goes to
    the cluster. *)
Lemma WithOptions_clears_error_state :
  (exists s1,
      bad_model_option (good_builder, empty_cluster) = Normal (Receiver, None) s1
      /\ Bmh.errorMsg (fst s1) = "the baremetalhost rootDeviceHint model cannot be empty"
      /\ empty_error_option s1 = Normal (Receiver, Some (errorString "")) s1
      /\ Error (errorString "") = "")
  /\ @Bmh.WithOptions sample_externals [Some bad_model_option; Some empty_error_option]
       (good_builder, empty_cluster)
     = Normal Receiver (good_builder, empty_cluster)
  /\ Bmh.errorMsg good_builder = ""
  /\ exists s',
       @Bmh.Create sample_externals (good_builder, empty_cluster)
       = Normal (Receiver, None) s'
       /\ trace (snd s')
          = [CallCreate (sample_host ""); CallGet (mkObjectKey "host0" "cluster0")].
Proof.
  split.
  - eexists. split; [reflexivity|]. repeat split.
  - split; [reflexivity|]. split; [reflexivity|].
    eexists. split; reflexivity.
Qed.

(** [NewBuilder] with an empty BMC address, then [Create]. *)
Lemma constructor_defers_error_witness :
  (forall s, percent_free s = true -> @Sprintf0 sample_externals s = s)
  /\ (forall crd, nonempty (@UndefinedCrdObjectErrString sample_externals crd) = true)
  /\ ("host0" = "" \/ "cluster0" = "" \/ "" = "" \/ "bmc-secret" = ""
      \/ "aa:bb:cc:dd:ee:ff" = "" \/ ~ In "UEFI" Bmh.bootModeAcceptable)
  /\ ("pool0" = "" \/ "clusters" = "" \/ "" = "" \/ "quay.io/release:4.14" = "")
  /\ (exists b e,
         Bmh.NewBuilder (Some ClientSettings) "host0" "cluster0" ""
           "bmc-secret" "aa:bb:cc:dd:ee:ff" "UEFI" = Some b
         /\ @Bmh.Create sample_externals (b, sticky_cluster)
            = Normal (NilBuilder, Some e) (b, sticky_cluster)
         /\ Error e = Bmh.errorMsg b)
  /\ (exists nb e,
         Hypershift.NewNodePoolBuilder (Some ClientSettings) "pool0" "clusters" ""
           "agents" "quay.io/release:4.14" 3%Z = Some nb
         /\ @Hypershift.Get sample_externals (Some nb, scaling_cluster)
            = Normal (None, Some e) (Some nb, scaling_cluster)
         /\ Error e = Hypershift.errorMsg nb).
Proof.
  split; [exact sample_Sprintf0_verbatim|]. split; [exact sample_Undefined_nonempty|].
  assert (H1 : "host0" = "" \/ "cluster0" = "" \/ "" = ""
               \/ "bmc-secret" = "" \/ "aa:bb:cc:dd:ee:ff" = ""
               \/ ~ In "UEFI" Bmh.bootModeAcceptable)
    by (right; right; left; reflexivity).
  assert (H2 : "pool0" = "" \/ "clusters" = "" \/ "" = "" \/ "quay.io/release:4.14" = "")
    by (right; right; left; reflexivity).
  split; [exact H1|]. split; [exact H2|].
  destruct (@constructor_defers_error sample_externals
              sample_Sprintf0_verbatim sample_Undefined_nonempty
              (Some ClientSettings) "host0" "cluster0" "" "bmc-secret"
              "aa:bb:cc:dd:ee:ff" "UEFI" sticky_cluster
              (Some ClientSettings) "pool0" "clusters" "" "agents"
              "quay.io/release:4.14" 3%Z scaling_cluster H1 H2)
    as ((b & HN & _ & _ & (e & HC & _ & HE) & _) & _
        & (nb & m & HNN & _ & _ & Hm & Hfix & (ne & HG & _ & HGE) & _)).
  split.
  - exists b, e. repeat split; assumption.
  - exists nb, ne. rewrite (Hfix ltac:(discriminate)) in HG.
    rewrite Hm in HGE. repeat split; assumption.
Defined.

(** C5, counterexample: [NewBuilder] called with an empty BMC address returns
    the builder with its error state set, and the first operation on it,
    [Get], sends its fetch to the cluster and returns the fetched host with no
    error at all. *)
Lemma Get_ignores_constructor_error :
  Bmh.NewBuilder (Some ClientSettings) "host0" "cluster0" "" "bmc-secret"
    "aa:bb:cc:dd:ee:ff" "UEFI" = Some addressless_builder
  /\ Bmh.errorMsg addressless_builder = "BMH 'bmcAddress' cannot be empty"
  /\ exists s',
       Bmh.Get (addressless_builder, sticky_cluster)
       = Normal (Some (sample_host "provisioned"), None) s'
       /\ trace (snd s') = [CallGet (mkObjectKey "host0" "cluster0")].
Proof.
  split; [reflexivity|]. split; [reflexivity|].
  eexists. split; reflexivity.
Qed.

(** A replica wait on a cluster without the pool times out and returns a nil
    builder; a host that is deleted and gone at the second fetch of the wait
    gives a nil builder and no error. *)
Lemma nil_builder_returns_witness :
  Hypershift.clean good_pool_builder = true
  /\ Bmh.connected good_builder = true
  /\ Bmh.Defn good_builder = Some (sample_host "")
  /\ (0 < 2000000000)%Z
  /\ (exists s',
         @Hypershift.WaitForReplicas sample_externals 3%Z 2000000000%Z
           (Some good_pool_builder, poolless_cluster)
         = Normal (NilBuilder, Some ErrWaitTimeout) s')
  /\ (exists s',
         Bmh.DeleteAndWaitUntilDeleted 5000000000%Z (good_builder, vanishing_cluster)
         = Normal (NilBuilder, None) s').
Proof.
  split; [reflexivity|]. split; [reflexivity|]. split; [reflexivity|].
  split; [lia|].
  split.
  - destruct (@nil_builder_returns sample_externals 3%Z 2000000000%Z
                good_pool_builder poolless_cluster good_builder empty_cluster
                (sample_host "") eq_refl eq_refl eq_refl)
      as ((_ & Hout & _) & _).
    exact (Hout eq_refl (fun j _ => eq_refl)).
  - destruct (@nil_builder_returns sample_externals 3%Z 5000000000%Z
                good_pool_builder poolless_cluster good_builder vanishing_cluster
                (sample_host "") eq_refl eq_refl eq_refl)
      as (_ & _ & _ & Hdeleted).
    destruct (Hdeleted eq_refl eq_refl) as (err & c' & Hwait & Hrun).
    assert (Herr : err = None).
    { vm_compute in Hwait. inversion Hwait. reflexivity. }
    subst err. eexists. exact Hrun.
Defined.

(** C10, counterexample: the host is deleted and then stays visible until the
    wait times out; [DeleteAndWaitUntilDeleted] returns a nil builder together
    with the timeout error, so a nil builder is not returned on success
    only. *)
Lemma DeleteAndWaitUntilDeleted_nil_without_success :
  exists s',
    Bmh.DeleteAndWaitUntilDeleted 2000000000%Z (good_builder, sticky_cluster)
    = Normal (NilBuilder, Some ErrWaitTimeout) s'
    /\ In (CallDelete (sample_host "")) (trace (snd s')).
Proof.
  eexists. split; [vm_compute; reflexivity|]. simpl. right. left. reflexivity.
Qed.

(** * Further properties of the two packages *)

(** ** Constructors *)

(** X1: [NewBuilder] always returns a builder whose definition carries the given
    name and namespace and whose observed object is nil; the builder has no
    stored error exactly when the five string arguments are non-empty and the
    boot mode is one of the accepted values, and it is clean exactly when in
    addition the client is not nil. *)
Theorem NewBuilder_clean_iff :
  forall (client : option Settings)
         (name nsname bmcAddress bmcSecretName bootMacAddress bootMode : string),
  exists b,
    Bmh.NewBuilder client name nsname bmcAddress bmcSecretName bootMacAddress bootMode
    = Some b
    /\ (Bmh.errorMsg b = ""
        <-> NewBuilder_valid name nsname bmcAddress bmcSecretName bootMacAddress bootMode)
    /\ (Bmh.clean b = true
        <-> NewBuilder_valid name nsname bmcAddress bmcSecretName bootMacAddress bootMode
            /\ client <> None)
    /\ Bmh.key_of b = mkObjectKey name nsname
    /\ Bmh.Object b = None
    /\ Bmh.apiClient b = client.
Proof.
  intros. eexists. split; [reflexivity|].
  unfold NewBuilder_valid, Bmh.clean, Bmh.key_of.
  rewrite <- (slices_Contains_In Bmh.bootModeAcceptable bootMode).
  destruct (name =? "") eqn:E1; destruct (nsname =? "") eqn:E2;
    destruct (bmcAddress =? "") eqn:E3; destruct (bmcSecretName =? "") eqn:E4;
    destruct (Bmh.slices_Contains Bmh.bootModeAcceptable bootMode) eqn:E5;
    destruct (bootMacAddress =? "") eqn:E6;
    destruct client as [cl|]; simpl;
    rewrite ?String.eqb_eq, ?String.eqb_neq in *;
    (repeat split; try reflexivity; try discriminate; try congruence;
     try (intros; tauto); try (intros; intuition congruence)).
Qed.

(** X2: [NewNodePoolBuilder] returns a builder without stored error exactly
    when name, namespace, cluster name and release are non-empty; the argument
    [agentNamespace] has no effect on the builder, and the replica count is
    stored as given, without a check. *)
Theorem NewNodePoolBuilder_clean_iff :
  forall (client : option Settings)
         (name nsname clusterName agentNamespace release : string) (replicas : Z),
  exists nb d,
    Hypershift.NewNodePoolBuilder client name nsname clusterName agentNamespace release
      replicas = Some nb
    /\ (Hypershift.errorMsg nb = ""
        <-> NewNodePoolBuilder_valid name nsname clusterName release)
    /\ (Hypershift.clean nb = true
        <-> NewNodePoolBuilder_valid name nsname clusterName release /\ client <> None)
    /\ (forall other,
           Hypershift.NewNodePoolBuilder client name nsname clusterName other release
             replicas = Some nb)
    /\ Hypershift.Defn nb = Some d
    /\ Hypershift.Replicas (Hypershift.Spec d) = Some replicas
    /\ Hypershift.key_of nb = mkObjectKey name nsname.
Proof.
  intros. eexists.
  exists (Hypershift.mkNodePool (mkObjectMeta name nsname)
            (Hypershift.mkNodePoolSpec clusterName release (Some replicas)
               (Hypershift.mkNodePoolPlatform Hypershift.AgentPlatform))
            (Hypershift.mkNodePoolStatus 0)).
  split; [reflexivity|].
  split; [|split; [|split; [intros; reflexivity|]]].
  3: { unfold Hypershift.key_of.
       repeat split;
         destruct (name =? ""), (nsname =? ""), (clusterName =? ""), (release =? "");
         reflexivity. }
  - unfold NewNodePoolBuilder_valid.
    destruct (name =? "") eqn:E1; destruct (nsname =? "") eqn:E2;
      destruct (clusterName =? "") eqn:E3; destruct (release =? "") eqn:E4; simpl;
      rewrite ?String.eqb_eq, ?String.eqb_neq in *;
      (split; [intro; try discriminate; tauto|intro; try reflexivity; tauto]).
  - unfold NewNodePoolBuilder_valid, Hypershift.clean.
    destruct (name =? "") eqn:E1; destruct (nsname =? "") eqn:E2;
      destruct (clusterName =? "") eqn:E3; destruct (release =? "") eqn:E4;
      destruct client as [cl|]; simpl;
      rewrite ?String.eqb_eq, ?String.eqb_neq in *;
      (split; [intro; try discriminate; repeat split; try assumption; discriminate
              |intro; try reflexivity; tauto]).
Qed.

Section Coverage.

Context {ext : Externals}.

(** The message of [pkg/msg] for an undefined object is not empty. *)
Hypothesis Undefined_is_nonempty :
  forall crd, nonempty (UndefinedCrdObjectErrString crd) = true.

(** ** Chains of mutators *)

Lemma run_op_hint_mutator (op : Bmh.Op) (invalid : bool) (msg : string)
  (set : Bmh.RootDeviceHints -> Bmh.RootDeviceHints) :
  hint_mutator op = Some (invalid, msg, set) ->
  Bmh.run_op op = Bmh.discard (Bmh.with_root_device_hint invalid msg set).
Proof.
  destruct op; simpl; intro H; try discriminate H; inversion H; subst; reflexivity.
Qed.

Lemma hint_mutator_message_nonempty (op : Bmh.Op) (msg : string)
  (set : Bmh.RootDeviceHints -> Bmh.RootDeviceHints) :
  hint_mutator op = Some (true, msg, set) -> nonempty msg = true.
Proof.
  destruct op; simpl; intro H; try discriminate H;
    injection H as H1 H2 H3; rewrite <- H2; reflexivity.
Qed.

(** A mutator on a builder with a definition and a stored error: only the
    message can change. *)
Lemma with_root_device_hint_error_set (invalid : bool) (msg : string)
  (set : Bmh.RootDeviceHints -> Bmh.RootDeviceHints)
  (b : Bmh.Builder) (c : Cluster Bmh.BareMetalHost) (d : Bmh.BareMetalHost) :
  nonempty (Bmh.errorMsg b) = true ->
  Bmh.Defn b = Some d ->
  (invalid = true -> nonempty msg = true) ->
  Bmh.with_root_device_hint invalid msg set (b, c)
  = Normal Receiver (Bmh.set_errorMsg (if invalid then msg else Bmh.errorMsg b) b, c).
Proof.
  intros He Hd Hmsg. unfold Bmh.with_root_device_hint, bind, gets. simpl.
  rewrite Hd. simpl. destruct invalid; simpl.
  - rewrite (Hmsg eq_refl). reflexivity.
  - rewrite He. destruct b; reflexivity.
Qed.

Lemma definition_step_error_set (op : Bmh.Op) (b : Bmh.Builder)
  (c : Cluster Bmh.BareMetalHost) :
  is_definition_step op = true ->
  nonempty (Bmh.errorMsg b) = true ->
  exists m,
    nonempty m = true
    /\ Bmh.run_op op (b, c) = Normal tt (Bmh.set_errorMsg m b, c)
    /\ (Bmh.Defn b <> None -> is_hint_mutator op = true ->
        m = last_invalid_message [op] (Bmh.errorMsg b)).
Proof.
  intros Hstep He.
  destruct (hint_mutator op) as [[[invalid msg] set]|] eqn:Hm.
  - rewrite (run_op_hint_mutator op invalid msg set Hm).
    assert (Hmsg : invalid = true -> nonempty msg = true).
    { intros ->. exact (hint_mutator_message_nonempty op msg set Hm). }
    destruct (Bmh.Defn b) as [d|] eqn:Hd.
    + exists (if invalid then msg else Bmh.errorMsg b). split; [|split].
      * destruct invalid; [apply Hmsg; reflexivity|exact He].
      * unfold Bmh.discard, bind.
        rewrite (with_root_device_hint_error_set invalid msg set b c d He Hd Hmsg).
        reflexivity.
      * intros _ _. unfold last_invalid_message. simpl. rewrite Hm.
        destruct invalid; reflexivity.
    + destruct (with_root_device_hint_skips invalid msg set b c He Hmsg
                  (fun _ => Undefined_is_nonempty "BareMetalHost")) as (m & Hne & Hrun).
      exists m. split; [exact Hne|]. split.
      * unfold Bmh.discard, bind. rewrite Hrun. reflexivity.
      * intro H. contradiction H. reflexivity.
  - destruct op; simpl in Hstep; unfold is_hint_mutator in Hstep;
      try (rewrite Hm in Hstep; discriminate Hstep); try discriminate Hm.
    unfold Bmh.run_op, Bmh.discard, Bmh.WithOptions, bind, gets. simpl.
    destruct (Bmh.Defn b) as [d|] eqn:Hd; simpl.
    + exists (Bmh.errorMsg b). rewrite He. split; [reflexivity|]. split.
      * destruct b; reflexivity.
      * intros _ H. unfold is_hint_mutator in H. simpl in H. discriminate H.
    + exists (UndefinedCrdObjectErrString "bmh").
      rewrite (Undefined_is_nonempty "bmh"). split; [reflexivity|]. split.
      * reflexivity.
      * intro H. contradiction H. reflexivity.
Qed.

(** X3: on a builder whose error state is set, a chain of mutators of the root
    device hints and of [WithOptions] calls returns without a panic and changes
    nothing but the stored message: the definition, the observed object, the
    client and the cluster are as before, and no option is run.  When the
    builder has a definition and the chain is made of hint mutators, the
    message at the end is the one of the last mutator whose argument failed
    its test, the first error being overwritten; without such a mutator it is
    the message the chain started with. *)
Theorem error_state_freezes_definition :
  forall (ops : list Bmh.Op) (b : Bmh.Builder) (c : Cluster Bmh.BareMetalHost),
    forallb is_definition_step ops = true ->
    nonempty (Bmh.errorMsg b) = true ->
    exists m,
      nonempty m = true
      /\ Bmh.run_ops ops (b, c) = Normal tt (Bmh.set_errorMsg m b, c)
      /\ (Bmh.Defn b <> None -> forallb is_hint_mutator ops = true ->
          m = last_invalid_message ops (Bmh.errorMsg b)).
Proof.
  induction ops as [|op ops IH]; intros b c Hall He.
  - exists (Bmh.errorMsg b). split; [exact He|]. split.
    + destruct b; reflexivity.
    + reflexivity.
  - simpl in Hall. apply andb_true_iff in Hall. destruct Hall as [Hop Hops].
    destruct (definition_step_error_set op b c Hop He) as (m1 & Hne1 & Hrun1 & Hm1).
    destruct (IH (Bmh.set_errorMsg m1 b) c Hops Hne1) as (m & Hne & Hrun & Hm).
    exists m. split; [exact Hne|]. split.
    + simpl. unfold bind. rewrite Hrun1, Hrun. reflexivity.
    + intros Hd Hmut. simpl in Hmut. apply andb_true_iff in Hmut.
      destruct Hmut as [Hmop Hmops].
      rewrite (Hm Hd Hmops). simpl Bmh.errorMsg.
      rewrite (Hm1 Hd Hmop). reflexivity.
Qed.

Lemma valid_hint_inv (op : Bmh.Op) :
  is_valid_hint op = true ->
  exists msg set, hint_mutator op = Some (false, msg, set).
Proof.
  unfold is_valid_hint. destruct (hint_mutator op) as [[[[|] msg] set]|];
    try discriminate. intros _. eauto.
Qed.

(** Two writes through the pointer [Definition] leave what the second one
    wrote. *)
Lemma bmh_set_Defn_twice (d1 d2 : option Bmh.BareMetalHost) (b : Bmh.Builder) :
  Bmh.set_Defn d2 (Bmh.set_Defn d1 b) = Bmh.set_Defn d2 b.
Proof. unfold Bmh.set_Defn. simpl. destruct (Bmh.shared b); reflexivity. Qed.

Lemma valid_hint_chain (ops : list Bmh.Op) :
  forall (op : Bmh.Op) (b : Bmh.Builder) (c : Cluster Bmh.BareMetalHost)
         (d : Bmh.BareMetalHost),
    Bmh.errorMsg b = "" ->
    Bmh.Defn b = Some d ->
    forallb is_valid_hint (op :: ops) = true ->
    Bmh.run_ops (op :: ops) (b, c)
    = Normal tt
        (Bmh.set_Defn
           (Some (Bmh.set_hints (Some (apply_hints (op :: ops) (Bmh.current_hints d))) d))
           b, c).
Proof.
  induction ops as [|op2 ops IH]; intros op b c d He Hd Hall;
    simpl in Hall; apply andb_true_iff in Hall; destruct Hall as [Hop Hops];
    destruct (valid_hint_inv op Hop) as (msg & set & Hm).
  - simpl. unfold bind. rewrite (run_op_hint_mutator op false msg set Hm).
    unfold Bmh.discard, bind.
    rewrite (with_root_device_hint_sets false msg set b c d He Hd eq_refl).
    unfold apply_hints. simpl. rewrite Hm. reflexivity.
  - change (Bmh.run_ops (op :: op2 :: ops))
      with (bind (Bmh.run_op op) (fun _ => Bmh.run_ops (op2 :: ops))).
    unfold bind at 1. rewrite (run_op_hint_mutator op false msg set Hm).
    unfold Bmh.discard, bind at 1.
    rewrite (with_root_device_hint_sets false msg set b c d He Hd eq_refl).
    cbn [ret].
    rewrite (IH op2 _ c (Bmh.set_hints (Some (set (Bmh.current_hints d))) d));
      [|exact He|reflexivity|exact Hops].
    rewrite bmh_set_Defn_twice.
    unfold apply_hints. simpl fold_left at 2. rewrite Hm. reflexivity.
Qed.

(** X4: on a builder with a definition and no stored error, a non-empty chain
    of mutators whose arguments all pass their tests applies the assignments
    of the mutators, in order, to the one root-device-hints structure of the
    definition (allocated by the first when absent); the rest of the
    definition, the client, the error state and the cluster are as before.
    The assignments are made in place.  When the observed object is an object
    of its own, or nil, it is as before; when it is the same pointer as the
    definition, as [Create] and [Pull] leave it, it is the definition with the
    new hints. *)
Theorem valid_mutator_chain :
  forall (ops : list Bmh.Op) (b : Bmh.Builder) (c : Cluster Bmh.BareMetalHost)
         (d : Bmh.BareMetalHost),
    Bmh.errorMsg b = "" ->
    Bmh.Defn b = Some d ->
    forallb is_valid_hint ops = true ->
    ops <> [] ->
    let d' := Bmh.set_hints (Some (apply_hints ops (Bmh.current_hints d))) d in
    exists b',
      Bmh.run_ops ops (b, c) = Normal tt (b', c)
      /\ Bmh.Defn b' = Some d'
      /\ (Bmh.shared b = false -> Bmh.Object b' = Bmh.Object b)
      /\ (Bmh.shared b = true -> Bmh.Object b' = Some d')
      /\ Bmh.apiClient b' = Bmh.apiClient b
      /\ Bmh.errorMsg b' = Bmh.errorMsg b
      /\ Bmh.shared b' = Bmh.shared b
      /\ Bmh.Meta d' = Bmh.Meta d
      /\ Bmh.Status d' = Bmh.Status d
      /\ Bmh.BMC (Bmh.Spec d') = Bmh.BMC (Bmh.Spec d)
      /\ Bmh.BootMode (Bmh.Spec d') = Bmh.BootMode (Bmh.Spec d)
      /\ Bmh.BootMACAddress (Bmh.Spec d') = Bmh.BootMACAddress (Bmh.Spec d)
      /\ Bmh.Online (Bmh.Spec d') = Bmh.Online (Bmh.Spec d)
      /\ Bmh.ExternallyProvisioned (Bmh.Spec d') = Bmh.ExternallyProvisioned (Bmh.Spec d).
Proof.
  intros [|op ops] b c d He Hd Hall Hne d'; [contradiction Hne; reflexivity|].
  exists (Bmh.set_Defn (Some d') b).
  split; [apply valid_hint_chain; assumption|].
  split; [reflexivity|].
  split; [intro Hs; simpl; rewrite Hs; reflexivity|].
  split; [intro Hs; simpl; rewrite Hs; reflexivity|].
  repeat split.
Qed.

(** ** Nil pointers *)

Lemma np_validate_nil_client (nb : Hypershift.NodePoolBuilder)
  (c : Cluster Hypershift.NodePool) :
  Hypershift.apiClient nb = None ->
  Hypershift.validate (Some nb, c)
  = Normal (false, Some (fmt_Errorf0 "NodePool builder cannot have nil apiClient"))
      (Some (Hypershift.set_errorMsg "NodePool builder cannot have nil apiClient" nb), c).
Proof.
  intro Hc. unfold Hypershift.validate. simpl.
  destruct (Hypershift.Defn nb); simpl; rewrite Hc; reflexivity.
Qed.

(** X5: a node-pool builder whose client is nil never dereferences it: [Get],
    [Exists], [WaitForReplicas] and [WithReplicas] return at once, without a
    request to the cluster and without a panic; the stored message becomes the
    nil-client message whatever was stored before, [Get] and [WaitForReplicas]
    return the error made from it, [Exists] returns false and [WithReplicas]
    leaves the definition as it was. *)
Theorem nil_client_is_reported :
  forall (nb : Hypershift.NodePoolBuilder) (c : Cluster Hypershift.NodePool),
    Hypershift.apiClient nb = None ->
    let msg := "NodePool builder cannot have nil apiClient" in
    let after := (Some (Hypershift.set_errorMsg msg nb), c) in
    Hypershift.Get (Some nb, c) = Normal (None, Some (fmt_Errorf0 msg)) after
    /\ Hypershift.Exists (Some nb, c) = Normal false after
    /\ (forall replicas timeout,
           Hypershift.WaitForReplicas replicas timeout (Some nb, c)
           = Normal (Receiver, Some (fmt_Errorf0 msg)) after)
    /\ (forall replicas,
           Hypershift.WithReplicas replicas (Some nb, c) = Normal Receiver after).
Proof.
  intros nb c Hc msg after.
  pose proof (np_validate_nil_client nb c Hc) as Hval.
  repeat split; intros;
    unfold Hypershift.Get, Hypershift.Exists, Hypershift.WaitForReplicas,
      Hypershift.WithReplicas, bind; rewrite Hval; reflexivity.
Qed.

(** X6: a bare-metal-host builder whose definition or client is nil panics in
    [Get], [Exists], [Delete] and [DeleteAndWaitUntilDeleted], and in
    [WaitUntilDeleted] as soon as the timeout allows one fetch; when its error
    state is empty it panics in [Create], [CreateAndWaitUntilProvisioned] and
    [WaitUntilInStatus] as well.  No request reaches the cluster. *)
Theorem disconnected_builder_panics :
  forall (b : Bmh.Builder) (c : Cluster Bmh.BareMetalHost),
    Bmh.connected b = false ->
    Bmh.Get (b, c) = Panic
    /\ Bmh.Exists (b, c) = Panic
    /\ Bmh.Delete (b, c) = Panic
    /\ (forall timeout, Bmh.DeleteAndWaitUntilDeleted timeout (b, c) = Panic)
    /\ (forall timeout,
           (time_Second < timeout)%Z -> Bmh.WaitUntilDeleted timeout (b, c) = Panic)
    /\ (Bmh.errorMsg b = "" ->
        Bmh.Create (b, c) = Panic
        /\ (forall timeout, Bmh.CreateAndWaitUntilProvisioned timeout (b, c) = Panic)
        /\ (forall status timeout, Bmh.WaitUntilInStatus status timeout (b, c) = Panic)).
Proof.
  intros b c Hd.
  pose proof (bmh_Get_disconnected b c Hd) as HG.
  assert (HE : Bmh.Exists (b, c) = Panic).
  { unfold Bmh.Exists, bind. rewrite HG. reflexivity. }
  assert (HD : Bmh.Delete (b, c) = Panic).
  { unfold Bmh.Delete, bind. rewrite HE. reflexivity. }
  split; [exact HG|]. split; [exact HE|]. split; [exact HD|].
  split; [|split].
  - intro timeout. unfold Bmh.DeleteAndWaitUntilDeleted, bind. rewrite HD. reflexivity.
  - intros timeout Ht. unfold Bmh.WaitUntilDeleted, wait_Poll.
    assert (Hticks : (1 <= ticks_before time_Second timeout)%nat).
    { apply (ticks_before_seconds 1). change (Z.of_nat 1) with 1%Z. lia. }
    destruct (ticks_before time_Second timeout) as [|n]; [lia|].
    simpl. unfold bind, Bmh.WaitUntilDeleted_condition, bind. rewrite HG. reflexivity.
  - intro He.
    assert (HC : Bmh.Create (b, c) = Panic).
    { unfold Bmh.Create, bind, gets. cbn [fst]. rewrite He. cbn [nonempty].
      rewrite HE. reflexivity. }
    split; [exact HC|]. split.
    + intro timeout. unfold Bmh.CreateAndWaitUntilProvisioned, bind. rewrite HC.
      reflexivity.
    + intros status timeout.
      assert (Hcond : Bmh.WaitUntilInStatus_condition status (b, c) = Panic).
      { unfold Bmh.WaitUntilInStatus_condition, bind. rewrite HG. reflexivity. }
      unfold Bmh.WaitUntilInStatus, bind, gets. cbn [fst]. rewrite He. cbn [nonempty].
      unfold wait_PollImmediate, bind. rewrite Hcond. reflexivity.
Qed.

(** ** Pull *)

Lemma bmh_Get_disconnected_Exists (b : Bmh.Builder) (c : Cluster Bmh.BareMetalHost) :
  Bmh.connected b = false -> Bmh.Exists (b, c) = Panic.
Proof.
  intro H. unfold Bmh.Exists, bind. rewrite (bmh_Get_disconnected b c H). reflexivity.
Qed.

(** X7: [Pull] sends one fetch under the given name and namespace, also when
    one of them is empty.  When the fetch fails with a not-found error it
    returns a nil builder and the error "baremetalhost object NAME doesn't
    exist in namespace NS".  In every other case it returns a builder and no
    error; the definition and the observed object of that builder are both the
    fetched object, so both are nil when the fetch failed with another error,
    and [Exists] on such a builder panics.  The message of the last failing
    check on the name and the namespace stays in the error state of the
    returned builder.  With a nil client [Pull] panics. *)
Theorem Pull_outcomes :
  forall (client : option Settings) (name nsname : string)
         (c : Cluster Bmh.BareMetalHost),
    let reply := get_reply c (gets_made c) in
    let c' := record_call (CallGet (mkObjectKey name nsname)) c in
    (client = None -> Bmh.Pull client name nsname c = Panic)
    /\ (client <> None ->
        fetch_not_found reply = true ->
        Bmh.Pull client name nsname c
        = Normal (None,
                  Some (errorString ("baremetalhost object " ++ name
                                     ++ " doesn't exist in namespace " ++ nsname)))
            c')
    /\ (client <> None ->
        fetch_not_found reply = false ->
        exists b,
          Bmh.Pull client name nsname c = Normal (Some b, None) c'
          /\ Bmh.Defn b = reply_object reply
          /\ Bmh.Object b = reply_object reply
          /\ Bmh.apiClient b = client
          /\ Bmh.errorMsg b
             = last_failing [(name =? "", "baremetalhost 'name' cannot be empty");
                             (nsname =? "", "baremetalhost 'namespace' cannot be empty")]
          /\ (reply_object reply = None -> forall c2, Bmh.Exists (b, c2) = Panic)).
Proof.
  intros client name nsname c reply c'. subst reply c'.
  split; [|split].
  - intros ->. unfold Bmh.Pull.
    destruct (name =? ""), (nsname =? "");
      rewrite bmh_Get_disconnected_Exists by reflexivity; reflexivity.
  - intros Hc Hnf. destruct client as [cl|]; [|contradiction Hc; reflexivity].
    unfold Bmh.Pull.
    destruct (name =? ""), (nsname =? "");
      rewrite bmh_Exists_connected by reflexivity; rewrite Hnf; reflexivity.
  - intros Hc Hnf. destruct client as [cl|]; [|contradiction Hc; reflexivity].
    unfold Bmh.Pull.
    destruct (name =? ""), (nsname =? "");
      rewrite bmh_Exists_connected by reflexivity; rewrite Hnf; simpl;
      (eexists; split; [reflexivity|]; simpl; repeat split;
       intros Hnone c2; apply bmh_Get_disconnected_Exists; simpl; rewrite Hnone;
       reflexivity).
Qed.

(** X8: [PullNodePool] returns a nil builder and the error "nodepool object
    NAME doesn't exist in namespace NS" without a request to the cluster when
    the name or the namespace is empty or the client is nil.  Otherwise it
    sends one fetch: a not-found error gives the same error; every other
    outcome gives a builder without stored error whose definition and observed
    object are the fetched object.  When the fetch failed with another error
    both are nil, and a later [Get] on that builder returns the
    undefined-object error without a request and without a panic. *)
Theorem PullNodePool_outcomes :
  forall (client : option Settings) (name nsname : string)
         (c : Cluster Hypershift.NodePool),
    let reply := get_reply c (gets_made c) in
    let c' := record_call (CallGet (mkObjectKey name nsname)) c in
    let missing :=
      errorString ("nodepool object " ++ name ++ " doesn't exist in namespace " ++ nsname) in
    (name = "" \/ nsname = "" \/ client = None ->
     Hypershift.PullNodePool client name nsname c = Normal (None, Some missing) c)
    /\ (name <> "" -> nsname <> "" -> client <> None ->
        fetch_not_found reply = true ->
        Hypershift.PullNodePool client name nsname c = Normal (None, Some missing) c')
    /\ (name <> "" -> nsname <> "" -> client <> None ->
        fetch_not_found reply = false ->
        exists nb,
          Hypershift.PullNodePool client name nsname c = Normal (Some nb, None) c'
          /\ Hypershift.Defn nb = reply_object reply
          /\ Hypershift.Object nb = reply_object reply
          /\ Hypershift.apiClient nb = client
          /\ Hypershift.errorMsg nb = ""
          /\ (reply_object reply = None ->
              forall c2,
                Hypershift.Get (Some nb, c2)
                = Normal (None, Some (fmt_Errorf0 (UndefinedCrdObjectErrString "NodePool")))
                    (Some (Hypershift.set_errorMsg (UndefinedCrdObjectErrString "NodePool") nb),
                     c2))).
Proof.
  intros client name nsname c reply c' missing. subst reply c' missing.
  split; [|split].
  - intro H. unfold Hypershift.PullNodePool, Hypershift.Exists, bind, Hypershift.validate.
    destruct (name =? "") eqn:E1; destruct (nsname =? "") eqn:E2;
      destruct client as [cl|]; simpl; try reflexivity.
    exfalso. apply String.eqb_neq in E1, E2.
    destruct H as [H|[H|H]]; [contradiction|contradiction|discriminate].
  - intros H1 H2 Hc Hnf. destruct client as [cl|]; [|contradiction Hc; reflexivity].
    apply String.eqb_neq in H1, H2.
    unfold Hypershift.PullNodePool. rewrite H1, H2.
    rewrite np_Exists_clean by reflexivity. rewrite Hnf. reflexivity.
  - intros H1 H2 Hc Hnf. destruct client as [cl|]; [|contradiction Hc; reflexivity].
    apply String.eqb_neq in H1, H2.
    unfold Hypershift.PullNodePool. rewrite H1, H2.
    rewrite np_Exists_clean by reflexivity. rewrite Hnf.
    destruct (get_reply c (gets_made c)) as [o|e]; simpl;
      (eexists; split; [reflexivity|]); simpl; repeat split; intros Hnone c2;
      [discriminate Hnone|].
    unfold Hypershift.Get, bind, Hypershift.validate. simpl.
    rewrite (Undefined_is_nonempty "NodePool"). reflexivity.
Qed.

(** ** WithOptions *)

Lemma WithOptions_loop_nils (n : nat) (rest : list (option Bmh.AdditionalOptions)) :
  Bmh.WithOptions_loop (repeat None n ++ rest) = Bmh.WithOptions_loop rest.
Proof. induction n as [|n IH]; [reflexivity|exact IH]. Qed.

(** X9: on a builder with a definition and an empty error state [WithOptions]
    skips nil options and stops at the first option that returns an error:
    the options after it are not run.  The text of that error is written into
    the builder that the failing option returned, and that builder is what
    [WithOptions] returns: when it is the receiver, the text becomes the error
    state of the receiver; when it is another builder, the text becomes the
    error state of that builder and the receiver stays as the option left it;
    when it is nil, [WithOptions] panics.  The builder returned by an option
    that succeeded is not used, and the next option is run without a new look
    at the error state. *)
Theorem WithOptions_stops_at_first_error :
  forall (n : nat) (opt : Bmh.AdditionalOptions)
         (rest : list (option Bmh.AdditionalOptions))
         (b : Bmh.Builder) (c : Cluster Bmh.BareMetalHost),
    Bmh.errorMsg b = "" ->
    Bmh.Defn b <> None ->
    Bmh.WithOptions (repeat None n) (b, c) = Normal Receiver (b, c)
    /\ Bmh.WithOptions (repeat None n ++ Some opt :: rest) (b, c)
       = match opt (b, c) with
         | Panic => Panic
         | Normal (_, None) s' => Bmh.WithOptions_loop rest s'
         | Normal (Receiver, Some err) s' =>
             Normal Receiver (Bmh.set_errorMsg (Error err) (fst s'), snd s')
         | Normal (OtherBuilder other, Some err) s' =>
             Normal (OtherBuilder (Bmh.set_errorMsg (Error err) other)) s'
         | Normal (NilBuilder, Some err) _ => Panic
         end.
Proof.
  intros n opt rest b c He Hd.
  destruct (Bmh.Defn b) as [d|] eqn:Hdef; [|contradiction Hd; reflexivity].
  split.
  - unfold Bmh.WithOptions, bind, gets. cbn [fst]. rewrite Hdef. cbn [ret fst].
    rewrite He. cbn [nonempty].
    rewrite <- (app_nil_r (repeat None n)), WithOptions_loop_nils. reflexivity.
  - unfold Bmh.WithOptions, bind, gets. cbn [fst]. rewrite Hdef. cbn [ret fst].
    rewrite He. cbn [nonempty]. rewrite WithOptions_loop_nils.
    cbn [Bmh.WithOptions_loop]. unfold bind.
    destruct (opt (b, c)) as [[[| |other] [err|]] s'|]; reflexivity.
Qed.

(** ** The node-pool builder and nil pointers *)

(** [validate] on a builder that is not clean fails and stores a message. *)
Lemma np_validate_unclean (b : Hypershift.NodePoolBuilder) (c : Cluster Hypershift.NodePool) :
  Hypershift.clean b = false ->
  exists m,
    Hypershift.validate (Some b, c)
    = Normal (false, Some (fmt_Errorf0 m)) (Some (Hypershift.set_errorMsg m b), c).
Proof.
  unfold Hypershift.clean, Hypershift.validate. simpl.
  destruct (Hypershift.Defn b) as [d|] eqn:Hd;
    destruct (Hypershift.apiClient b) as [cl|] eqn:Hc; simpl; rewrite ?Hc; simpl.
  - destruct (nonempty (Hypershift.errorMsg b)) eqn:He; simpl; [|discriminate].
    intros _. exists (Hypershift.errorMsg b). destruct b; reflexivity.
  - intros _. eexists. reflexivity.
  - intros _. exists (UndefinedCrdObjectErrString "NodePool").
    rewrite (Undefined_is_nonempty "NodePool"). reflexivity.
  - intros _. eexists. reflexivity.
Qed.

Lemma np_WithReplicas_clean (replicas : option Z) (b : Hypershift.NodePoolBuilder)
  (c : Cluster Hypershift.NodePool) (d : Hypershift.NodePool) :
  Hypershift.clean b = true ->
  Hypershift.Defn b = Some d ->
  Hypershift.WithReplicas replicas (Some b, c)
  = Normal Receiver
      (Some (Hypershift.set_Defn (Some (Hypershift.set_Replicas replicas d)) b), c).
Proof.
  intros H Hd. unfold Hypershift.WithReplicas, bind.
  rewrite (np_validate_clean b c H). unfold gets. simpl. rewrite Hd. reflexivity.
Qed.

Lemma np_run_op_returns (op : Hypershift.Op) :
  forall (recv : option Hypershift.NodePoolBuilder) (c : Cluster Hypershift.NodePool),
  exists s', Hypershift.run_op op (recv, c) = Normal tt s'.
Proof.
  intros [b|] c.
  - destruct (Hypershift.clean b) eqn:Hclean.
    + destruct (np_clean_inv b Hclean) as (d & cl & He & Hd & Hc).
      destruct op; unfold Hypershift.run_op, Hypershift.discard, bind.
      * rewrite (np_WithReplicas_clean replicas b c d Hclean Hd). eexists. reflexivity.
      * rewrite (np_Get_clean b c Hclean). eexists. reflexivity.
      * rewrite (np_Exists_clean b c Hclean). eexists. reflexivity.
      * rewrite (np_WaitForReplicas_clean replicas timeout b c Hclean).
        destruct (status_loop_returns
                    (Hypershift.WaitForReplicas_condition replicas) (Hypershift.key_of b)
                    (Hypershift.has_replicas replicas)
                    (fun o => option_map (Hypershift.set_Object o))
                    (np_good (Hypershift.key_of b))
                    (np_replicas_condition_good replicas (Hypershift.key_of b))
                    (np_good_set_Object (Hypershift.key_of b))
                    (S (ticks_before time_Second timeout)) (Some b) c)
          as (err & s' & Hrun & _).
        { exists b. repeat split; exact Hclean. }
        unfold Hypershift.St. rewrite Hrun. destruct err; eexists; reflexivity.
    + destruct (np_validate_unclean b c Hclean) as (m & Hval).
      destruct op; unfold Hypershift.run_op, Hypershift.discard, Hypershift.WithReplicas,
        Hypershift.Get, Hypershift.Exists, Hypershift.WaitForReplicas, bind;
        rewrite Hval; eexists; reflexivity.
  - destruct op; eexists; reflexivity.
Qed.

(** X10: the node-pool builder never panics: from any state of the builder
    (nil receiver, nil definition, nil client, stored error or none) and of the
    cluster, every sequence of [WithReplicas], [Get], [Exists] and
    [WaitForReplicas] calls returns.  On a nil receiver [Get] and
    [WaitForReplicas] return the error "error: received nil NodePool builder",
    [Exists] returns false and [WithReplicas] returns its nil receiver, all
    without a request to the cluster. *)
Theorem node_pool_builder_never_panics :
  forall (ops : list Hypershift.Op) (recv : option Hypershift.NodePoolBuilder)
         (c : Cluster Hypershift.NodePool),
    (exists s', Hypershift.run_ops ops (recv, c) = Normal tt s')
    /\ (let nil_error := errorString "error: received nil NodePool builder" in
        Hypershift.Get (None, c) = Normal (None, Some nil_error) (None, c)
        /\ Hypershift.Exists (None, c) = Normal false (None, c)
        /\ (forall replicas timeout,
               Hypershift.WaitForReplicas replicas timeout (None, c)
               = Normal (Receiver, Some nil_error) (None, c))
        /\ (forall replicas,
               Hypershift.WithReplicas replicas (None, c) = Normal Receiver (None, c))).
Proof.
  intros ops recv c. split.
  - revert recv c. induction ops as [|op ops IH]; intros recv c.
    + eexists. reflexivity.
    + destruct (np_run_op_returns op recv c) as ([recv1 c1] & Hop).
      destruct (IH recv1 c1) as (s' & Hrest).
      exists s'. simpl. unfold bind. rewrite Hop. exact Hrest.
  - repeat split.
Qed.

Lemma np_set_Defn_twice (d1 d2 : option Hypershift.NodePool)
  (b : Hypershift.NodePoolBuilder) :
  Hypershift.set_Defn d2 (Hypershift.set_Defn d1 b) = Hypershift.set_Defn d2 b.
Proof. unfold Hypershift.set_Defn. simpl. destruct (Hypershift.shared b); reflexivity. Qed.

(** X11: [WithReplicas] on a clean builder stores the given pointer, nil
    included, in [Spec.Replicas] of the definition; the rest of the
    definition, the client and the error state are as before, the builder
    stays clean, it fetches under the same key, the cluster receives no
    request, and a second call replaces the value of the first.  The
    assignment is made in place: when the observed object is an object of its
    own, or nil, it is as before; when it is the same pointer as the
    definition, as [PullNodePool] leaves it, it is the definition with the new
    replica count.  On a builder that is not clean the definition is left as
    it was. *)
Theorem WithReplicas_sets_replicas_only :
  forall (replicas : option Z) (b : Hypershift.NodePoolBuilder)
         (c : Cluster Hypershift.NodePool),
    (Hypershift.clean b = true ->
     exists d b',
       Hypershift.Defn b = Some d
       /\ Hypershift.WithReplicas replicas (Some b, c) = Normal Receiver (Some b', c)
       /\ Hypershift.Defn b' = Some (Hypershift.set_Replicas replicas d)
       /\ (Hypershift.shared b = false -> Hypershift.Object b' = Hypershift.Object b)
       /\ (Hypershift.shared b = true ->
           Hypershift.Object b' = Some (Hypershift.set_Replicas replicas d))
       /\ Hypershift.apiClient b' = Hypershift.apiClient b
       /\ Hypershift.errorMsg b' = Hypershift.errorMsg b
       /\ Hypershift.shared b' = Hypershift.shared b
       /\ (let d' := Hypershift.set_Replicas replicas d in
           Hypershift.Replicas (Hypershift.Spec d') = replicas
           /\ Hypershift.Meta d' = Hypershift.Meta d
           /\ Hypershift.Status d' = Hypershift.Status d
           /\ Hypershift.ClusterName (Hypershift.Spec d')
              = Hypershift.ClusterName (Hypershift.Spec d)
           /\ Hypershift.Release (Hypershift.Spec d') = Hypershift.Release (Hypershift.Spec d)
           /\ Hypershift.Platform (Hypershift.Spec d')
              = Hypershift.Platform (Hypershift.Spec d))
       /\ Hypershift.clean b' = true
       /\ Hypershift.key_of b' = Hypershift.key_of b
       /\ (forall again,
              Hypershift.WithReplicas again (Some b', c)
              = Hypershift.WithReplicas again (Some b, c)))
    /\ (Hypershift.clean b = false ->
        exists m,
          Hypershift.WithReplicas replicas (Some b, c)
          = Normal Receiver (Some (Hypershift.set_errorMsg m b), c)).
Proof.
  intros replicas b c. split.
  - intro Hclean. destruct (np_clean_inv b Hclean) as (d & cl & He & Hd & Hc).
    exists d, (Hypershift.set_Defn (Some (Hypershift.set_Replicas replicas d)) b).
    split; [exact Hd|].
    assert (Hclean' : Hypershift.clean
                        (Hypershift.set_Defn (Some (Hypershift.set_Replicas replicas d)) b)
                      = true).
    { unfold Hypershift.clean in *. simpl. rewrite Hd in Hclean. exact Hclean. }
    split; [exact (np_WithReplicas_clean replicas b c d Hclean Hd)|].
    split; [reflexivity|].
    split; [intro Hs; simpl; rewrite Hs; reflexivity|].
    split; [intro Hs; simpl; rewrite Hs; reflexivity|].
    split; [reflexivity|]. split; [reflexivity|]. split; [reflexivity|].
    split; [repeat split|].
    split; [exact Hclean'|]. split.
    + unfold Hypershift.key_of. simpl. rewrite Hd. reflexivity.
    + intro again.
      rewrite (np_WithReplicas_clean again _ c (Hypershift.set_Replicas replicas d)
                 Hclean' eq_refl).
      rewrite (np_WithReplicas_clean again b c d Hclean Hd).
      rewrite np_set_Defn_twice. reflexivity.
  - intro Hclean. destruct (np_validate_unclean b c Hclean) as (m & Hval).
    exists m. unfold Hypershift.WithReplicas, bind. rewrite Hval. reflexivity.
Qed.

(** ** Create *)

(** [Create] once its guard is passed, in terms of the existence check and of
    the create request. *)
Lemma bmh_Create_steps (b : Bmh.Builder) (c : Cluster Bmh.BareMetalHost)
  (d : Bmh.BareMetalHost) :
  Bmh.errorMsg b = "" ->
  Bmh.connected b = true ->
  Bmh.Defn b = Some d ->
  Bmh.Create (b, c)
  = let reply := get_reply c (gets_made c) in
    let c1 := record_call (CallGet (Bmh.key_of b)) c in
    if fetch_not_found reply
    then
      match create_reply c (creates_made c) with
      | None =>
          Normal (Receiver, None)
            (Bmh.Object_from_Defn b, record_call (CallCreate d) c1)
      | Some e =>
          Normal (Receiver, Some e)
            (Bmh.set_Object None b, record_call (CallCreate d) c1)
      end
    else Normal (Receiver, None) (Bmh.set_Object (reply_object reply) b, c1).
Proof.
  intros He Hconn Hd.
  destruct (bmh_connected_inv b Hconn) as (d' & cl & Hd' & Hcl).
  rewrite Hd in Hd'. inversion Hd'; subst d'. clear Hd'.
  unfold Bmh.Create, bind, gets. cbn [fst]. rewrite He. cbn [nonempty].
  rewrite (bmh_Exists_connected b c Hconn). cbv zeta.
  destruct (fetch_not_found (get_reply c (gets_made c))) eqn:Hnf; [|reflexivity].
  cbn [negb fst Bmh.set_Object Bmh.apiClient Bmh.Defn]. rewrite Hcl, Hd.
  unfold call_Create, client_Create. cbn [fst snd].
  change (creates_made (record_call (CallGet (Bmh.key_of b)) c)) with (creates_made c).
  change (create_reply (record_call (CallGet (Bmh.key_of b)) c)) with (create_reply c).
  destruct (get_reply c (gets_made c)) as [o|e0]; [discriminate Hnf|].
  destruct (create_reply c (creates_made c)) as [e|]; reflexivity.
Qed.

(** X12: [Create] on a connected builder without stored error first fetches the
    resource.  Unless the fetch fails with a not-found error, nothing is
    created and no error is returned: this is so when the resource exists, and
    also when the fetch failed with another error, in which case the observed
    object is nil.  After a not-found the definition is sent to the cluster:
    on success the observed object becomes the definition, the same pointer,
    on failure the error of the cluster is returned as it is and the observed
    object is nil.  The builder returned is the receiver in every case. *)
Theorem Create_contract :
  forall (b : Bmh.Builder) (c : Cluster Bmh.BareMetalHost) (d : Bmh.BareMetalHost),
    Bmh.errorMsg b = "" ->
    Bmh.connected b = true ->
    Bmh.Defn b = Some d ->
    let reply := get_reply c (gets_made c) in
    let c1 := record_call (CallGet (Bmh.key_of b)) c in
    (fetch_not_found reply = false ->
     Bmh.Create (b, c)
     = Normal (Receiver, None) (Bmh.set_Object (reply_object reply) b, c1))
    /\ (fetch_not_found reply = true ->
        create_reply c (creates_made c) = None ->
        Bmh.Create (b, c)
        = Normal (Receiver, None)
            (Bmh.Object_from_Defn b, record_call (CallCreate d) c1)
        /\ Bmh.Object (Bmh.Object_from_Defn b) = Some d
        /\ Bmh.Defn (Bmh.Object_from_Defn b) = Some d
        /\ Bmh.shared (Bmh.Object_from_Defn b) = true)
    /\ (forall e,
           fetch_not_found reply = true ->
           create_reply c (creates_made c) = Some e ->
           Bmh.Create (b, c)
           = Normal (Receiver, Some e)
               (Bmh.set_Object None b, record_call (CallCreate d) c1)).
Proof.
  intros b c d He Hconn Hd reply c1. subst reply c1.
  rewrite (bmh_Create_steps b c d He Hconn Hd). cbv zeta.
  split; [|split].
  - intros Hnf. rewrite Hnf. reflexivity.
  - intros Hnf Hcr. rewrite Hnf, Hcr. unfold Bmh.Object_from_Defn. simpl.
    rewrite Hd. repeat split.
  - intros e Hnf Hcr. rewrite Hnf, Hcr. reflexivity.
Qed.

(** ** The deletion wait *)

Lemma bmh_deleted_loop_ends (key : ObjectKey) :
  forall (k n : nat) (b : Bmh.Builder) (c : Cluster Bmh.BareMetalHost) (e : error),
    bmh_good key b ->
    k < n ->
    (forall j, j < k -> reply_error (get_reply c (gets_made c + j)) = None) ->
    get_reply c (gets_made c + k) = FetchFailed e ->
    poll_loop n Bmh.WaitUntilDeleted_condition (b, c)
    = Normal (if IsNotFound e then None else Some e) (b, after_gets key (S k) c).
Proof.
  induction k as [|k IH]; intros n b c e Hg Hlt Hbefore Hat;
    destruct n as [|n]; try lia; destruct Hg as [Hconn Hkey].
  - rewrite Nat.add_0_r in Hat. simpl. unfold bind.
    rewrite (bmh_deleted_condition_step b c Hconn), Hat, Hkey.
    destruct (IsNotFound e); reflexivity.
  - assert (H0 : reply_error (get_reply c (gets_made c)) = None).
    { rewrite <- (Nat.add_0_r (gets_made c)). apply Hbefore. lia. }
    change (poll_loop (S n) Bmh.WaitUntilDeleted_condition (b, c))
      with (bind Bmh.WaitUntilDeleted_condition (fun r =>
              match snd r with
              | Some err => ret (Some err)
              | None =>
                  if fst r then ret None
                  else poll_loop n Bmh.WaitUntilDeleted_condition
              end) (b, c)).
    unfold bind. rewrite (bmh_deleted_condition_step b c Hconn), Hkey.
    destruct (get_reply c (gets_made c)) as [o|e0] eqn:Hr; [|discriminate H0].
    cbn [fst snd].
    rewrite (IH n b (record_call (CallGet key) c) e).
    + rewrite <- after_gets_succ. reflexivity.
    + split; assumption.
    + lia.
    + intros j Hj. rewrite gets_made_record_get. cbn [get_reply record_call].
      replace (S (gets_made c) + j) with (gets_made c + S j) by lia.
      apply Hbefore. lia.
    + rewrite gets_made_record_get. cbn [get_reply record_call].
      replace (S (gets_made c) + k) with (gets_made c + S k) by lia.
      exact Hat.
Qed.

Lemma bmh_deleted_loop_times_out (key : ObjectKey) :
  forall (n : nat) (b : Bmh.Builder) (c : Cluster Bmh.BareMetalHost),
    bmh_good key b ->
    (forall j, j < n -> reply_error (get_reply c (gets_made c + j)) = None) ->
    poll_loop n Bmh.WaitUntilDeleted_condition (b, c)
    = Normal (Some ErrWaitTimeout) (b, after_gets key n c).
Proof.
  induction n as [|n IH]; intros b c Hg Hall.
  - reflexivity.
  - destruct Hg as [Hconn Hkey].
    assert (H0 : reply_error (get_reply c (gets_made c)) = None).
    { rewrite <- (Nat.add_0_r (gets_made c)). apply Hall. lia. }
    change (poll_loop (S n) Bmh.WaitUntilDeleted_condition (b, c))
      with (bind Bmh.WaitUntilDeleted_condition (fun r =>
              match snd r with
              | Some err => ret (Some err)
              | None =>
                  if fst r then ret None
                  else poll_loop n Bmh.WaitUntilDeleted_condition
              end) (b, c)).
    unfold bind. rewrite (bmh_deleted_condition_step b c Hconn), Hkey.
    destruct (get_reply c (gets_made c)) as [o|e0] eqn:Hr; [|discriminate H0].
    cbn [fst snd].
    rewrite (IH b (record_call (CallGet key) c)).
    + rewrite <- after_gets_succ. reflexivity.
    + split; assumption.
    + intros j Hj. rewrite gets_made_record_get. cbn [get_reply record_call].
      replace (S (gets_made c) + j) with (gets_made c + S j) by lia.
      apply Hall. lia.
Qed.

(** X13: [WaitUntilDeleted] on a connected builder makes its first fetch one
    interval after the start.  When the resource is fetched at the first
    [k - 1] cycles and the [k]-th fetch fails, with [k] seconds less than the
    timeout, the wait ends at that cycle after exactly [k] fetches: with
    success when the error is a not-found error, with that error otherwise.
    When every fetch finds the resource the wait ends with the timeout error.
    The wait never touches the builder: the observed object is not updated. *)
Theorem WaitUntilDeleted_run :
  forall (timeout : Duration) (b : Bmh.Builder) (c : Cluster Bmh.BareMetalHost),
    Bmh.connected b = true ->
    (forall k e,
        1 <= k ->
        (Z.of_nat k * time_Second < timeout)%Z ->
        (forall j, j < k - 1 -> reply_error (get_reply c (gets_made c + j)) = None) ->
        get_reply c (gets_made c + (k - 1)) = FetchFailed e ->
        Bmh.WaitUntilDeleted timeout (b, c)
        = Normal (if IsNotFound e then None else Some e)
            (b, after_gets (Bmh.key_of b) k c))
    /\ ((forall j, reply_error (get_reply c (gets_made c + j)) = None) ->
        exists n,
          Bmh.WaitUntilDeleted timeout (b, c)
          = Normal (Some ErrWaitTimeout) (b, after_gets (Bmh.key_of b) n c)).
Proof.
  intros timeout b c Hconn.
  assert (Hg : bmh_good (Bmh.key_of b) b) by (split; [exact Hconn|reflexivity]).
  split.
  - intros k e Hk Hlt Hbefore Hat.
    pose proof (ticks_before_seconds k timeout Hlt) as Hticks.
    unfold Bmh.WaitUntilDeleted, wait_Poll.
    rewrite (bmh_deleted_loop_ends (Bmh.key_of b) (k - 1) _ b c e Hg); try assumption;
      try lia.
    replace (S (k - 1)) with k by lia. reflexivity.
  - intro Hall. exists (ticks_before time_Second timeout).
    unfold Bmh.WaitUntilDeleted, wait_Poll.
    apply bmh_deleted_loop_times_out; [exact Hg|]. intros j _. apply Hall.
Qed.

(** [Delete] of a connected builder whose resource is there and whose delete
    request is accepted. *)
Lemma bmh_Delete_accepted (b : Bmh.Builder) (c : Cluster Bmh.BareMetalHost)
  (d : Bmh.BareMetalHost) :
  Bmh.connected b = true ->
  Bmh.Defn b = Some d ->
  fetch_not_found (get_reply c (gets_made c)) = false ->
  delete_reply c (deletes_made c) = None ->
  Bmh.Delete (b, c)
  = Normal (Receiver, None)
      (Bmh.set_Object None b,
       record_call (CallDelete d) (record_call (CallGet (Bmh.key_of b)) c)).
Proof.
  intros Hconn Hd Hnf Hdel.
  destruct (bmh_connected_inv b Hconn) as (d' & cl & Hd' & Hcl).
  rewrite Hd in Hd'. inversion Hd'; subst d'. clear Hd'.
  unfold Bmh.Delete, bind. rewrite (bmh_Exists_connected b c Hconn), Hnf.
  unfold gets, call_Delete, client_Delete. simpl. rewrite Hd, Hcl. simpl.
  change (deletes_made (record_call (CallGet (Bmh.key_of b)) c)) with (deletes_made c).
  rewrite Hdel. reflexivity.
Qed.

(** X14: [DeleteAndWaitUntilDeleted] on a connected builder whose resource is
    there: when the delete request is accepted, the resource is still fetched
    at the next [k - 1] cycles and the [k]-th fetch of the wait fails, with [k]
    seconds less than the timeout, the call ends after one fetch, the delete
    request and [k] more fetches.  It returns a nil builder, with no error when
    that last fetch failed with a not-found error and with its error
    otherwise; the observed object of the builder is nil. *)
Theorem DeleteAndWaitUntilDeleted_run :
  forall (timeout : Duration) (b : Bmh.Builder) (c : Cluster Bmh.BareMetalHost)
         (d : Bmh.BareMetalHost) (k : nat) (e : error),
    Bmh.connected b = true ->
    Bmh.Defn b = Some d ->
    fetch_not_found (get_reply c (gets_made c)) = false ->
    delete_reply c (deletes_made c) = None ->
    1 <= k ->
    (Z.of_nat k * time_Second < timeout)%Z ->
    (forall j, 1 <= j < k -> reply_error (get_reply c (gets_made c + j)) = None) ->
    get_reply c (gets_made c + k) = FetchFailed e ->
    Bmh.DeleteAndWaitUntilDeleted timeout (b, c)
    = Normal (NilBuilder, if IsNotFound e then None else Some e)
        (Bmh.set_Object None b,
         after_gets (Bmh.key_of b) k
           (record_call (CallDelete d) (record_call (CallGet (Bmh.key_of b)) c))).
Proof.
  intros timeout b c d k e Hconn Hd Hnf Hdel Hk Hlt Hbefore Hat.
  pose proof (ticks_before_seconds k timeout Hlt) as Hticks.
  unfold Bmh.DeleteAndWaitUntilDeleted, bind.
  rewrite (bmh_Delete_accepted b c d Hconn Hd Hnf Hdel). cbn [fst snd].
  unfold Bmh.WaitUntilDeleted, wait_Poll.
  rewrite (bmh_deleted_loop_ends (Bmh.key_of b) (k - 1) _ (Bmh.set_Object None b)
             (record_call (CallDelete d) (record_call (CallGet (Bmh.key_of b)) c)) e).
  - replace (S (k - 1)) with k by lia. destruct (IsNotFound e); reflexivity.
  - split; [exact Hconn|reflexivity].
  - lia.
  - intros j Hj.
    change (gets_made (record_call (CallDelete d)
                         (record_call (CallGet (Bmh.key_of b)) c)))
      with (S (gets_made c)).
    cbn [get_reply record_call].
    replace (S (gets_made c) + j) with (gets_made c + S j) by lia.
    apply Hbefore. lia.
  - change (gets_made (record_call (CallDelete d)
                         (record_call (CallGet (Bmh.key_of b)) c)))
      with (S (gets_made c)).
    cbn [get_reply record_call].
    replace (S (gets_made c) + (k - 1)) with (gets_made c + k) by lia.
    exact Hat.
Qed.

(** ** Create followed by the wait *)

(** X15: [CreateAndWaitUntilProvisioned] on a clean builder.  When the resource
    is absent and the cluster refuses the create request, the call returns a
    nil builder and the error of the cluster as it is, and does not wait.
    Otherwise (the resource was there, or has just been created) the wait
    starts with a new fetch, whatever the existence check has seen: when the
    fetched state is "provisioned" for the first time at the [k]-th fetch of
    the wait, with [k] seconds less than the timeout, the call returns the
    receiver and no error after exactly [k] fetches of the wait, the observed
    object being the object of that fetch. *)
Theorem CreateAndWaitUntilProvisioned_run :
  forall (timeout : Duration) (b : Bmh.Builder) (c : Cluster Bmh.BareMetalHost)
         (d : Bmh.BareMetalHost),
    Bmh.clean b = true ->
    Bmh.Defn b = Some d ->
    let reply := get_reply c (gets_made c) in
    let c1 := record_call (CallGet (Bmh.key_of b)) c in
    (forall e,
        fetch_not_found reply = true ->
        create_reply c (creates_made c) = Some e ->
        Bmh.CreateAndWaitUntilProvisioned timeout (b, c)
        = Normal (NilBuilder, Some e)
            (Bmh.set_Object None b, record_call (CallCreate d) c1))
    /\ (forall k,
           (fetch_not_found reply = true -> create_reply c (creates_made c) = None) ->
           1 <= k ->
           (Z.of_nat k * time_Second < timeout)%Z ->
           (forall j, 1 <= j < k ->
                      Bmh.in_status Bmh.StateProvisioned (get_reply c (gets_made c + j))
                      = false) ->
           Bmh.in_status Bmh.StateProvisioned (get_reply c (gets_made c + k)) = true ->
           Bmh.CreateAndWaitUntilProvisioned timeout (b, c)
           = Normal (Receiver, None)
               (Bmh.set_Object (reply_object (get_reply c (gets_made c + k))) b,
                after_gets (Bmh.key_of b) k
                  (if fetch_not_found reply then record_call (CallCreate d) c1 else c1))).
Proof.
  intros timeout b c d Hclean Hd reply c1. subst reply c1.
  destruct (bmh_clean_inv b Hclean) as [He Hconn].
  split.
  - intros e Hnf Hcr. unfold Bmh.CreateAndWaitUntilProvisioned, bind.
    rewrite (bmh_Create_steps b c d He Hconn Hd). cbv zeta. rewrite Hnf, Hcr.
    reflexivity.
  - intros k Hcreated Hk Hlt Hbefore Hat.
    pose proof (ticks_before_seconds k timeout Hlt) as Hticks.
    unfold Bmh.CreateAndWaitUntilProvisioned, bind.
    rewrite (bmh_Create_steps b c d He Hconn Hd). cbv zeta.
    assert (Hwait :
      forall b0 c2,
        Bmh.set_Object None b0 = Bmh.set_Object None b ->
        gets_made c2 = S (gets_made c) ->
        get_reply c2 = get_reply c ->
        Bmh.WaitUntilProvisioned timeout (b0, c2)
        = Normal None
            (Bmh.set_Object (reply_object (get_reply c (gets_made c + k))) b,
             after_gets (Bmh.key_of b) k c2)).
    { intros b0 c2 Hb0 Hg Hr. unfold Bmh.WaitUntilProvisioned.
      assert (Hsame : forall o, Bmh.set_Object o b0 = Bmh.set_Object o b).
      { intro o. change (Bmh.set_Object o b0) with (Bmh.set_Object o (Bmh.set_Object None b0)).
        rewrite Hb0. reflexivity. }
      assert (Hclean0 : Bmh.clean b0 = true).
      { change (Bmh.clean b0) with (Bmh.clean (Bmh.set_Object None b0)).
        rewrite Hb0. exact Hclean. }
      assert (Hkey0 : Bmh.key_of b0 = Bmh.key_of b).
      { change (Bmh.key_of b0) with (Bmh.key_of (Bmh.set_Object None b0)).
        rewrite Hb0. reflexivity. }
      rewrite (bmh_WaitUntilInStatus_clean Bmh.StateProvisioned timeout b0 c2 Hclean0).
      rewrite (poll_loop_reaches_target _ _
                 (Bmh.WaitUntilInStatus_condition Bmh.StateProvisioned) (Bmh.key_of b)
                 (Bmh.in_status Bmh.StateProvisioned) Bmh.set_Object
                 (bmh_good (Bmh.key_of b))
                 (bmh_status_condition_good Bmh.StateProvisioned (Bmh.key_of b))
                 (bmh_good_set_Object (Bmh.key_of b))
                 (fun o1 o2 b1 => eq_refl)
                 (k - 1) _ b0 c2).
      - rewrite Hg, Hr. replace (S (gets_made c) + (k - 1)) with (gets_made c + k) by lia.
        replace (S (k - 1)) with k by lia. rewrite Hsame. reflexivity.
      - split; [|exact Hkey0].
        destruct (bmh_clean_inv b0 Hclean0) as [_ H0]. exact H0.
      - lia.
      - intros j Hj. rewrite Hg, Hr.
        replace (S (gets_made c) + j) with (gets_made c + S j) by lia.
        apply Hbefore. lia.
      - rewrite Hg, Hr.
        replace (S (gets_made c) + (k - 1)) with (gets_made c + k) by lia.
        exact Hat. }
    destruct (fetch_not_found (get_reply c (gets_made c))) eqn:Hnf.
    + rewrite (Hcreated eq_refl). cbn [fst snd].
      rewrite (Hwait (Bmh.Object_from_Defn b)
                 (record_call (CallCreate d) (record_call (CallGet (Bmh.key_of b)) c))
                 eq_refl eq_refl eq_refl).
      reflexivity.
    + cbn [fst snd].
      rewrite (Hwait (Bmh.set_Object (reply_object (get_reply c (gets_made c))) b)
                 (record_call (CallGet (Bmh.key_of b)) c) eq_refl eq_refl eq_refl).
      reflexivity.
Qed.

(** ** The observed object after a wait that timed out *)

(** X16: when no fetch ever meets the target, a status wait on a clean builder
    ends with the timeout error after at least one fetch, and the observed
    object of the builder is what the last fetch of the wait returned: the
    fetched object, or nil when that fetch failed, whatever earlier fetches
    returned.  [WaitUntilInStatus] returns the error alone; [WaitForReplicas]
    returns it with a nil builder. *)
Theorem timed_out_wait_keeps_last_fetch :
  forall (status : Bmh.ProvisioningState) (replicas : Z) (timeout : Duration)
         (b : Bmh.Builder) (c : Cluster Bmh.BareMetalHost)
         (nb : Hypershift.NodePoolBuilder) (nc : Cluster Hypershift.NodePool),
    Bmh.clean b = true ->
    Hypershift.clean nb = true ->
    ((forall j, Bmh.in_status status (get_reply c (gets_made c + j)) = false) ->
     exists n,
       1 <= n
       /\ Bmh.WaitUntilInStatus status timeout (b, c)
          = Normal (Some ErrWaitTimeout)
              (Bmh.set_Object (reply_object (get_reply c (gets_made c + (n - 1)))) b,
               after_gets (Bmh.key_of b) n c))
    /\ ((forall j, Hypershift.has_replicas replicas (get_reply nc (gets_made nc + j))
                   = false) ->
        exists n,
          1 <= n
          /\ Hypershift.WaitForReplicas replicas timeout (Some nb, nc)
             = Normal (NilBuilder, Some ErrWaitTimeout)
                 (Some (Hypershift.set_Object
                          (reply_object (get_reply nc (gets_made nc + (n - 1)))) nb),
                  after_gets (Hypershift.key_of nb) n nc)).
Proof.
  intros status replicas timeout b c nb nc Hb Hn.
  destruct (bmh_clean_inv b Hb) as [_ Hconn].
  split.
  - intro Hnever. exists (S (ticks_before time_Second timeout)). split; [lia|].
    rewrite (bmh_WaitUntilInStatus_clean status timeout b c Hb).
    rewrite (poll_loop_times_out_last
               (Bmh.WaitUntilInStatus_condition status) (Bmh.key_of b)
               (Bmh.in_status status) Bmh.set_Object (bmh_good (Bmh.key_of b))
               (bmh_status_condition_good status (Bmh.key_of b))
               (bmh_good_set_Object (Bmh.key_of b))
               (fun o1 o2 b0 => eq_refl) _ b c).
    + replace (S (ticks_before time_Second timeout) - 1)
        with (ticks_before time_Second timeout) by lia.
      reflexivity.
    + split; [exact Hconn|reflexivity].
    + intros j _. apply Hnever.
  - intro Hnever. exists (S (ticks_before time_Second timeout)). split; [lia|].
    rewrite (np_WaitForReplicas_clean replicas timeout nb nc Hn).
    unfold Hypershift.St.
    rewrite (poll_loop_times_out_last
               (Hypershift.WaitForReplicas_condition replicas) (Hypershift.key_of nb)
               (Hypershift.has_replicas replicas)
               (fun o => option_map (Hypershift.set_Object o))
               (np_good (Hypershift.key_of nb))
               (np_replicas_condition_good replicas (Hypershift.key_of nb))
               (np_good_set_Object (Hypershift.key_of nb))
               np_set_Object_twice _ (Some nb) nc).
    + replace (S (ticks_before time_Second timeout) - 1)
        with (ticks_before time_Second timeout) by lia.
      reflexivity.
    + exists nb. repeat split; exact Hn.
    + intros j _. apply Hnever.
Qed.

(** ** What Get and Exists do to the builder *)

(** X17: [Get] on a builder that can reach the cluster sends one fetch under
    the name and namespace of the definition, returns the fetched object or the
    error of the cluster as it is, and leaves the builder as it was: the
    observed object is not updated.  [Exists] sends the same fetch and replaces
    the observed object by its outcome, so that after a fetch that failed the
    observed object is nil, also when the failure is not a not-found error and
    [Exists] returns true.  Neither touches the definition.  This holds for the
    connected bare-metal-host builder and for the clean node-pool builder. *)
Theorem Get_and_Exists_effects :
  forall (b : Bmh.Builder) (c : Cluster Bmh.BareMetalHost)
         (nb : Hypershift.NodePoolBuilder) (nc : Cluster Hypershift.NodePool),
    Bmh.connected b = true ->
    Hypershift.clean nb = true ->
    (Bmh.Get (b, c)
     = Normal (reply_object (get_reply c (gets_made c)),
               reply_error (get_reply c (gets_made c)))
         (b, record_call (CallGet (Bmh.key_of b)) c)
     /\ (exists b',
            Bmh.Exists (b, c)
            = Normal (negb (fetch_not_found (get_reply c (gets_made c))))
                (b', record_call (CallGet (Bmh.key_of b)) c)
            /\ Bmh.Object b' = reply_object (get_reply c (gets_made c))
            /\ Bmh.Defn b' = Bmh.Defn b
            /\ Bmh.errorMsg b' = Bmh.errorMsg b
            /\ (forall e, get_reply c (gets_made c) = FetchFailed e ->
                          Bmh.Object b' = None)))
    /\ (Hypershift.Get (Some nb, nc)
        = Normal (reply_object (get_reply nc (gets_made nc)),
                  reply_error (get_reply nc (gets_made nc)))
            (Some nb, record_call (CallGet (Hypershift.key_of nb)) nc)
        /\ (exists nb',
               Hypershift.Exists (Some nb, nc)
               = Normal (negb (fetch_not_found (get_reply nc (gets_made nc))))
                   (Some nb', record_call (CallGet (Hypershift.key_of nb)) nc)
               /\ Hypershift.Object nb' = reply_object (get_reply nc (gets_made nc))
               /\ Hypershift.Defn nb' = Hypershift.Defn nb
               /\ Hypershift.errorMsg nb' = Hypershift.errorMsg nb
               /\ (forall e, get_reply nc (gets_made nc) = FetchFailed e ->
                             Hypershift.Object nb' = None))).
Proof.
  intros b c nb nc Hconn Hclean. split; split.
  - apply bmh_Get_connected, Hconn.
  - eexists. split; [apply bmh_Exists_connected, Hconn|].
    simpl. repeat split. intros e ->. reflexivity.
  - apply np_Get_clean, Hclean.
  - eexists. split; [apply np_Exists_clean, Hclean|].
    simpl. repeat split. intros e ->. reflexivity.
Qed.

End Coverage.

(** * Concrete runs of the further properties *)

(** A chain on the builder made with an empty BMC address: the vendor message
    is the one that stays. *)
Lemma error_state_freezes_definition_witness :
  (forall crd, nonempty (@UndefinedCrdObjectErrString sample_externals crd) = true)
  /\ forallb is_definition_step
       [Bmh.OpWithRootDeviceHTCL "0:0:0:0"; Bmh.OpWithRootDeviceVendor "";
        Bmh.OpWithOptions [Some failing_option]; Bmh.OpWithRootDeviceModel "ssd"] = true
  /\ nonempty (Bmh.errorMsg addressless_builder) = true
  /\ @Bmh.run_ops sample_externals
       [Bmh.OpWithRootDeviceHTCL "0:0:0:0"; Bmh.OpWithRootDeviceVendor "";
        Bmh.OpWithOptions [Some failing_option]; Bmh.OpWithRootDeviceModel "ssd"]
       (addressless_builder, sticky_cluster)
     = Normal tt
         (Bmh.set_errorMsg "the baremetalhost rootDeviceHint vendor cannot be empty"
            addressless_builder, sticky_cluster).
Proof.
  split; [exact sample_Undefined_nonempty|]. split; [reflexivity|]. split; [reflexivity|].
  destruct (@error_state_freezes_definition sample_externals sample_Undefined_nonempty
              [Bmh.OpWithRootDeviceHTCL "0:0:0:0"; Bmh.OpWithRootDeviceVendor "";
               Bmh.OpWithOptions [Some failing_option]; Bmh.OpWithRootDeviceModel "ssd"]
              addressless_builder sticky_cluster eq_refl eq_refl)
    as (m & _ & Hrun & _).
  rewrite Hrun. vm_compute in Hrun. inversion Hrun. reflexivity.
Defined.

(** Three mutators on the builder of a host that [Create] has made: the new
    hints show in the definition and in the observed object. *)
Lemma valid_mutator_chain_witness :
  Bmh.errorMsg created_builder = ""
  /\ Bmh.Defn created_builder = Some (sample_host "")
  /\ forallb is_valid_hint
       [Bmh.OpWithRootDeviceDeviceName "/dev/sda";
        Bmh.OpWithRootDeviceMinSizeGigabytes 100%Z;
        Bmh.OpWithRootDeviceRotationalDisk false] = true
  /\ [Bmh.OpWithRootDeviceDeviceName "/dev/sda";
      Bmh.OpWithRootDeviceMinSizeGigabytes 100%Z;
      Bmh.OpWithRootDeviceRotationalDisk false] <> []
  /\ Bmh.shared created_builder = true
  /\ exists b',
       @Bmh.run_ops sample_externals
         [Bmh.OpWithRootDeviceDeviceName "/dev/sda";
          Bmh.OpWithRootDeviceMinSizeGigabytes 100%Z;
          Bmh.OpWithRootDeviceRotationalDisk false]
         (created_builder, empty_cluster)
       = Normal tt (b', empty_cluster)
       /\ Bmh.Defn b'
          = Some (Bmh.set_hints
                    (Some (Bmh.mkRootDeviceHints "/dev/sda" "" "" "" "" 100%Z "" "" ""
                             (Some false)))
                    (sample_host ""))
       /\ Bmh.Object b' = Bmh.Defn b'.
Proof.
  split; [reflexivity|]. split; [reflexivity|]. split; [reflexivity|].
  assert (Hne : [Bmh.OpWithRootDeviceDeviceName "/dev/sda";
                 Bmh.OpWithRootDeviceMinSizeGigabytes 100%Z;
                 Bmh.OpWithRootDeviceRotationalDisk false] <> []) by discriminate.
  split; [exact Hne|]. split; [reflexivity|].
  destruct (@valid_mutator_chain sample_externals
              [Bmh.OpWithRootDeviceDeviceName "/dev/sda";
               Bmh.OpWithRootDeviceMinSizeGigabytes 100%Z;
               Bmh.OpWithRootDeviceRotationalDisk false]
              created_builder empty_cluster (sample_host "") eq_refl eq_refl eq_refl Hne)
    as (b' & Hrun & Hdef & _ & Hobj & _).
  exists b'. split; [exact Hrun|]. split; [exact Hdef|].
  rewrite Hdef. exact (Hobj eq_refl).
Defined.

(** [Get] on a node-pool builder made without a client. *)
Lemma nil_client_is_reported_witness :
  Hypershift.apiClient clientless_pool_builder = None
  /\ @Hypershift.Get sample_externals (Some clientless_pool_builder, scaling_cluster)
     = Normal (None,
               Some (@fmt_Errorf0 sample_externals
                       "NodePool builder cannot have nil apiClient"))
         (Some (Hypershift.set_errorMsg "NodePool builder cannot have nil apiClient"
                  clientless_pool_builder),
          scaling_cluster).
Proof.
  split; [reflexivity|].
  exact (proj1 (@nil_client_is_reported sample_externals clientless_pool_builder
                  scaling_cluster eq_refl)).
Defined.

(** [Exists] on a builder without definition. *)
Lemma disconnected_builder_panics_witness :
  Bmh.connected undefined_builder = false
  /\ Bmh.Exists (undefined_builder, sticky_cluster) = Panic
  /\ @Bmh.Create sample_externals (undefined_builder, sticky_cluster) = Panic.
Proof.
  split; [reflexivity|].
  destruct (@disconnected_builder_panics sample_externals undefined_builder sticky_cluster
              eq_refl) as (_ & HE & _ & _ & _ & HC).
  split; [exact HE|]. exact (proj1 (HC eq_refl)).
Defined.

(** [Pull] from a cluster that cannot be reached. *)
Lemma Pull_outcomes_witness :
  Some ClientSettings <> None
  /\ fetch_not_found (get_reply broken_cluster (gets_made broken_cluster)) = false
  /\ exists b,
       Bmh.Pull (Some ClientSettings) "host0" "cluster0" broken_cluster
       = Normal (Some b, None)
           (record_call (CallGet (mkObjectKey "host0" "cluster0")) broken_cluster)
       /\ Bmh.Defn b = None.
Proof.
  assert (Hc : Some ClientSettings <> None) by discriminate.
  split; [exact Hc|]. split; [reflexivity|].
  destruct (Pull_outcomes (Some ClientSettings) "host0" "cluster0" broken_cluster)
    as (_ & _ & Hother).
  destruct (Hother Hc eq_refl) as (b & Hrun & Hd & _).
  exists b. split; [exact Hrun|exact Hd].
Defined.

(** [PullNodePool] with an empty name. *)
Lemma PullNodePool_outcomes_witness :
  (forall crd, nonempty (@UndefinedCrdObjectErrString sample_externals crd) = true)
  /\ ("" = "" \/ "clusters" = "" \/ Some ClientSettings = None)
  /\ @Hypershift.PullNodePool sample_externals (Some ClientSettings) "" "clusters"
       scaling_cluster
     = Normal (None, Some (errorString "nodepool object  doesn't exist in namespace clusters"))
         scaling_cluster.
Proof.
  split; [exact sample_Undefined_nonempty|].
  assert (H : "" = "" \/ "clusters" = "" \/ Some ClientSettings = None)
    by (left; reflexivity).
  split; [exact H|].
  exact (proj1 (@PullNodePool_outcomes sample_externals sample_Undefined_nonempty
                  (Some ClientSettings) "" "clusters" scaling_cluster) H).
Defined.

(** A nil option, an option that fails, and an option that would panic; and
    an option that fails and returns another builder. *)
Lemma WithOptions_stops_at_first_error_witness :
  Bmh.errorMsg good_builder = ""
  /\ Bmh.Defn good_builder <> None
  /\ @Bmh.WithOptions sample_externals [None; Some failing_option; Some panic]
       (good_builder, empty_cluster)
     = Normal Receiver (Bmh.set_errorMsg "unsupported firmware" good_builder, empty_cluster)
  /\ @Bmh.WithOptions sample_externals [Some swapping_option; Some panic]
       (good_builder, empty_cluster)
     = Normal (OtherBuilder (Bmh.set_errorMsg "unsupported firmware" spare_builder))
         (good_builder, empty_cluster).
Proof.
  split; [reflexivity|].
  assert (Hd : Bmh.Defn good_builder <> None) by discriminate.
  split; [exact Hd|]. split.
  - exact (proj2 (@WithOptions_stops_at_first_error sample_externals 1 failing_option
                    [Some panic] good_builder empty_cluster eq_refl Hd)).
  - exact (proj2 (@WithOptions_stops_at_first_error sample_externals 0 swapping_option
                    [Some panic] good_builder empty_cluster eq_refl Hd)).
Defined.

(** Calls on a node-pool builder whose definition is nil. *)
Lemma node_pool_builder_never_panics_witness :
  (forall crd, nonempty (@UndefinedCrdObjectErrString sample_externals crd) = true)
  /\ exists s',
       @Hypershift.run_ops sample_externals
         [Hypershift.OpGet; Hypershift.OpWithReplicas None;
          Hypershift.OpWaitForReplicas 3%Z 2000000000%Z; Hypershift.OpExists]
         (Some undefined_pool_builder, scaling_cluster) = Normal tt s'.
Proof.
  split; [exact sample_Undefined_nonempty|].
  exact (proj1 (@node_pool_builder_never_panics sample_externals sample_Undefined_nonempty
                  [Hypershift.OpGet; Hypershift.OpWithReplicas None;
                   Hypershift.OpWaitForReplicas 3%Z 2000000000%Z; Hypershift.OpExists]
                  (Some undefined_pool_builder) scaling_cluster)).
Defined.

(** [WithReplicas] on the builder that [PullNodePool] returned: the new
    replica count shows in the definition and in the observed object. *)
Lemma WithReplicas_sets_replicas_only_witness :
  (forall crd, nonempty (@UndefinedCrdObjectErrString sample_externals crd) = true)
  /\ Hypershift.clean pulled_pool_builder = true
  /\ Hypershift.shared pulled_pool_builder = true
  /\ exists b',
       @Hypershift.WithReplicas sample_externals (Some 5%Z)
         (Some pulled_pool_builder, scaling_cluster)
       = Normal Receiver (Some b', scaling_cluster)
       /\ Hypershift.Defn b' = Some (Hypershift.set_Replicas (Some 5%Z) (sample_pool 3))
       /\ Hypershift.Object b' = Some (Hypershift.set_Replicas (Some 5%Z) (sample_pool 3)).
Proof.
  split; [exact sample_Undefined_nonempty|]. split; [reflexivity|]. split; [reflexivity|].
  destruct (proj1 (@WithReplicas_sets_replicas_only sample_externals
                     sample_Undefined_nonempty (Some 5%Z) pulled_pool_builder
                     scaling_cluster) eq_refl)
    as (d & b' & Hd & Hrun & Hdef & _ & Hobj & _).
  inversion Hd; subst d.
  exists b'. split; [exact Hrun|]. split; [exact Hdef|exact (Hobj eq_refl)].
Defined.

(** [Create] on a cluster that cannot be reached reports success; on a
    cluster without the host it creates the host, and the observed object is
    the pointer of the definition. *)
Lemma Create_contract_witness :
  Bmh.errorMsg good_builder = ""
  /\ Bmh.connected good_builder = true
  /\ Bmh.Defn good_builder = Some (sample_host "")
  /\ fetch_not_found (get_reply broken_cluster (gets_made broken_cluster)) = false
  /\ @Bmh.Create sample_externals (good_builder, broken_cluster)
     = Normal (Receiver, None)
         (Bmh.set_Object None good_builder,
          record_call (CallGet (Bmh.key_of good_builder)) broken_cluster)
  /\ fetch_not_found (get_reply empty_cluster (gets_made empty_cluster)) = true
  /\ create_reply empty_cluster (creates_made empty_cluster) = None
  /\ @Bmh.Create sample_externals (good_builder, empty_cluster)
     = Normal (Receiver, None)
         (created_builder,
          record_call (CallCreate (sample_host ""))
            (record_call (CallGet (Bmh.key_of good_builder)) empty_cluster)).
Proof.
  split; [reflexivity|]. split; [reflexivity|]. split; [reflexivity|].
  split; [reflexivity|]. split.
  - exact (proj1 (@Create_contract sample_externals good_builder broken_cluster
                    (sample_host "") eq_refl eq_refl eq_refl) eq_refl).
  - split; [reflexivity|]. split; [reflexivity|].
    exact (proj1 (proj1 (proj2 (@Create_contract sample_externals good_builder empty_cluster
                                  (sample_host "") eq_refl eq_refl eq_refl))
                    eq_refl eq_refl)).
Defined.

(** The host is gone at the third fetch of the wait. *)
Lemma WaitUntilDeleted_run_witness :
  Bmh.connected good_builder = true
  /\ Bmh.WaitUntilDeleted 5000000000%Z (good_builder, vanishing_cluster)
     = Normal None (good_builder, after_gets (Bmh.key_of good_builder) 3 vanishing_cluster).
Proof.
  split; [reflexivity|].
  apply (proj1 (WaitUntilDeleted_run 5000000000%Z good_builder vanishing_cluster eq_refl)
           3 not_found).
  - lia.
  - reflexivity.
  - intros j Hj. destruct j as [|[|j]]; [reflexivity|reflexivity|lia].
  - reflexivity.
Defined.

(** The host is deleted and is gone at the second fetch of the wait. *)
Lemma DeleteAndWaitUntilDeleted_run_witness :
  Bmh.connected good_builder = true
  /\ Bmh.Defn good_builder = Some (sample_host "")
  /\ Bmh.DeleteAndWaitUntilDeleted 5000000000%Z (good_builder, vanishing_cluster)
     = Normal (NilBuilder, None)
         (Bmh.set_Object None good_builder,
          after_gets (Bmh.key_of good_builder) 2
            (record_call (CallDelete (sample_host ""))
               (record_call (CallGet (Bmh.key_of good_builder)) vanishing_cluster))).
Proof.
  split; [reflexivity|]. split; [reflexivity|].
  apply (DeleteAndWaitUntilDeleted_run 5000000000%Z good_builder vanishing_cluster
           (sample_host "") 2 not_found eq_refl eq_refl eq_refl eq_refl).
  - lia.
  - reflexivity.
  - intros j Hj. destruct j as [|[|j]]; [lia|reflexivity|lia].
  - reflexivity.
Defined.

(** The cluster answers the existence check with an error, so nothing is
    created; the host is provisioned at the second fetch of the wait. *)
Lemma CreateAndWaitUntilProvisioned_run_witness :
  Bmh.clean good_builder = true
  /\ Bmh.Defn good_builder = Some (sample_host "")
  /\ @Bmh.CreateAndWaitUntilProvisioned sample_externals 5000000000%Z
       (good_builder, provisioning_cluster)
     = Normal (Receiver, None)
         (Bmh.set_Object (Some (sample_host "provisioned")) good_builder,
          after_gets (Bmh.key_of good_builder) 2
            (record_call (CallGet (Bmh.key_of good_builder)) provisioning_cluster)).
Proof.
  split; [reflexivity|]. split; [reflexivity|].
  apply (proj2 (@CreateAndWaitUntilProvisioned_run sample_externals 5000000000%Z
                  good_builder provisioning_cluster (sample_host "") eq_refl eq_refl) 2).
  - intro H. discriminate H.
  - lia.
  - reflexivity.
  - intros j Hj. destruct j as [|[|j]]; [lia|reflexivity|lia].
  - reflexivity.
Defined.

(** A host that stays provisioned is never ready; an absent pool never has
    three replicas. *)
Lemma timed_out_wait_keeps_last_fetch_witness :
  Bmh.clean good_builder = true
  /\ Hypershift.clean good_pool_builder = true
  /\ (exists n s',
         @Bmh.WaitUntilInStatus sample_externals Bmh.StateReady 2000000000%Z
           (good_builder, sticky_cluster) = Normal (Some ErrWaitTimeout) s'
         /\ Bmh.Object (fst s') = Some (sample_host "provisioned")
         /\ gets_made (snd s') = n /\ 1 <= n)
  /\ (exists s',
         @Hypershift.WaitForReplicas sample_externals 3%Z 2000000000%Z
           (Some good_pool_builder, poolless_cluster)
         = Normal (NilBuilder, Some ErrWaitTimeout) s'
         /\ option_map Hypershift.Object (fst s') = Some None).
Proof.
  split; [reflexivity|]. split; [reflexivity|].
  destruct (@timed_out_wait_keeps_last_fetch sample_externals Bmh.StateReady 3%Z
              2000000000%Z good_builder sticky_cluster good_pool_builder poolless_cluster
              eq_refl eq_refl) as (Hb & Hn).
  split.
  - destruct (Hb (fun j => eq_refl)) as (n & Hn1 & Hrun).
    exists n. eexists. split; [exact Hrun|]. split; [reflexivity|]. split; [|exact Hn1].
    cbn [snd]. rewrite gets_made_after_gets. reflexivity.
  - destruct (Hn (fun j => eq_refl)) as (n & Hn1 & Hrun).
    eexists. split; [exact Hrun|]. reflexivity.
Defined.

(** [Exists] on a cluster that cannot be reached: true, with a nil observed
    object. *)
Lemma Get_and_Exists_effects_witness :
  Bmh.connected good_builder = true
  /\ Hypershift.clean good_pool_builder = true
  /\ exists b',
       Bmh.Exists (good_builder, broken_cluster)
       = Normal true (b', record_call (CallGet (Bmh.key_of good_builder)) broken_cluster)
       /\ Bmh.Object b' = None.
Proof.
  split; [reflexivity|]. split; [reflexivity|].
  destruct (@Get_and_Exists_effects sample_externals good_builder broken_cluster
              good_pool_builder scaling_cluster eq_refl eq_refl)
    as ((_ & b' & HE & _ & _ & _ & Hnil) & _).
  exists b'. split; [exact HE|]. exact (Hnil unavailable eq_refl).
Defined.
